(** * Scheduled WhatsApp notification dispatch of the operating-room backend

    A shallow embedding of the notification subsystem of [index.js]:
    the message sender, the daily job [runDailyWhatsAppJob], the trigger
    endpoint [/api/cron/whatsapp-daily], the status report
    [/api/cron/whatsapp-status] and the two manual resend endpoints
    [/api/cron/whatsapp-resend] and [/api/whatsapp/resend].

    Conventions of the embedding.
    - A nullable text column or an optional request field is an
      [option string]; JavaScript truthiness of such a value is [truthy]
      (present and non-empty).
    - A JavaScript object used as a dictionary is an association list in
      insertion order; [Object_keys] enumerates it the way the language
      does (canonical array indices first, in ascending numeric order, then
      the other keys in insertion order).  Such a list holds the own
      properties; [Js.inherited] tells the keys that [Object.prototype]
      answers for an object literal.  The grouping of the daily job models
      what reading such a key does (the run fails); the dictionaries of the
      status report are read for own properties only, and the statements
      about the report assume that no room names such a key.
    - The relational store is a record of in-memory tables.  A read that
      a handler acts on fails through an oracle of the environment [Env],
      whether the handler inspects the [error] of its result or only its
      [data]; so do the clock, the process environment variables and the
      messaging provider.  A write is recorded as the handler issues it.
    - The [details] column of a log row is represented by what reading it
      yields: NULL, a text [JSON.parse] rejects, or the object the text
      denotes (every writer stores [JSON.stringify] of an object with a
      [rooms] array, or NULL). *)

From Stdlib Require Import String Ascii NArith.
From stdpp Require Import base option list strings pretty sorting gmap.

Local Open Scope string_scope.
Local Open Scope list_scope.

(** ** JavaScript primitives *)

Module Js.

Definition nl : string := String "010"%char EmptyString.
Definition dq : string := String "034"%char EmptyString.

(** Truthiness of a value that is a string, [null] or [undefined]. *)
Definition truthy (o : option string) : bool :=
  match o with
  | Some s => negb (String.eqb s "")
  | None => false
  end.

(** [o || d] for such a value. *)
Definition or_else (o : option string) (d : string) : string :=
  match o with
  | Some s => if String.eqb s "" then d else s
  | None => d
  end.

(** [`${o}`]: interpolation of such a value into a template literal. *)
Definition interpolate (o : option string) : string :=
  match o with
  | Some s => s
  | None => "null"
  end.

(** [s.substring(0, n)]. *)
Definition substring0 (n : nat) (s : string) : string := String.substring 0 n s.

(** [l.join(sep)]. *)
Fixpoint join (sep : string) (l : list string) : string :=
  match l with
  | [] => ""
  | [x] => x
  | x :: rest => x +:+ sep +:+ join sep rest
  end.

(** *** Objects as dictionaries *)

Definition obj (V : Type) : Type := list (string * V).

Fixpoint get {V} (o : obj V) (k : string) : option V :=
  match o with
  | [] => None
  | (k', v) :: rest => if String.eqb k' k then Some v else get rest k
  end.

(** [o[k] = v]: overwrite in place, or add as the newest property. *)
Fixpoint set {V} (o : obj V) (k : string) (v : V) : obj V :=
  match o with
  | [] => [(k, v)]
  | (k', v') :: rest =>
      if String.eqb k' k then (k', v) :: rest else (k', v') :: set rest k v
  end.

Definition digit_of (c : ascii) : option N :=
  let n := N_of_ascii c in
  if andb (48 <=? n)%N (n <=? 57)%N then Some (n - 48)%N else None.

Fixpoint parse_digits (acc : N) (s : string) : option N :=
  match s with
  | EmptyString => Some acc
  | String c rest =>
      match digit_of c with
      | Some d => parse_digits (acc * 10 + d)%N rest
      | None => None
      end
  end.

(** A property key is an array index when it is the canonical decimal
    form of an integer below [2^32 - 1]. *)
Definition array_index (k : string) : option N :=
  match k with
  | EmptyString => None
  | _ =>
      match parse_digits 0 k with
      | Some n =>
          if andb (String.eqb (pretty n) k) (n <? 4294967295)%N
          then Some n else None
      | None => None
      end
  end.

Definition index_keys (ks : list string) : list (N * string) :=
  omap (fun k => (fun n => (n, k)) <$> array_index k) ks.

Definition index_le (a b : N * string) : Prop := (a.1 ≤ b.1)%N.

#[global] Instance index_le_dec : RelDecision index_le.
Proof. intros a b. unfold index_le. apply _. Defined.

(** [Object.keys(o)]. *)
Definition Object_keys {V} (o : obj V) : list string :=
  let ks := o.*1 in
  (merge_sort index_le (index_keys ks)).*2
    ++ filter (fun k => array_index k = None) ks.

(** The property names of [Object.prototype], which an object literal
    inherits: the accessor [__proto__], whose value is an object, and
    eleven functions. *)
Definition Object_prototype : list string :=
  ["constructor"; "__defineGetter__"; "__defineSetter__"; "hasOwnProperty";
   "__lookupGetter__"; "__lookupSetter__"; "isPrototypeOf";
   "propertyIsEnumerable"; "toString"; "valueOf"; "__proto__";
   "toLocaleString"].

Definition inherited (k : string) : bool :=
  bool_decide (k ∈ Object_prototype).

End Js.

(** ** Data model *)

(** A row of [pendaftaran_operasi] (the columns the subsystem reads). *)
Record Surgery := {
  tanggal_rencana_operasi : option string;
  nama_pasien : option string;
  no_rekam_medis : option string;
  dokter_operator : option string;
  dokter_anestesi : option string;
  jam_rencana_operasi : option string;
  jenis_operasi : option string;
  ruangan_rawat_inap : option string;
  diagnosis : option string;
  nomor_telp_1 : option string;
  nomor_telp_2 : option string;
  ruang_operasi : option string
}.

(** A row of [mst_parameter]. *)
Record Param := {
  param_type : string;
  param_name : string;
  param_value : option string;
  is_active : bool
}.

(** What the [try] block of the sender meets: an exception ([fetch] or
    [response.json()] throws, or the reply is [null] and its [status]
    cannot be read), or the provider's JSON, of which the code reads the
    [status] field ([None]: a status that is neither [true] nor
    [false]). *)
Inductive FetchOutcome :=
| FetchThrows (message : string)
| FetchJson (status : option bool) (raw : string).

(** The value returned by [sendWhatsAppMessage]. *)
Record SendResult := {
  success : bool;
  sr_status : option bool;
  sr_response : option string;
  sr_error : option string
}.

Inductive RoomStatus := sent | send_failed | skipped | error.

#[global] Instance RoomStatus_eq_dec : EqDecision RoomStatus.
Proof. solve_decision. Defined.

(** One element of [details.rooms]. *)
Record RoomResult := {
  room : string;
  phone : option string;
  status : RoomStatus;
  surgery_count : option nat;
  wa_response : option SendResult;
  reason : option string;
  resent_at : option nat
}.

(** The object stored in the [details] column. *)
Record Details := {
  targetDate : option string;
  rooms : option (list RoomResult)
}.

Inductive DetailsColumn :=
| DetailsNull
| DetailsUnparsable (raw : string)
| DetailsJson (d : Details).

Inductive LogStatus := running | log_success | log_error.

(** A row of [cron_job_logs]. *)
Record LogEntry := {
  id : nat;
  job_name : string;
  log_status : LogStatus;
  summary : option string;
  details : DetailsColumn;
  started_at : option nat;
  finished_at : option nat;
  timestamp : nat
}.

(** The store, the messages handed to the provider so far, and the number
    of times the daily job was started. *)
Record World := {
  pendaftaran_operasi : list Surgery;
  mst_parameter : list Param;
  cron_job_logs : list LogEntry;
  outbox : list (string * string);
  job_runs : nat
}.

(** Everything a handler reads from outside the store. *)
Record Env := {
  FONNTE_TOKEN : option string;
  CRON_SECRET : option string;
  fetch_send : string -> string -> FetchOutcome;
  now : nat;
  time_label : string;
  today_plus_2 : string;
  surgeries_error : option string;
  param_error : string -> option string;
  log_insert_error : option string;
  logs_error : option string;
  room_params_error : option string
}.

Definition with_outbox (w : World) (o : list (string * string)) : World :=
  {| pendaftaran_operasi := pendaftaran_operasi w;
     mst_parameter := mst_parameter w;
     cron_job_logs := cron_job_logs w;
     outbox := o;
     job_runs := job_runs w |}.

Definition with_logs (w : World) (l : list LogEntry) : World :=
  {| pendaftaran_operasi := pendaftaran_operasi w;
     mst_parameter := mst_parameter w;
     cron_job_logs := l;
     outbox := outbox w;
     job_runs := job_runs w |}.

Definition with_job_started (w : World) : World :=
  {| pendaftaran_operasi := pendaftaran_operasi w;
     mst_parameter := mst_parameter w;
     cron_job_logs := cron_job_logs w;
     outbox := outbox w;
     job_runs := S (job_runs w) |}.

(** ** Message sender *)

(** [sendWhatsAppMessage(target, message)]: without a token nothing is
    posted; otherwise one POST is made and every exception is caught. *)
Definition sendWhatsAppMessage (e : Env) (target message : string) (w : World)
  : SendResult * World :=
  if Js.truthy (FONNTE_TOKEN e) then
    let w' := with_outbox w (outbox w ++ [(target, message)]) in
    match fetch_send e target message with
    | FetchJson st raw =>
        ({| success := bool_decide (st = Some true); sr_status := st;
            sr_response := Some raw; sr_error := None |}, w')
    | FetchThrows msg =>
        ({| success := false; sr_status := None;
            sr_response := None; sr_error := Some msg |}, w')
    end
  else
    ({| success := false; sr_status := None; sr_response := None;
        sr_error := Some "FONNTE_TOKEN not set" |}, w).

(** ** Notification composer *)

Import Js.

(** The [jam] of the three templates. *)
Definition jam_of (s : Surgery) : string :=
  if truthy (jam_rencana_operasi s)
  then substring0 5 (interpolate (jam_rencana_operasi s))
  else "-".

Module Daily.
(** The callback of [roomSurgeries.map] in [runDailyWhatsAppJob]. *)
Definition line (i : nat) (s : Surgery) : string :=
  let jam := jam_of s in
  pretty (i + 1) +:+ ". " +:+ interpolate (nama_pasien s)
    +:+ " (" +:+ or_else (no_rekam_medis s) "-" +:+ ")"
    +:+ nl +:+ "   Dokter Operator: " +:+ or_else (dokter_operator s) "-"
    +:+ nl +:+ "   Dokter Anestesi: " +:+ or_else (dokter_anestesi s) "-"
    +:+ nl +:+ "   Jam     : " +:+ jam
    +:+ nl +:+ "   Jenis   : " +:+ or_else (jenis_operasi s) "-"
    +:+ nl +:+ "   Telp 1  : " +:+ or_else (nomor_telp_1 s) "-"
    +:+ nl +:+ "   Telp 2  : " +:+ or_else (nomor_telp_2 s) "-"
    +:+ nl +:+ "   Ruang OK: " +:+ or_else (ruang_operasi s) "-"
    +:+ nl +:+ "   Diagnosis: " +:+ or_else (diagnosis s) "-".

Definition lines (roomSurgeries : list Surgery) : string :=
  join (nl +:+ nl) (imap line roomSurgeries).

Definition message (displayName targetDate : string)
    (roomSurgeries : list Surgery) : string :=
  "Selamat pagi, " +:+ displayName +:+ "!" +:+ nl +:+ nl
    +:+ "Informasi jadwal operasi *H-2* (" +:+ targetDate +:+ "):"
    +:+ nl +:+ nl +:+ lines roomSurgeries +:+ nl +:+ nl
    +:+ "Total: " +:+ pretty (length roomSurgeries) +:+ " operasi."
    +:+ nl +:+ nl
    +:+ "_Pesan ini dikirim otomatis oleh SORA (Smart Operating Room Access)._".
End Daily.

Module CronResend.
(** The callback of [surgeries.map] in [/api/cron/whatsapp-resend]. *)
Definition line (i : nat) (s : Surgery) : string :=
  let jam := jam_of s in
  pretty (i + 1) +:+ ". " +:+ interpolate (nama_pasien s)
    +:+ " (" +:+ or_else (no_rekam_medis s) "-" +:+ ")"
    +:+ nl +:+ "   Dokter Operator: " +:+ or_else (dokter_operator s) "-"
    +:+ nl +:+ "   Dokter Anestesi: " +:+ or_else (dokter_anestesi s) "-"
    +:+ nl +:+ "   Jam     : " +:+ jam
    +:+ nl +:+ "   Jenis   : " +:+ or_else (jenis_operasi s) "-"
    +:+ nl +:+ "   Telp 1  : " +:+ or_else (nomor_telp_1 s) "-"
    +:+ nl +:+ "   Telp 2  : " +:+ or_else (nomor_telp_2 s) "-"
    +:+ nl +:+ "   Diagnosis: " +:+ or_else (diagnosis s) "-".

Definition lines (surgeries : list Surgery) : string :=
  join (nl +:+ nl) (imap line surgeries).

Definition message (displayName date : string)
    (surgeries : list Surgery) : string :=
  "Selamat pagi, " +:+ displayName +:+ "!" +:+ nl +:+ nl
    +:+ "Informasi jadwal operasi *H-2* (" +:+ date +:+ "):"
    +:+ nl +:+ nl +:+ lines surgeries +:+ nl +:+ nl
    +:+ "Total: " +:+ pretty (length surgeries) +:+ " operasi."
    +:+ nl +:+ nl
    +:+ "_Pesan ini dikirim otomatis via SORA (Manual Resend)._".
End CronResend.

Module Resend.
(** The callback of [surgeries.map] in [/api/whatsapp/resend]. *)
Definition line (i : nat) (s : Surgery) : string :=
  let jam := jam_of s in
  pretty (i + 1) +:+ ". " +:+ interpolate (nama_pasien s)
    +:+ " (" +:+ or_else (no_rekam_medis s) "-" +:+ ")"
    +:+ nl +:+ "   Dokter Operator: " +:+ or_else (dokter_operator s) "-"
    +:+ nl +:+ "   Dokter Anestesi: " +:+ or_else (dokter_anestesi s) "-"
    +:+ nl +:+ "   Jam     : " +:+ jam
    +:+ nl +:+ "   Jenis   : " +:+ or_else (jenis_operasi s) "-"
    +:+ nl +:+ "   Telp 1  : " +:+ or_else (nomor_telp_1 s) "-"
    +:+ nl +:+ "   Telp 2  : " +:+ or_else (nomor_telp_2 s) "-"
    +:+ nl +:+ "   Ruang OK: " +:+ or_else (ruang_operasi s) "-"
    +:+ nl +:+ "   Diagnosis: " +:+ or_else (diagnosis s) "-".

Definition lines (surgeries : list Surgery) : string :=
  join (nl +:+ nl) (imap line surgeries).

Definition message (displayName targetDate : string)
    (surgeries : list Surgery) : string :=
  "Selamat pagi, " +:+ displayName +:+ "!" +:+ nl +:+ nl
    +:+ "Informasi jadwal operasi (" +:+ targetDate +:+ "):"
    +:+ nl +:+ nl +:+ lines surgeries +:+ nl +:+ nl
    +:+ "Total: " +:+ pretty (length surgeries) +:+ " operasi."
    +:+ nl +:+ nl
    +:+ "_Pesan ini dikirim otomatis via SORA (Manual Resend)._".
End Resend.

(** ** Store queries *)

(** [ORDER BY c ASC] on a nullable text column: byte order, NULL last. *)
Definition col_le (a b : option string) : Prop :=
  match a, b with
  | _, None => True
  | None, Some _ => False
  | Some x, Some y => String.le x y
  end.

#[global] Instance col_le_dec : RelDecision col_le.
Proof. intros [x|] [y|]; simpl; apply _. Defined.

Definition by_room_then_jam (s1 s2 : Surgery) : Prop :=
  if decide (ruangan_rawat_inap s1 = ruangan_rawat_inap s2)
  then col_le (jam_rencana_operasi s1) (jam_rencana_operasi s2)
  else col_le (ruangan_rawat_inap s1) (ruangan_rawat_inap s2).

#[global] Instance by_room_then_jam_dec : RelDecision by_room_then_jam.
Proof. intros s1 s2. unfold by_room_then_jam. case_decide; apply _. Defined.

Definition by_jam (s1 s2 : Surgery) : Prop :=
  col_le (jam_rencana_operasi s1) (jam_rencana_operasi s2).

#[global] Instance by_jam_dec : RelDecision by_jam.
Proof. intros s1 s2. unfold by_jam. apply _. Defined.

(** The events of a date, ordered by room and then by time. *)
Definition surgeries_on (date : string) (w : World) : list Surgery :=
  merge_sort by_room_then_jam
    (filter (fun s => tanggal_rencana_operasi s = Some date)
       (pendaftaran_operasi w)).

(** The events of a date and a room, ordered by time. *)
Definition surgeries_on_in (date room : string) (w : World) : list Surgery :=
  merge_sort by_jam
    (filter (fun s => tanggal_rencana_operasi s = Some date
                      /\ ruangan_rawat_inap s = Some room)
       (pendaftaran_operasi w)).

(** The outcome of a query closed by [maybeSingle()]. *)
Inductive Lookup :=
| LookupError (message : string)
| LookupRow (p : option Param).

Definition active_rule (roomName : string) (p : Param) : Prop :=
  param_type p = "RUANG_RAWAT_INAP" /\ param_name p = roomName
  /\ is_active p = true.

#[global] Instance active_rule_dec roomName p : Decision (active_rule roomName p).
Proof. unfold active_rule. apply _. Defined.

(** The active destination rule of a room: no row, the row, or an error
    (more than one row matches, or the lookup itself fails). *)
Definition lookup_param (e : Env) (w : World) (roomName : string) : Lookup :=
  match param_error e roomName with
  | Some msg => LookupError msg
  | None =>
      match filter (active_rule roomName) (mst_parameter w) with
      | [] => LookupRow None
      | [p] => LookupRow (Some p)
      | _ => LookupError "JSON object requested, multiple (or no) rows returned"
      end
  end.

Definition fresh_id (logs : list LogEntry) : nat :=
  S (foldr Nat.max 0 (id <$> logs)).

Definition job : string := "daily_whatsapp_notification".

(** ** Dispatch orchestrator *)

Definition unknown_room : string := "TIDAK DIKETAHUI".

Definition room_key (s : Surgery) : string :=
  or_else (ruangan_rawat_inap s) unknown_room.

(** The callback of [surgeries.reduce] in [runDailyWhatsAppJob]; [inl]
    is the message of the exception it throws.  For a room that names a
    property of [Object.prototype] and is no own property, [acc[room]]
    reads the inherited value: it is truthy, so no array is stored, and it
    has no [push], so the call throws. *)
Definition group_step (acc : obj (list Surgery)) (s : Surgery)
  : string + obj (list Surgery) :=
  let room := room_key s in
  match get acc room with
  | Some l => inr (set acc room (l ++ [s]))
  | None =>
      if inherited room then inl "acc[room].push is not a function"
      else inr (set (set acc room []) room ([] ++ [s]))
  end.

(** [surgeries.reduce(..., {})]: the first exception ends it. *)
Definition groupedByRoom (surgeries : list Surgery)
  : string + obj (list Surgery) :=
  fold_left (fun acc s => match acc with
                          | inr acc => group_step acc s
                          | inl msg => inl msg
                          end)
    surgeries (inr []).

Definition with_row (f : LogEntry -> LogEntry) (i : nat) (logs : list LogEntry)
  : list LogEntry :=
  (fun r => if decide (id r = i) then f r else r) <$> logs.

(** The closure [updateLog] of one run. *)
Definition updateLog (e : Env) (logId : option nat) (st : LogStatus)
    (summ : string) (det : option Details) (w : World) : World :=
  match logId with
  | None => w
  | Some i =>
      with_logs w
        (with_row (fun r =>
           {| id := id r; job_name := job_name r; log_status := st;
              summary := Some summ;
              details := match det with
                         | Some d => DetailsJson d
                         | None => DetailsNull
                         end;
              started_at := started_at r; finished_at := Some (now e);
              timestamp := timestamp r |}) i (cron_job_logs w))
  end.

(** The insertion of the [running] row; yields [logRow?.id || null]. *)
Definition insert_running (e : Env) (w : World) : option nat * World :=
  match log_insert_error e with
  | Some _ => (None, w)
  | None =>
      let i := fresh_id (cron_job_logs w) in
      (if decide (i = 0) then None else Some i,
       with_logs w
         (cron_job_logs w ++
            [{| id := i; job_name := job; log_status := running;
                summary := None; details := DetailsNull;
                started_at := Some (now e); finished_at := None;
                timestamp := now e |}]))
  end.

(** The body of the loop over [uniqueRooms]. *)
Definition daily_room (e : Env) (targetDate : string)
    (grouped : obj (list Surgery))
    (st : list RoomResult * World) (roomName : string)
  : list RoomResult * World :=
  let '(roomResults, w) := st in
  match lookup_param e w roomName with
  | LookupError pmsg =>
      let msg := "Error looking up param for room " +:+ dq +:+ roomName
                   +:+ dq +:+ ": " +:+ pmsg in
      (roomResults ++
         [{| room := roomName; phone := None; status := error;
             surgery_count := None; wa_response := None;
             reason := Some msg; resent_at := None |}], w)
  | LookupRow param =>
      if negb (truthy (param ≫= param_value)) then
        let msg := "No phone number found for room " +:+ dq +:+ roomName
                     +:+ dq +:+ " in mst_parameter, skipping." in
        (roomResults ++
           [{| room := roomName; phone := None; status := skipped;
               surgery_count := None; wa_response := None;
               reason := Some msg; resent_at := None |}], w)
      else
        let phoneNumber := interpolate (param ≫= param_value) in
        let displayName := or_else (param_name <$> param) roomName in
        let roomSurgeries := default [] (get grouped roomName) in
        let message := Daily.message displayName targetDate roomSurgeries in
        let '(sendResult, w) := sendWhatsAppMessage e phoneNumber message w in
        (roomResults ++
           [{| room := roomName; phone := Some phoneNumber;
               status := if success sendResult then sent else send_failed;
               surgery_count := Some (length roomSurgeries);
               wa_response := Some sendResult;
               reason := None; resent_at := None |}], w)
  end.

(** The value returned by [runDailyWhatsAppJob]. *)
Record RunOutcome := {
  run_status : LogStatus;
  run_summary : string;
  run_targetDate : option string;
  run_rooms : option (list RoomResult);
  total_surgeries : option nat
}.

Definition runDailyWhatsAppJob (e : Env) (w : World) : RunOutcome * World :=
  let w := with_job_started w in
  let '(logId, w) := insert_running e w in
  let targetDate := today_plus_2 e in
  match surgeries_error e with
  | Some emsg =>
      let summ := "Job failed: " +:+ emsg in
      ({| run_status := log_error; run_summary := summ;
          run_targetDate := None; run_rooms := None;
          total_surgeries := None |},
       updateLog e logId log_error summ None w)
  | None =>
      let surgeries := surgeries_on targetDate w in
      if decide (length surgeries = 0) then
        let msg := "No surgeries found for " +:+ targetDate
                     +:+ ". No messages sent." in
        ({| run_status := log_success; run_summary := msg;
            run_targetDate := Some targetDate; run_rooms := Some [];
            total_surgeries := Some 0 |},
         updateLog e logId log_success msg None w)
      else
        match groupedByRoom surgeries with
        | inl emsg =>
            let summ := "Job failed: " +:+ emsg in
            ({| run_status := log_error; run_summary := summ;
                run_targetDate := None; run_rooms := None;
                total_surgeries := None |},
             updateLog e logId log_error summ None w)
        | inr grouped =>
            let uniqueRooms := Object_keys grouped in
            let '(roomResults, w) :=
              fold_left (daily_room e targetDate grouped) uniqueRooms ([], w) in
            let summ := "Job completed for " +:+ targetDate
                          +:+ ". Rooms processed: "
                          +:+ pretty (length uniqueRooms)
                          +:+ ". Total surgeries: "
                          +:+ pretty (length surgeries) +:+ "." in
            ({| run_status := log_success; run_summary := summ;
                run_targetDate := Some targetDate;
                run_rooms := Some roomResults;
                total_surgeries := Some (length surgeries) |},
             updateLog e logId log_success summ
               (Some {| targetDate := Some targetDate;
                        rooms := Some roomResults |}) w)
        end
  end.

(** ** Trigger gateway *)

Record Request := {
  headers : gmap string string;
  body_date : option string;
  body_room : option string
}.

Inductive Body :=
| ErrorBody (err : string) (err_details : option string)
| DailyBody (message : string) (result : RunOutcome)
| ResendBody (message : string) (ok : bool) (resent_room : string)
    (whatsapp_response : SendResult).

Record Response := { code : nat; body : Body }.

(** [GET /api/cron/whatsapp-daily]. *)
Definition isVercelCron (req : Request) : bool :=
  bool_decide (headers req !! "x-vercel-cron" = Some "1").

Definition isAuthorized (e : Env) (req : Request) : bool :=
  truthy (CRON_SECRET e)
  && bool_decide (headers req !! "authorization"
                  = Some ("Bearer " +:+ interpolate (CRON_SECRET e))).

Definition whatsapp_daily (e : Env) (req : Request) (w : World)
  : Response * World :=
  if negb (isVercelCron req) && negb (isAuthorized e req) then
    ({| code := 401; body := ErrorBody "Unauthorized" None |}, w)
  else
    let '(result, w) := runDailyWhatsAppJob e w in
    ({| code := 200;
        body := DailyBody "WhatsApp daily cron job executed." result |}, w).

(** ** Execution log store *)

Definition lower (c : ascii) : ascii :=
  let n := nat_of_ascii c in
  if (65 <=? n)%nat && (n <=? 90)%nat then ascii_of_nat (n + 32) else c.

Fixpoint lowercase (s : string) : string :=
  match s with
  | EmptyString => EmptyString
  | String c rest => String (lower c) (lowercase rest)
  end.

(** Pattern characters of [LIKE]; the query layer reads [*] as [%]. *)
Definition any_run (c : ascii) : bool :=
  Ascii.eqb c "%"%char || Ascii.eqb c "*"%char.
Definition any_one (c : ascii) : bool := Ascii.eqb c "_"%char.
Definition escape (c : ascii) : bool := Ascii.eqb c "\"%char.

(** [s LIKE p]; a pattern that ends in the escape character is an error of
    the query, which then yields no row. *)
Fixpoint like (p : string) : string -> bool :=
  match p with
  | EmptyString =>
      fun s => match s with EmptyString => true | String _ _ => false end
  | String c p' =>
      if any_run c then
        fix skip (s : string) : bool :=
          like p' s
          || match s with
             | EmptyString => false
             | String _ s' => skip s'
             end
      else if any_one c then
        fun s => match s with
                 | EmptyString => false
                 | String _ s' => like p' s'
                 end
      else if escape c then
        match p' with
        | EmptyString => fun _ => false
        | String d p'' =>
            fun s => match s with
                     | EmptyString => false
                     | String x s' => Ascii.eqb x d && like p'' s'
                     end
        end
      else
        fun s => match s with
                 | EmptyString => false
                 | String x s' => Ascii.eqb x c && like p' s'
                 end
  end.

(** [.ilike('summary', `%${date}%`)] on a nullable column. *)
Definition ilike_date (date : string) (summ : option string) : bool :=
  match summ with
  | Some s => like (lowercase ("%" +:+ date +:+ "%")) (lowercase s)
  | None => false
  end.

(** [.order('timestamp', { ascending: false }).limit(1)]: a row of the
    greatest timestamp (among equal ones, the first in table order). *)
Fixpoint most_recent (l : list LogEntry) : option LogEntry :=
  match l with
  | [] => None
  | x :: rest =>
      match most_recent rest with
      | Some y => if (timestamp x <? timestamp y)%nat then Some y else Some x
      | None => Some x
      end
  end.

Definition logs_for (date : string) (w : World) : list LogEntry :=
  filter (fun r => job_name r = job /\ ilike_date date (summary r) = true)
    (cron_job_logs w).

Definition latest_log (date : string) (w : World) : option LogEntry :=
  most_recent (logs_for date w).

(** ** Reconciliation reporter *)

Inductive ReportStatus := need_resend | logged (s : RoomStatus).

Record LogResult := {
  lr_status : RoomStatus;
  lr_phone : option string;
  lr_reason : option string
}.

Record RoomReport := {
  rep_room : string;
  rep_surgery_count : nat;
  log_surgery_count : nat;
  has_updates : bool;
  rep_status : ReportStatus;
  rep_phone : option string;
  failure_reason : option string;
  last_attempt : option nat
}.

Record StatusReport := {
  target_date : string;
  rep_total_surgeries : nat;
  rep_rooms : list RoomReport;
  overall_log_status : option LogStatus
}.

(** The callback of the [reduce] that builds [roomCounts], for rooms
    that name no property of [Object.prototype] (for one that does,
    [acc[room] || 0] is the inherited value and the sum is a text). *)
Definition count_step (acc : obj nat) (s : Surgery) : obj nat :=
  let room := room_key s in
  set acc room (default 0 (get acc room) + 1).

Definition roomCounts (surgeries : list Surgery) : obj nat :=
  fold_left count_step surgeries [].

(** Step 4: the active rules of the rooms at hand; the [error] of the
    query is not looked at, and a failed query yields no row. *)
Definition roomParams (e : Env) (uniqueRooms : list string) (w : World)
  : list Param :=
  match room_params_error e with
  | Some _ => []
  | None =>
      filter (fun p => param_type p = "RUANG_RAWAT_INAP"
                       /\ param_name p ∈ uniqueRooms /\ is_active p = true)
        (mst_parameter w)
  end.

(** [roomPhones], later rows overwriting earlier ones. *)
Definition roomPhones (e : Env) (uniqueRooms : list string) (w : World)
  : obj (option string) :=
  fold_left (fun acc p => set acc (param_name p) (param_value p))
    (roomParams e uniqueRooms w) [].

Definition or_null (o : option string) : option string :=
  if truthy o then o else None.

(** Step 6: [logResults], empty when the details are NULL, empty, or do
    not parse (for rooms that name no property of [Object.prototype]; a
    logged room [__proto__] would replace the prototype of the
    dictionary). *)
Definition logResults (latestLog : option LogEntry) : obj LogResult :=
  match latestLog with
  | Some l =>
      match details l with
      | DetailsJson d =>
          fold_left (fun acc r =>
                       set acc (room r)
                         {| lr_status := status r;
                            lr_phone := or_null (phone r);
                            lr_reason := or_null (reason r) |})
            (default [] (rooms d)) []
      | _ => []
      end
  | None => []
  end.

(** The callback of [uniqueRooms.map] in step 7, for a room that names no
    property of [Object.prototype]: [counts], [phones] and [results] are
    read for own properties. *)
Definition room_report (counts : obj nat) (phones : obj (option string))
    (latestLog : option LogEntry) (results : obj LogResult) (rm : string)
  : RoomReport :=
  let count := default 0 (get counts rm) in
  let fallback := or_null (get phones rm ≫= fun v => v) in
  match get results rm with
  | Some logEntry =>
      let st := lr_status logEntry in
      let ph := if truthy (lr_phone logEntry) then lr_phone logEntry
                else fallback in
      let logSurgeryCount :=
        match latestLog with
        | Some l =>
            match details l with
            | DetailsJson d =>
                match rooms d ≫= List.find (fun r => bool_decide (room r = rm)) with
                | Some roomLog => default 0 (surgery_count roomLog)
                | None => 0
                end
            | _ => 0
            end
        | None => 0
        end in
      {| rep_room := rm; rep_surgery_count := count;
         log_surgery_count := logSurgeryCount;
         has_updates := bool_decide (st = sent) && (logSurgeryCount <? count)%nat;
         rep_status := logged st; rep_phone := ph;
         failure_reason := lr_reason logEntry;
         last_attempt := timestamp <$> latestLog |}
  | None =>
      {| rep_room := rm; rep_surgery_count := count;
         log_surgery_count := 0;
         has_updates := (0 <? count)%nat;
         rep_status := need_resend; rep_phone := fallback;
         failure_reason := None;
         last_attempt := timestamp <$> latestLog |}
  end.

(** [GET /api/cron/whatsapp-status], from step 2 on, for the target date
    that step 1 resolved; [inl] is the message of the exception that
    turns into the 500 response. *)
Definition whatsapp_status (e : Env) (date : string) (w : World)
  : string + StatusReport :=
  match surgeries_error e with
  | Some msg => inl msg
  | None =>
      let surgeries :=
        filter (fun s => tanggal_rencana_operasi s = Some date)
          (pendaftaran_operasi w) in
      let counts := roomCounts surgeries in
      let uniqueRooms := Object_keys counts in
      let phones := roomPhones e uniqueRooms w in
      match logs_error e with
      | Some msg => inl msg
      | None =>
          let latestLog := latest_log date w in
          let results := logResults latestLog in
          inr {| target_date := date;
                 rep_total_surgeries := length surgeries;
                 rep_rooms :=
                   room_report counts phones latestLog results <$> uniqueRooms;
                 overall_log_status := log_status <$> latestLog |}
      end
  end.

(** ** Manual resend handler *)

(** [details.rooms.findIndex(...)] followed by the assignment or the push. *)
Definition upsert (rm : string) (resendStatus : RoomResult)
    (rs : list RoomResult) : list RoomResult :=
  match list_find (fun r => room r = rm) rs with
  | Some (roomIdx, _) => <[roomIdx := resendStatus]> rs
  | None => rs ++ [resendStatus]
  end.

(** What the [try] around [JSON.parse] leaves in [details]. *)
Definition parsed (c : DetailsColumn) : Details :=
  match c with
  | DetailsJson d => d
  | DetailsNull | DetailsUnparsable _ => {| targetDate := None; rooms := None |}
  end.

Definition merge_details (rm : string) (resendStatus : RoomResult)
    (c : DetailsColumn) : Details :=
  let d := parsed c in
  {| targetDate := targetDate d;
     rooms := Some (upsert rm resendStatus (default [] (rooms d))) |}.

(** [existingLogs?.[0]]: the handler reads the [data] of the query only,
    so a failed query looks like a date without a log. *)
Definition existing_log (e : Env) (date : string) (w : World)
  : option LogEntry :=
  match logs_error e with
  | Some _ => None
  | None => latest_log date w
  end.

(** Step 5: the write into the log of the date. *)
Definition record_resend (e : Env) (date rm : string)
    (resendStatus : RoomResult) (ok : bool) (w : World) : World :=
  match existing_log e date w with
  | Some latestLog =>
      with_logs w
        (with_row (fun r =>
           {| id := id r; job_name := job_name r; log_status := log_status r;
              summary := Some (interpolate (summary latestLog)
                                 +:+ " (Manual resend for " +:+ rm +:+ " at "
                                 +:+ time_label e +:+ ")");
              details := DetailsJson
                           (merge_details rm resendStatus (details latestLog));
              started_at := started_at r; finished_at := finished_at r;
              timestamp := timestamp r |}) (id latestLog) (cron_job_logs w))
  | None =>
      with_logs w
        (cron_job_logs w ++
           [{| id := fresh_id (cron_job_logs w); job_name := job;
               log_status := if ok then log_success else log_error;
               summary := Some ("Manual resend for room " +:+ rm
                                  +:+ " on date " +:+ date);
               details := DetailsJson {| targetDate := Some date;
                                         rooms := Some [resendStatus] |};
               started_at := Some (now e); finished_at := Some (now e);
               timestamp := now e |}])
  end.

(** The two resend endpoints differ in the name of the date field and in
    the message template. *)
Definition resend_with (field : string)
    (compose : string -> string -> list Surgery -> string)
    (e : Env) (req : Request) (w : World) : Response * World :=
  if negb (truthy (body_date req)) || negb (truthy (body_room req)) then
    ({| code := 400;
        body := ErrorBody (field +:+ " and room are required") None |}, w)
  else
    let date := interpolate (body_date req) in
    let rm := interpolate (body_room req) in
    match surgeries_error e with
    | Some msg =>
        ({| code := 500;
            body := ErrorBody "Internal server error" (Some msg) |}, w)
    | None =>
        let surgeries := surgeries_on_in date rm w in
        if decide (length surgeries = 0) then
          ({| code := 404;
              body := ErrorBody ("No surgeries found for room " +:+ dq +:+ rm
                                   +:+ dq +:+ " on " +:+ date +:+ ".") None |},
           w)
        else
          match lookup_param e w rm with
          | LookupError msg =>
              ({| code := 500;
                  body := ErrorBody "Internal server error" (Some msg) |}, w)
          | LookupRow param =>
              if negb (truthy (param ≫= param_value)) then
                ({| code := 400;
                    body := ErrorBody ("No phone number configured for room "
                                         +:+ dq +:+ rm +:+ dq +:+ ".") None |},
                 w)
              else
                let phoneNumber := interpolate (param ≫= param_value) in
                let displayName := or_else (param_name <$> param) rm in
                let message := compose displayName date surgeries in
                let '(sendResult, w) :=
                  sendWhatsAppMessage e phoneNumber message w in
                let resendStatus :=
                  {| room := rm; phone := Some phoneNumber;
                     status := if success sendResult then sent else send_failed;
                     surgery_count := Some (length surgeries);
                     wa_response := Some sendResult; reason := None;
                     resent_at := Some (now e) |} in
                let w := record_resend e date rm resendStatus
                           (success sendResult) w in
                ({| code := 200;
                    body := ResendBody
                              (if success sendResult
                               then "Notification resent successfully"
                               else "Resend attempt failed")
                              (success sendResult) rm sendResult |}, w)
          end
    end.

(** [POST /api/cron/whatsapp-resend]. *)
Definition whatsapp_resend_cron : Env -> Request -> World -> Response * World :=
  resend_with "date" CronResend.message.

(** [POST /api/whatsapp/resend]. *)
Definition whatsapp_resend : Env -> Request -> World -> Response * World :=
  resend_with "targetDate" Resend.message.

(** ** Vocabulary of the statements *)

(** [needle] occurs in [hay]. *)
Definition includes (hay needle : string) : Prop :=
  exists pre post, hay = pre +:+ needle +:+ post.

(** A field as the composition rule shows it: a dash when it is absent
    (or empty). *)
Definition shown (o : option string) : string :=
  match o with
  | Some v => if decide (v = "") then "-" else v
  | None => "-"
  end.

(** The time of an event cut to hour and minute. *)
Definition hhmm (o : option string) : option string :=
  String.substring 0 5 <$> o.

(** The numbered block of one event, for a given text of the patient name. *)
Definition block (i : nat) (name : string) (s : Surgery) : string :=
  pretty (S i) +:+ ". " +:+ name +:+ " (" +:+ shown (no_rekam_medis s) +:+ ")"
    +:+ nl +:+ "   Dokter Operator: " +:+ shown (dokter_operator s)
    +:+ nl +:+ "   Dokter Anestesi: " +:+ shown (dokter_anestesi s)
    +:+ nl +:+ "   Jam     : " +:+ shown (hhmm (jam_rencana_operasi s))
    +:+ nl +:+ "   Jenis   : " +:+ shown (jenis_operasi s)
    +:+ nl +:+ "   Telp 1  : " +:+ shown (nomor_telp_1 s)
    +:+ nl +:+ "   Telp 2  : " +:+ shown (nomor_telp_2 s)
    +:+ nl +:+ "   Ruang OK: " +:+ shown (ruang_operasi s)
    +:+ nl +:+ "   Diagnosis: " +:+ shown (diagnosis s).

(** The request of a caller that [/api/cron/whatsapp-daily] accepts. *)
Definition scheduler_marked (req : Request) : Prop :=
  headers req !! "x-vercel-cron" = Some "1".

Definition bears_secret (e : Env) (req : Request) : Prop :=
  exists secret, CRON_SECRET e = Some secret /\ secret <> ""
    /\ headers req !! "authorization" = Some ("Bearer " +:+ secret).

(** Sample data. *)
Definition sample_event (name : option string) (ward jam : string) : Surgery :=
  {| tanggal_rencana_operasi := Some "2026-11-04";
     nama_pasien := name; no_rekam_medis := Some "RM-0012";
     dokter_operator := Some "dr. Sari"; dokter_anestesi := None;
     jam_rencana_operasi := Some jam; jenis_operasi := Some "Elektif";
     ruangan_rawat_inap := Some ward; diagnosis := Some "Hernia";
     nomor_telp_1 := Some "0811000111"; nomor_telp_2 := Some "";
     ruang_operasi := Some "OK 1" |}.

Definition blank_event : Surgery :=
  {| tanggal_rencana_operasi := Some "2026-11-04";
     nama_pasien := None; no_rekam_medis := None;
     dokter_operator := None; dokter_anestesi := None;
     jam_rencana_operasi := None; jenis_operasi := None;
     ruangan_rawat_inap := None; diagnosis := None;
     nomor_telp_1 := None; nomor_telp_2 := None;
     ruang_operasi := None |}.

(** A key that [Object.prototype] does not answer for. *)
Definition ordinary (k : string) : Prop := inherited k = false.

Definition ordinary_rooms (surgeries : list Surgery) : Prop :=
  Forall (fun s => ordinary (room_key s)) surgeries.

#[global] Instance ordinary_rooms_dec ss : Decision (ordinary_rooms ss).
Proof. unfold ordinary_rooms, ordinary. apply _. Defined.

(** The dictionary of the groups: every event under the key of its room,
    in the order of the list. *)
Definition add_to_group (acc : obj (list Surgery)) (s : Surgery)
  : obj (list Surgery) :=
  let room := room_key s in
  let acc := match get acc room with
             | Some _ => acc
             | None => set acc room []
             end in
  match get acc room with
  | Some l => set acc room (l ++ [s])
  | None => acc
  end.

Definition grouping (surgeries : list Surgery) : obj (list Surgery) :=
  fold_left add_to_group surgeries [].

(** The grouping keys of a list of events, each once. *)
Definition distinct_keys (surgeries : list Surgery) : list string :=
  remove_dups (room_key <$> surgeries).

(** The number of events of a group. *)
Definition group_size (surgeries : list Surgery) (r : string) : nat :=
  length (filter (fun s => room_key s = r) surgeries).

(** The [surgery_count] of a RoomResult, read as the status report reads
    it ([roomLog.surgery_count || 0]). *)
Definition recorded_count (rr : RoomResult) : nat :=
  default 0 (surgery_count rr).

(** A RoomResult of a group whose destination did not resolve. *)
Definition unresolved (rr : RoomResult) : Prop :=
  status rr = skipped \/ status rr = error.

#[global] Instance unresolved_dec rr : Decision (unresolved rr).
Proof. unfold unresolved. apply _. Defined.

(** What the RoomResult [rr] of the group [r] must be, given what the
    resolution of the destination of [r] yields and what the sender
    returns: [error] for a failed lookup, [skipped] without an active rule
    or with an empty address, else [sent] or [send_failed] by the
    [success] of the send, with the size of the group as [surgery_count]. *)
Definition verdict (e : Env) (w : World) (date : string)
    (grouped : obj (list Surgery)) (r : string) (rr : RoomResult) : Prop :=
  match lookup_param e w r with
  | LookupError _ => status rr = error /\ surgery_count rr = None
  | LookupRow p =>
      if truthy (p ≫= param_value) then
        let sr := (sendWhatsAppMessage e (interpolate (p ≫= param_value))
                     (Daily.message (or_else (param_name <$> p) r) date
                        (default [] (get grouped r))) w).1 in
        wa_response rr = Some sr
        /\ status rr = (if success sr then sent else send_failed)
        /\ surgery_count rr = Some (length (default [] (get grouped r)))
        /\ phone rr = p ≫= param_value
      else status rr = skipped /\ surgery_count rr = None
  end.

(** The events a run started in [w] finds. *)
Definition target_events (e : Env) (w : World) : list Surgery :=
  surgeries_on (today_plus_2 e) w.

(** The log row of a run that started in [w], once closed. *)
Definition run_row (e : Env) (w : World) (st : LogStatus) (summ : string)
    (det : DetailsColumn) : LogEntry :=
  {| id := fresh_id (cron_job_logs w); job_name := job; log_status := st;
     summary := Some summ; details := det;
     started_at := Some (now e); finished_at := Some (now e);
     timestamp := now e |}.

(** The log after a run that started in [w]: one more row when the
    insertion of the [running] row succeeded, else the log as it was. *)
Definition log_after_run (e : Env) (w : World) (st : LogStatus)
    (summ : string) (det : DetailsColumn) : list LogEntry :=
  match log_insert_error e with
  | Some _ => cron_job_logs w
  | None => cron_job_logs w ++ [run_row e w st summ det]
  end.

Definition completed_summary (date : string) (nrooms nsurgeries : nat) : string :=
  "Job completed for " +:+ date +:+ ". Rooms processed: " +:+ pretty nrooms
    +:+ ". Total surgeries: " +:+ pretty nsurgeries +:+ ".".

Definition no_surgeries_summary (date : string) : string :=
  "No surgeries found for " +:+ date +:+ ". No messages sent.".

(** The scenario of the specification: three events in Ward A, one in
    Ward B, and an active destination rule for Ward A only. *)
Definition scenario_world : World :=
  {| pendaftaran_operasi :=
       [sample_event (Some "Budi") "Ward A" "09:00:00";
        sample_event (Some "Citra") "Ward B" "08:00:00";
        sample_event (Some "Dewi") "Ward A" "08:00:00";
        sample_event (Some "Eko") "Ward A" "10:30:00"];
     mst_parameter :=
       [{| param_type := "RUANG_RAWAT_INAP"; param_name := "Ward A";
           param_value := Some "081234500001"; is_active := true |}];
     cron_job_logs := []; outbox := []; job_runs := 0 |}.

Definition scenario_env : Env :=
  {| FONNTE_TOKEN := Some "token"; CRON_SECRET := Some "s3cret";
     fetch_send := fun _ _ => FetchJson (Some true) "{}";
     now := 100; time_label := "07:00:00"; today_plus_2 := "2026-11-04";
     surgeries_error := None; param_error := fun _ => None;
     log_insert_error := None; logs_error := None;
     room_params_error := None |}.

(** A world without events. *)
Definition idle_world : World :=
  {| pendaftaran_operasi := [];
     mst_parameter := mst_parameter scenario_world;
     cron_job_logs := []; outbox := []; job_runs := 0 |}.

(** The count a RoomResult must carry: none for a group that did not
    resolve, else the size of its group. *)
Definition carries_group_size (surgeries : list Surgery) (rr : RoomResult)
  : Prop :=
  if decide (unresolved rr) then surgery_count rr = None
  else surgery_count rr = Some (group_size surgeries (room rr)).

(** The RoomResults a run started in [w] returns and, when its log row
    exists, stores in the details of that row. *)
Definition run_records (e : Env) (w : World) (results : list RoomResult)
  : Prop :=
  run_status (runDailyWhatsAppJob e w).1 = log_success
  /\ run_rooms (runDailyWhatsAppJob e w).1 = Some results
  /\ cron_job_logs (runDailyWhatsAppJob e w).2
     = log_after_run e w log_success
         (completed_summary (today_plus_2 e) (length results)
            (length (target_events e w)))
         (DetailsJson {| targetDate := Some (today_plus_2 e);
                         rooms := Some results |}).

(** The RoomResults of a log row, as the handlers read them: none when the
    details are NULL, do not parse, or have no [rooms]. *)
Definition logged_rooms (l : option LogEntry) : list RoomResult :=
  match l with
  | Some l => default [] (rooms (parsed (details l)))
  | None => []
  end.

(** A log none of whose RoomResults bears the room [__proto__], the one
    key whose assignment would change what the dictionary of the logged
    groups inherits. *)
Definition plain_log (l : option LogEntry) : Prop :=
  "__proto__" ∉ room <$> logged_rooms l.

#[global] Instance plain_log_dec l : Decision (plain_log l).
Proof. unfold plain_log. apply _. Defined.

(** The first and the last RoomResult of a group in a list. *)
Definition first_for (rm : string) (rs : list RoomResult) : option RoomResult :=
  List.find (fun r => bool_decide (room r = rm)) rs.

Definition last_for (rm : string) (rs : list RoomResult) : option RoomResult :=
  first_for rm (reverse rs).

(** The events of a date, as the status report counts them. *)
Definition events_on (date : string) (w : World) : list Surgery :=
  filter (fun s => tanggal_rencana_operasi s = Some date)
    (pendaftaran_operasi w).

(** The world the scenario leaves after one run of the daily job. *)
Definition logged_world : World :=
  (runDailyWhatsAppJob scenario_env scenario_world).2.

Definition report_of (r : string + StatusReport) : StatusReport :=
  match r with
  | inr report => report
  | inl _ => {| target_date := ""; rep_total_surgeries := 0; rep_rooms := [];
                overall_log_status := None |}
  end.

(** The RoomResult a resend records. *)
Definition resend_status (e : Env) (rm phoneNumber : string) (n : nat)
    (sr : SendResult) : RoomResult :=
  {| room := rm; phone := Some phoneNumber;
     status := if success sr then sent else send_failed;
     surgery_count := Some n; wa_response := Some sr; reason := None;
     resent_at := Some (now e) |}.

Definition resend_request (date rm : string) : Request :=
  {| headers := ∅; body_date := Some date; body_room := Some rm |}.

Definition not_found (rm date : string) : Response :=
  {| code := 404;
     body := ErrorBody ("No surgeries found for room " +:+ dq +:+ rm +:+ dq
                          +:+ " on " +:+ date +:+ ".") None |}.

Definition no_phone (rm : string) : Response :=
  {| code := 400;
     body := ErrorBody ("No phone number configured for room " +:+ dq +:+ rm
                          +:+ dq +:+ ".") None |}.

(** The RoomResults of one group in a log row. *)
(** A resend request that reaches the send: date and group are given,
    the query of the events succeeds and finds some, and the lookup finds
    one active rule with an address. *)
Definition resend_ready (e : Env) (req : Request) (w : World) : Prop :=
  let date := interpolate (body_date req) in
  let rm := interpolate (body_room req) in
  truthy (body_date req) = true /\ truthy (body_room req) = true
  /\ surgeries_error e = None
  /\ surgeries_on_in date rm w ≠ []
  /\ match lookup_param e w rm with
     | LookupRow p => truthy (p ≫= param_value) = true
     | LookupError _ => False
     end.

#[global] Instance resend_ready_dec e req w : Decision (resend_ready e req w).
Proof.
  unfold resend_ready. cbv zeta.
  destruct (lookup_param _ _ _); apply _.
Defined.


(** The RoomResults of the other groups in a log row. *)
Definition results_but (rm : string) (l : LogEntry) : list RoomResult :=
  filter (fun r => room r ≠ rm) (logged_rooms (Some l)).

(** The invariant of the log: in every row, at most one RoomResult per
    grouping key. *)
Definition keys_unique (l : LogEntry) : Prop :=
  NoDup (room <$> logged_rooms (Some l)).

#[global] Instance keys_unique_dec l : Decision (keys_unique l).
Proof. unfold keys_unique. apply _. Defined.

Definition log_invariant (w : World) : Prop :=
  Forall keys_unique (cron_job_logs w).

#[global] Instance log_invariant_dec w : Decision (log_invariant w).
Proof. unfold log_invariant. apply _. Defined.


Definition row_of (o : option LogEntry) : LogEntry :=
  match o with
  | Some l => l
  | None => {| id := 0; job_name := ""; log_status := running; summary := None;
               details := DetailsNull; started_at := None; finished_at := None;
               timestamp := 0 |}
  end.

(** An environment whose provider rejects every message. *)
Definition failing_env : Env :=
  {| FONNTE_TOKEN := Some "token"; CRON_SECRET := Some "s3cret";
     fetch_send := fun _ _ => FetchJson (Some false) "{}";
     now := 200; time_label := "09:15:00"; today_plus_2 := "2026-11-04";
     surgeries_error := None; param_error := fun _ => None;
     log_insert_error := None; logs_error := None;
     room_params_error := None |}.


(** A log whose only row holds a text that does not parse. *)
Definition corrupt_world : World :=
  {| pendaftaran_operasi := pendaftaran_operasi scenario_world;
     mst_parameter := mst_parameter scenario_world;
     cron_job_logs :=
       [{| id := 7; job_name := job; log_status := log_success;
           summary := Some "Job completed for 2026-11-04. Rooms processed: 2.";
           details := DetailsUnparsable "{rooms: [";
           started_at := Some 50; finished_at := Some 51; timestamp := 50 |}];
     outbox := []; job_runs := 1 |}.

(** ** Further vocabulary *)

(** An environment that differs in the outcome of the insertion of the
    [running] row only. *)
Definition with_log_insert_error (e : Env) (err : option string) : Env :=
  {| FONNTE_TOKEN := FONNTE_TOKEN e; CRON_SECRET := CRON_SECRET e;
     fetch_send := fetch_send e; now := now e; time_label := time_label e;
     today_plus_2 := today_plus_2 e; surgeries_error := surgeries_error e;
     param_error := param_error e; log_insert_error := err;
     logs_error := logs_error e;
     room_params_error := room_params_error e |}.

(** An environment whose query of the events fails. *)
Definition broken_env : Env :=
  {| FONNTE_TOKEN := Some "token"; CRON_SECRET := Some "s3cret";
     fetch_send := fun _ _ => FetchJson (Some true) "{}";
     now := 100; time_label := "07:00:00"; today_plus_2 := "2026-11-04";
     surgeries_error := Some "connection refused";
     param_error := fun _ => None;
     log_insert_error := None; logs_error := None;
     room_params_error := None |}.

(** A world with other events. *)
Definition with_events (w : World) (events : list Surgery) : World :=
  {| pendaftaran_operasi := events;
     mst_parameter := mst_parameter w;
     cron_job_logs := cron_job_logs w;
     outbox := outbox w;
     job_runs := job_runs w |}.

(** The destination of a room: its one active rule in the table of
    rules, when the lookup finds it and it bears an address. *)
Definition destination (e : Env) (w : World) (r : string) : option Param :=
  match param_error e r with
  | Some _ => None
  | None =>
      match filter (active_rule r) (mst_parameter w) with
      | [p] => if truthy (param_value p) then Some p else None
      | _ => None
      end
  end.

(** The message the daily job owes a room: to the address of the rule,
    about the events of the room. *)
Definition post_for (e : Env) (w : World) (date : string)
    (surgeries : list Surgery) (r : string) : option (string * string) :=
  (fun p => (interpolate (param_value p),
             Daily.message r date
               (filter (fun s => room_key s = r) surgeries)))
    <$> destination e w r.

(** ** Authentication middleware

    [jwt.verify] is an oracle of [AuthEnv]: it yields the decoded claims
    or throws.  The handler of a route is the continuation [next]. *)

(** [s.split(' ')]. *)
Fixpoint split_space (s : string) : list string :=
  match s with
  | EmptyString => [EmptyString]
  | String c rest =>
      if Ascii.eqb c " "%char then EmptyString :: split_space rest
      else match split_space rest with
           | word :: words => String c word :: words
           | [] => [String c EmptyString]
           end
  end.

(** What the middleware reads from outside the request: the secret of the
    process environment and [jwt.verify], which yields the decoded claims
    or throws. *)
Record AuthEnv := {
  JWT_SECRET : option string;
  jwt_verify : string -> string -> option string
}.

(** [authHeader && authHeader.split(' ')[1]]. *)
Definition bearer_token (req : Request) : option string :=
  let authHeader := headers req !! "authorization" in
  if truthy authHeader then split_space (interpolate authHeader) !! 1
  else authHeader.

(** [authenticateToken]; [next] is the handler of the route, which gets
    the decoded claims as [req.user]. *)
Definition authenticateToken (a : AuthEnv) (req : Request)
    (next : string -> World -> Response * World) (w : World)
  : Response * World :=
  let token := bearer_token req in
  if negb (truthy token) then
    ({| code := 401;
        body := ErrorBody "Access denied. No token provided." None |}, w)
  else
    match jwt_verify a (interpolate token)
            (or_else (JWT_SECRET a) "fallback_secret") with
    | Some decoded => next decoded w
    | None =>
        ({| code := 403;
            body := ErrorBody "Invalid or expired token." None |}, w)
    end.

(** [GET /api/test-whatsapp-job]. *)
Definition test_whatsapp_job (a : AuthEnv) (e : Env) (req : Request)
    (w : World) : Response * World :=
  authenticateToken a req
    (fun _ w =>
       let '(result, w) := runDailyWhatsAppJob e w in
       ({| code := 200; body := DailyBody "WhatsApp job completed." result |},
        w)) w.

(** The two resend routes, behind the middleware. *)
Definition api_cron_whatsapp_resend (a : AuthEnv) (e : Env) (req : Request)
    (w : World) : Response * World :=
  authenticateToken a req (fun _ => whatsapp_resend_cron e req) w.

Definition api_whatsapp_resend (a : AuthEnv) (e : Env) (req : Request)
    (w : World) : Response * World :=
  authenticateToken a req (fun _ => whatsapp_resend e req) w.

(** A string without a space. *)
Fixpoint spaceless (s : string) : bool :=
  match s with
  | EmptyString => true
  | String c rest => negb (Ascii.eqb c " "%char) && spaceless rest
  end.

(** The header carries [token] as its second word: a first word, one
    space, the token, and then the end or a further space. *)
Definition second_word (header token : string) : Prop :=
  exists scheme rest,
    spaceless scheme = true /\ spaceless token = true
    /\ (rest = "" \/ exists rest', rest = " " +:+ rest')
    /\ header = scheme +:+ " " +:+ token +:+ rest.

(** ** Login

    The table of accounts, [bcrypt.compare] and [jwt.sign] are oracles of
    [LoginEnv]. *)

Module Users.

(** A row of the table [users]. *)
Record User := {
  id : nat;
  email : option string;
  full_name : option string;
  role : option string;
  is_active : option bool;
  password_hash : option string
}.

(** [const { password_hash, ...userInfo } = user]. *)
Record UserInfo := {
  info_id : nat;
  info_email : option string;
  info_full_name : option string;
  info_role : option string;
  info_is_active : option bool
}.

(** The claims [jwt.sign] is given. *)
Record Payload := {
  payload_id : nat;
  payload_email : option string;
  payload_full_name : option string;
  payload_role : option string
}.

End Users.

(** What the login route reads from outside the request: the table, a
    failure of the query, [bcrypt.compare] and [jwt.sign] ([None]: the
    call throws). *)
Record LoginEnv := {
  users : list Users.User;
  users_error : option string;
  bcrypt_compare : string -> option string -> option bool;
  jwt_sign : Users.Payload -> string -> option string
}.

Inductive LoginResponse :=
| LoginOk (user : Users.UserInfo) (token : string)
| LoginError (code : nat) (error : string).

(** [.select('*').eq('email', email).single()]: the one row with that
    address; no row, several rows and a failed query all give an error. *)
Definition user_by_email (l : LoginEnv) (email : string) : option Users.User :=
  if truthy (users_error l) then None
  else match filter (fun u => Users.email u = Some email) (users l) with
       | [user] => Some user
       | _ => None
       end.

(** [POST /api/login]. *)
Definition login (a : AuthEnv) (l : LoginEnv) (email password : option string)
  : LoginResponse :=
  if negb (truthy email) || negb (truthy password) then
    LoginError 400 "Email and password are required"
  else
    match user_by_email l (interpolate email) with
    | None => LoginError 401 "Invalid email or password"
    | Some user =>
        if negb (default false (Users.is_active user)) then
          LoginError 403 "Account is deactivated"
        else
          match bcrypt_compare l (interpolate password)
                  (Users.password_hash user) with
          | None => LoginError 500 "Internal server error"
          | Some isMatch =>
              if negb isMatch then LoginError 401 "Invalid email or password"
              else
                match jwt_sign l
                        {| Users.payload_id := Users.id user;
                           Users.payload_email := Users.email user;
                           Users.payload_full_name := Users.full_name user;
                           Users.payload_role := Users.role user |}
                        (or_else (JWT_SECRET a) "fallback_secret") with
                | None => LoginError 500 "Internal server error"
                | Some token =>
                    LoginOk {| Users.info_id := Users.id user;
                               Users.info_email := Users.email user;
                               Users.info_full_name := Users.full_name user;
                               Users.info_role := Users.role user;
                               Users.info_is_active := Users.is_active user |}
                            token
                end
          end
    end.

(** The library signs what it verifies: a token [jwt.sign] makes under a
    secret is one non-empty word and [jwt.verify] accepts it under the
    same secret. *)
Definition jwt_round_trip (a : AuthEnv) (l : LoginEnv) : Prop :=
  forall payload secret token,
    jwt_sign l payload secret = Some token ->
    token <> "" /\ spaceless token = true
    /\ is_Some (jwt_verify a token secret).

(** A verifier that accepts one token under one secret, and a table with
    one account whose token that is. *)
Definition sample_auth : AuthEnv :=
  {| JWT_SECRET := None;
     jwt_verify := fun token secret =>
       if String.eqb token "good" && String.eqb secret "fallback_secret"
       then Some "operator" else None |}.

Definition sample_login : LoginEnv :=
  {| users := [{| Users.id := 7; Users.email := Some "op@example.org";
                  Users.full_name := Some "Operator"; Users.role := None;
                  Users.is_active := Some true;
                  Users.password_hash := Some "$2b$10$hash" |}];
     users_error := None;
     bcrypt_compare := fun password hash =>
       match hash with
       | Some h => Some (String.eqb password "secret"
                         && String.eqb h "$2b$10$hash")
       | None => None
       end;
     jwt_sign := fun _ secret =>
       if String.eqb secret "fallback_secret" then Some "good" else None |}.

Definition authorized_request (value : string) : Request :=
  {| headers := {[ "authorization" := value ]};
     body_date := Some "2026-11-04"; body_room := Some "Ward A" |}.

(** ** Yearly reports

    A report handler is given what its queries return (the rows of the
    requested year, or the error); [month_of v] stands for
    [new Date(v).getMonth() + 1] on the server.  A row of a report is a
    dictionary in insertion order, as everywhere. *)

(** The values a report row holds: the label of the row, a count, or the
    [NaN] that incrementing a label yields; [VUndef] is what reading an
    absent property gives. *)
Inductive JsVal :=
| VStr (s : string)
| VNum (n : nat)
| VNaN
| VUndef.

#[global] Instance JsVal_eq_dec : EqDecision JsVal.
Proof. solve_decision. Defined.

Definition INDONESIAN_MONTHS : list string :=
  ["JANUARI"; "PEBRUARI"; "MARET"; "APRIL"; "MEI"; "JUNI";
   "JULI"; "AGUSTUS"; "SEPTEMBER"; "OKTOBER"; "NOPEMBER"; "DESEMBER"].

(** [row[k]] and [row.k]. *)
Definition read (row : obj JsVal) (k : string) : JsVal :=
  default VUndef (get row k).

(** [row[k]++]: a count goes up by one; a label (a month name, which is
    no numeral), [NaN] and [undefined] all leave [NaN]. *)
Definition increment_at (row : obj JsVal) (k : string) : obj JsVal :=
  set row k match read row k with
            | VNum n => VNum (n + 1)
            | _ => VNaN
            end.

(** [v || 0]. *)
Definition or_zero (v : JsVal) : JsVal :=
  match v with
  | VNum n => VNum n
  | VStr s => if String.eqb s "" then VNum 0 else VStr s
  | VNaN | VUndef => VNum 0
  end.

(** [a + b]: the sum of two numbers, the concatenation when one side is a
    string. *)
Definition js_text (v : JsVal) : string :=
  match v with
  | VStr s => s
  | VNum n => pretty n
  | VNaN => "NaN"
  | VUndef => "undefined"
  end.

Definition js_add (a b : JsVal) : JsVal :=
  match a, b with
  | VNum x, VNum y => VNum (x + y)
  | VStr _, _ | _, VStr _ => VStr (js_text a +:+ js_text b)
  | _, _ => VNaN
  end.

(** [report.reduce((s, r) => s + (r[k] || 0), 0)]. *)
Definition column_total (report : list (obj JsVal)) (k : string) : JsVal :=
  fold_left (fun s r => js_add s (or_zero (read r k))) report (VNum 0).

(** [report.reduce((s, r) => s + r[k], 0)]. *)
Definition column_sum (report : list (obj JsVal)) (k : string) : JsVal :=
  fold_left (fun s r => js_add s (read r k)) report (VNum 0).

(** What a report route answers: the rows, the 400 response of a request
    that lacks a parameter, or the 500 response with the message of the
    failed query. *)
Inductive ReportResponse :=
| ReportRows (rows : list (obj JsVal))
| ReportBadRequest (error : string)
| ReportError (details : string).

(** A row of the query of [/api/report/yearly-summary-penjamin]: the two
    selected columns. *)
Record PenjaminRecord := {
  p_tanggal : option string;
  penjamin : option string
}.

Module PenjaminReport.

(** The callback of [INDONESIAN_MONTHS.map]; [month_of v] is
    [new Date(v).getMonth() + 1], [None] for a date that does not parse. *)
Definition month_row (month_of : option string -> option nat)
    (listPenjamin : list string) (dbData : list PenjaminRecord)
    (index : nat) (monthName : string) : obj JsVal :=
  let monthNum := index + 1 in
  let row := [("BULAN", VStr monthName)] in
  let row := fold_left (fun row p => set row p (VNum 0)) listPenjamin row in
  fold_left
    (fun row d =>
       let dMonth := month_of (p_tanggal d) in
       if bool_decide (dMonth = Some monthNum)
          && bool_decide (is_Some (get row (interpolate (penjamin d))))
       then increment_at row (interpolate (penjamin d))
       else row)
    dbData row.

Definition total_row (listPenjamin : list string) (report : list (obj JsVal))
  : obj JsVal :=
  fold_left (fun totalRow p => set totalRow p (column_total report p))
    listPenjamin [("BULAN", VStr "TOTAL")].

(** [GET /api/report/yearly-summary-penjamin], given what its two queries
    yield ([inl]: the message of the error).  A [param_name] serves as a
    property key only, so it is taken as the string it converts to. *)
Definition handler (month_of : option string -> option nat)
    (listPenjaminData : string + list (option string))
    (dbData : string + list PenjaminRecord) : ReportResponse :=
  match listPenjaminData with
  | inl msg => ReportError msg
  | inr listPenjaminData =>
      let listPenjamin := interpolate <$> listPenjaminData in
      if decide (length listPenjamin = 0) then ReportRows []
      else
        match dbData with
        | inl msg => ReportError msg
        | inr dbData =>
            let report :=
              imap (month_row month_of listPenjamin dbData) INDONESIAN_MONTHS in
            ReportRows (report ++ [total_row listPenjamin report])
        end
  end.

End PenjaminReport.

(** A row of the query of [/api/report/yearly-summary]: the two selected
    columns. *)
Record SummaryRecord := {
  s_tanggal : option string;
  s_jenis_operasi : option string
}.

Definition upper (c : ascii) : ascii :=
  let n := nat_of_ascii c in
  if (97 <=? n)%nat && (n <=? 122)%nat then ascii_of_nat (n - 32) else c.

Fixpoint uppercase (s : string) : string :=
  match s with
  | EmptyString => EmptyString
  | String c rest => String (upper c) (uppercase rest)
  end.

Module YearlySummary.

(** [d.klasifikasi_operasi]: the query selects [tanggal_rencana_operasi]
    and [jenis_operasi] only, so its rows have no such property. *)
Definition klasifikasi_operasi (d : SummaryRecord) : option string := None.

(** The callback of [dbData.forEach] for the row of one month. *)
Definition count_record (month_of : option string -> option nat)
    (monthNum : nat) (row : obj JsVal) (d : SummaryRecord) : obj JsVal :=
  let dMonth := month_of (s_tanggal d) in
  if bool_decide (dMonth = Some monthNum) then
    let row :=
      if bool_decide (s_jenis_operasi d = Some "ELEKTIF")
      then increment_at row "ELEKTIF"
      else if bool_decide (s_jenis_operasi d = Some "CITO")
           then increment_at row "CITO"
           else row in
    let klasifikasi :=
      if truthy (klasifikasi_operasi d)
      then uppercase <$> klasifikasi_operasi d else None in
    if truthy klasifikasi then
      let k := interpolate klasifikasi in
      if decide (read row k <> VUndef) then increment_at row k
      else set row k (VNum 1)
    else row
  else row.

(** The callback of [INDONESIAN_MONTHS.map]. *)
Definition month_row (month_of : option string -> option nat)
    (dbData : list SummaryRecord) (index : nat) (monthName : string)
  : obj JsVal :=
  let monthNum := index + 1 in
  let row := [("BULAN", VStr monthName); ("ELEKTIF", VNum 0); ("CITO", VNum 0);
              ("KHUSUS", VNum 0); ("BESAR", VNum 0); ("SEDANG", VNum 0);
              ("KECIL", VNum 0)] in
  fold_left (count_record month_of monthNum) dbData row.

Definition total_row (report : list (obj JsVal)) : obj JsVal :=
  [("BULAN", VStr "TOTAL");
   ("ELEKTIF", column_total report "ELEKTIF");
   ("CITO", column_total report "CITO");
   ("KHUSUS", column_total report "KHUSUS");
   ("BESAR", column_total report "BESAR");
   ("SEDANG", column_total report "SEDANG");
   ("KECIL", column_total report "KECIL")].

(** [GET /api/report/yearly-summary], given what its query yields. *)
Definition handler (month_of : option string -> option nat)
    (dbData : string + list SummaryRecord) : ReportResponse :=
  match dbData with
  | inl msg => ReportError msg
  | inr dbData =>
      let report := imap (month_row month_of dbData) INDONESIAN_MONTHS in
      ReportRows (report ++ [total_row report])
  end.

End YearlySummary.

Module PoliReport.

(** The callback of [dbData.forEach]: the one of the general report, word
    for word. *)
Definition count_record := YearlySummary.count_record.

(** The callback of [INDONESIAN_MONTHS.map]. *)
Definition month_row (month_of : option string -> option nat)
    (dbData : list SummaryRecord) (index : nat) (monthName : string)
  : obj JsVal :=
  let monthNum := index + 1 in
  let row := [("BULAN", VStr monthName); ("ELEKTIF", VNum 0); ("CITO", VNum 0);
              ("KHUSUS", VNum 0); ("BESAR", VNum 0); ("SEDANG", VNum 0);
              ("KECIL", VNum 0); ("JUMLAH", VNum 0)] in
  let row := fold_left (count_record month_of monthNum) dbData row in
  set row "JUMLAH" (js_add (read row "ELEKTIF") (read row "CITO")).

Definition total_row (report : list (obj JsVal)) : obj JsVal :=
  let totalRow := [("BULAN", VStr "TOTAL");
                   ("ELEKTIF", column_sum report "ELEKTIF");
                   ("CITO", column_sum report "CITO");
                   ("JUMLAH", VNum 0)] in
  set totalRow "JUMLAH"
    (js_add (read totalRow "ELEKTIF") (read totalRow "CITO")).

(** The row of the mock report for one month; [random_below k n] is
    [Math.floor(Math.random() * n)] at the [k]-th call of [Math.random]. *)
Definition mock_row (random_below : nat -> nat -> nat)
    (index : nat) (month : string) : obj JsVal :=
  [("BULAN", VStr month);
   ("ELEKTIF", VNum (random_below (2 * index) 50));
   ("CITO", VNum (random_below (2 * index + 1) 20));
   ("JUMLAH", VNum 0)].

(** [GET /api/report/yearly-summary-poli], given the query parameters
    [poli] and [mock] and what the query yields. *)
Definition handler (month_of : option string -> option nat)
    (random_below : nat -> nat -> nat) (poli mock : option string)
    (dbData : string + list SummaryRecord) : ReportResponse :=
  if negb (truthy poli) && negb (bool_decide (mock = Some "true")) then
    ReportBadRequest ("Parameter " +:+ dq +:+ "poli" +:+ dq +:+ " is required")
  else if bool_decide (mock = Some "true") then
    let mockReport := imap (mock_row random_below) INDONESIAN_MONTHS in
    let mockReport :=
      (fun row => set row "JUMLAH"
                    (js_add (read row "ELEKTIF") (read row "CITO")))
        <$> mockReport in
    ReportRows (mockReport ++ [total_row mockReport])
  else
    match dbData with
    | inl msg => ReportError msg
    | inr dbData =>
        let report := imap (month_row month_of dbData) INDONESIAN_MONTHS in
        ReportRows (report ++ [total_row report])
    end.

End PoliReport.

(** The records of one month, and those of any month of the year. *)
Definition in_month {A} (month_of : option string -> option nat)
    (tanggal : A -> option string) (m : nat) (l : list A) : list A :=
  filter (fun d => month_of (tanggal d) = Some m) l.

Definition a_month (o : option nat) : bool :=
  match o with
  | Some m => bool_decide (m ∈ seq 1 12)
  | None => false
  end.

Definition in_a_month {A} (month_of : option string -> option nat)
    (tanggal : A -> option string) (l : list A) : list A :=
  filter (fun d => a_month (month_of (tanggal d)) = true) l.

(** The row of one month of the general report, for given counts, and
    the rows of the report of one unit. *)
Definition summary_row (name : string) (elektif cito : nat) : obj JsVal :=
  [("BULAN", VStr name); ("ELEKTIF", VNum elektif); ("CITO", VNum cito);
   ("KHUSUS", VNum 0); ("BESAR", VNum 0); ("SEDANG", VNum 0);
   ("KECIL", VNum 0)].

Definition poli_row (name : string) (elektif cito : nat) : obj JsVal :=
  summary_row name elektif cito ++ [("JUMLAH", VNum (elektif + cito))].

Definition short_row (label : string) (elektif cito : nat) : obj JsVal :=
  [("BULAN", VStr label); ("ELEKTIF", VNum elektif); ("CITO", VNum cito);
   ("JUMLAH", VNum (elektif + cito))].

Definition of_jenis (jenis : string) (l : list SummaryRecord)
  : list SummaryRecord :=
  filter (fun d => s_jenis_operasi d = Some jenis) l.

Definition of_penjamin (p : string) (l : list PenjaminRecord)
  : list PenjaminRecord :=
  filter (fun d => interpolate (penjamin d) = p) l.

(** A calendar that reads the month off an ISO date. *)
Definition iso_month (v : option string) : option nat :=
  match v with
  | Some s =>
      match parse_digits 0 (String.substring 5 2 s) with
      | Some n => if (1 <=? N.to_nat n)%nat && (N.to_nat n <=? 12)%nat
                  then Some (N.to_nat n) else None
      | None => None
      end
  | None => Some 1
  end.

Definition sample_summary : list SummaryRecord :=
  [{| s_tanggal := Some "2026-01-15"; s_jenis_operasi := Some "ELEKTIF" |};
   {| s_tanggal := Some "2026-01-20"; s_jenis_operasi := Some "CITO" |};
   {| s_tanggal := Some "2026-03-02"; s_jenis_operasi := Some "ELEKTIF" |};
   {| s_tanggal := Some "2026-03-09"; s_jenis_operasi := None |}].

Definition sample_penjamin : list PenjaminRecord :=
  [{| p_tanggal := Some "2026-01-15"; penjamin := Some "BPJS" |};
   {| p_tanggal := Some "2026-01-20"; penjamin := Some "UMUM" |};
   {| p_tanggal := Some "2026-03-02"; penjamin := Some "BPJS" |};
   {| p_tanggal := Some "2026-03-09"; penjamin := Some "ASURANSI X" |};
   {| p_tanggal := Some "2026-05-11"; penjamin := None |}].

(** * Properties *)

(** ** The model on sample data *)

Example Object_keys_order :
  Object_keys [("b", 1); ("10", 2); ("a", 3); ("2", 4); ("01", 5)]
  = ["2"; "10"; "b"; "a"; "01"].
Proof. reflexivity. Qed.

Example like_examples :
  ilike_date "2026-11-04"
    (Some "Job completed for 2026-11-04. Rooms processed: 2.") = true
  /\ ilike_date "2026-11-04" (Some "No surgeries found for 2026-11-05.") = false
  /\ ilike_date "2026-11-04" None = false
  /\ like "a_c%" "abcdef" = true /\ like "a\_c" "abc" = false.
Proof. by vm_compute. Qed.

Example scenario_run :
  (fun rr => (room rr, status rr, surgery_count rr))
    <$> default [] (run_rooms (runDailyWhatsAppJob scenario_env scenario_world).1)
  = [("Ward A", sent, Some 3); ("Ward B", skipped, None)]
  /\ fst <$> outbox logged_world = ["081234500001"]
  /\ (fun rep => (rep_room rep, rep_status rep, has_updates rep))
       <$> rep_rooms (report_of (whatsapp_status scenario_env "2026-11-04"
                                   logged_world))
     = [("Ward A", logged sent, false); ("Ward B", logged skipped, false)].
Proof. by vm_compute. Qed.

Example resend_over_unparsable_details :
  (fun l => (id l, (fun rr => (room rr, status rr)) <$> logged_rooms (Some l)))
    <$> cron_job_logs
          (whatsapp_resend failing_env (resend_request "2026-11-04" "Ward A")
             corrupt_world).2
  = [(7, [("Ward A", send_failed)])].
Proof. by vm_compute. Qed.

(** ** Strings *)

Section strings.
Implicit Types s t u : string.

Lemma append_cons c s t : String c s +:+ t = String c (s +:+ t).
Proof. reflexivity. Qed.

Lemma append_nil_l s : "" +:+ s = s.
Proof. reflexivity. Qed.

Lemma append_nil_r s : s +:+ "" = s.
Proof. induction s as [|c s IH]; [done|]. by rewrite append_cons, IH. Qed.

Lemma append_assoc s t u : (s +:+ t) +:+ u = s +:+ t +:+ u.
Proof. induction s as [|c s IH]; [done|]. by rewrite !append_cons, IH. Qed.

Lemma includes_refl s : includes s s.
Proof. exists "", "". by rewrite append_nil_l, append_nil_r. Qed.

Lemma includes_app_l s t u : includes t u -> includes (s +:+ t) u.
Proof.
  intros (pre & post & ->). exists (s +:+ pre), post.
  by rewrite append_assoc.
Qed.

Lemma includes_app_r s t u : includes s u -> includes (s +:+ t) u.
Proof.
  intros (pre & post & ->). exists pre, (post +:+ t).
  by rewrite !append_assoc.
Qed.

Lemma join_includes sep (l : list string) i x :
  l !! i = Some x -> includes (join sep l) x.
Proof.
  revert i. induction l as [|y l IH]; intros i Hi; [done|].
  destruct i as [|i]; simplify_eq/=.
  - destruct l; [apply includes_refl|].
    apply includes_app_r, includes_refl.
  - destruct l as [|z l]; [done|].
    do 2 apply includes_app_l. by apply (IH i).
Qed.
End strings.

(** ** Notification composer *)

Lemma or_else_shown o : or_else o "-" = shown o.
Proof.
  destruct o as [v|]; [|done]. unfold or_else, shown.
  destruct (String.eqb_spec v ""); by case_decide.
Qed.

Lemma jam_of_shown s : jam_of s = shown (hhmm (jam_rencana_operasi s)).
Proof.
  unfold jam_of, truthy, hhmm, substring0.
  destruct (jam_rencana_operasi s) as [v|]; [|done]. simpl.
  destruct v as [|c v]; [done|].
  unfold shown. case_decide as Hv; [|done].
  (* a non-empty time has a non-empty first five characters *)
  destruct v as [|c1 [|c2 [|c3 [|c4 v]]]]; by simplify_eq/=.
Qed.

Lemma daily_line_block i s name :
  nama_pasien s = Some name -> Daily.line i s = block i name s.
Proof.
  intros Hn. unfold Daily.line, block.
  rewrite !or_else_shown, jam_of_shown, Hn.
  by replace (i + 1) with (S i) by lia.
Qed.

Lemma daily_message_includes_line displayName date l i s :
  l !! i = Some s ->
  includes (Daily.message displayName date l) (Daily.line i s).
Proof.
  intros Hi. unfold Daily.message, Daily.lines.
  do 10 apply includes_app_l. apply includes_app_r.
  apply (join_includes _ _ i). by rewrite list_lookup_imap, Hi.
Qed.

(** The template of [/api/whatsapp/resend] renders an event as the
    orchestrator does. *)
Lemma resend_line_daily i s : Resend.line i s = Daily.line i s.
Proof. reflexivity. Qed.

Lemma cron_resend_line_differs i s : CronResend.line i s <> Daily.line i s.
Proof.
  unfold CronResend.line, Daily.line. intros H.
  repeat (apply (inj (String.app _)) in H).
  discriminate H.
Qed.

(** C8, as stated, fails: an absent patient name is not rendered as a
    dash; the block of such an event starts with the text [null]. *)
Lemma C8_absent_name_is_not_a_dash :
  nama_pasien blank_event = None
  /\ Daily.line 0 blank_event <> block 0 (shown (nama_pasien blank_event)) blank_event
  /\ Daily.line 0 blank_event = block 0 "null" blank_event.
Proof. split; [done|]. split; [|by vm_compute]. by vm_compute. Qed.

(** C8 (amended): the message of a group contains, for the event at every
    position, one block numbered from 1 that shows the patient name as
    stored, then the record identifier, the two staff names, the time cut
    to hour and minute, the procedure type, the two contact numbers, the
    operating location and the diagnosis, each of these nine shown as a
    dash when absent or empty. *)
Theorem C8_numbered_block_per_event
    (displayName date : string) (l : list Surgery) (i : nat) (s : Surgery)
    (name : string) :
  l !! i = Some s ->
  nama_pasien s = Some name ->
  includes (Daily.message displayName date l) (block i name s)
  /\ length (imap Daily.line l) = length l.
Proof.
  intros Hi Hn. rewrite <-(daily_line_block i s name Hn).
  split; [by apply daily_message_includes_line|].
  by rewrite length_imap.
Qed.

Lemma C8_numbered_block_per_event_witness :
  includes
    (Daily.message "Ward A" "2026-11-04"
       [sample_event (Some "Budi") "Ward A" "08:30:00"])
    (block 0 "Budi" (sample_event (Some "Budi") "Ward A" "08:30:00"))
  /\ length (imap Daily.line [sample_event (Some "Budi") "Ward A" "08:30:00"])
     = 1.
Proof.
  apply (C8_numbered_block_per_event "Ward A" "2026-11-04"
           [sample_event (Some "Budi") "Ward A" "08:30:00"] 0
           (sample_event (Some "Budi") "Ward A" "08:30:00") "Budi");
    reflexivity.
Defined.

(** C7: at this event the block rendered by [/api/cron/whatsapp-resend]
    differs from the orchestrator's, which has the line of the operating
    location that the resend template lacks. *)
Theorem C7_cron_resend_rendering_differs :
  let s := sample_event (Some "Budi") "Ward A" "08:30:00" in
  CronResend.lines [s] <> Daily.lines [s]
  /\ includes (Daily.lines [s]) ("   Ruang OK: OK 1")
  /\ CronResend.lines [s]
     = "1. Budi (RM-0012)" +:+ nl +:+ "   Dokter Operator: dr. Sari"
         +:+ nl +:+ "   Dokter Anestesi: -" +:+ nl +:+ "   Jam     : 08:30"
         +:+ nl +:+ "   Jenis   : Elektif" +:+ nl +:+ "   Telp 1  : 0811000111"
         +:+ nl +:+ "   Telp 2  : -" +:+ nl +:+ "   Diagnosis: Hernia".
Proof.
  split; [by vm_compute|]. split; [|by vm_compute].
  exists ("1. Budi (RM-0012)" +:+ nl +:+ "   Dokter Operator: dr. Sari"
         +:+ nl +:+ "   Dokter Anestesi: -" +:+ nl +:+ "   Jam     : 08:30"
         +:+ nl +:+ "   Jenis   : Elektif" +:+ nl +:+ "   Telp 1  : 0811000111"
         +:+ nl +:+ "   Telp 2  : -" +:+ nl),
    (nl +:+ "   Diagnosis: Hernia").
  by vm_compute.
Qed.

(** ** Trigger gateway *)

Lemma isVercelCron_spec req : isVercelCron req = true <-> scheduler_marked req.
Proof. unfold isVercelCron, scheduler_marked. by rewrite bool_decide_eq_true. Qed.

Lemma isAuthorized_spec e req : isAuthorized e req = true <-> bears_secret e req.
Proof.
  unfold isAuthorized, bears_secret, truthy.
  rewrite andb_true_iff, bool_decide_eq_true. split.
  - intros [Ht Hh]. destruct (CRON_SECRET e) as [secret|]; [|done].
    exists secret. split; [done|]. split; [|done].
    intros ->. by simplify_eq/=.
  - intros (secret & -> & Hne & Hh). split; [|done]. simpl.
    by destruct (String.eqb_spec secret "").
Qed.

(** ** Objects *)

Section objects.
Context {V : Type}.
Implicit Types (o : obj V) (k : string) (v : V).

Lemma get_set o k v k' :
  get (set o k v) k' = if decide (k = k') then Some v else get o k'.
Proof.
  induction o as [|[k0 v0] o IH]; simpl.
  - destruct (String.eqb_spec k k'); by case_decide.
  - destruct (String.eqb_spec k0 k) as [->|Hk0]; simpl.
    + destruct (String.eqb_spec k k'); by case_decide.
    + rewrite IH. destruct (String.eqb_spec k0 k'); [|done].
      case_decide; congruence.
Qed.

Lemma get_is_Some o k : is_Some (get o k) <-> k ∈ o.*1.
Proof.
  induction o as [|[k0 v0] o IH]; simpl.
  - split; [by intros [? ?]|by intros ?%elem_of_nil].
  - rewrite elem_of_cons, <-IH.
    destruct (String.eqb_spec k0 k) as [->|Hne].
    + split; [by left|by eexists].
    + split; [by right|]. by intros [->|?].
Qed.

Lemma keys_set o k v :
  (set o k v).*1 = if decide (k ∈ o.*1) then o.*1 else o.*1 ++ [k].
Proof.
  induction o as [|[k0 v0] o IH].
  - destruct (decide (k ∈ _)) as [H|H]; [by apply elem_of_nil in H|done].
  - cbn [set]. destruct (String.eqb_spec k0 k) as [->|Hne].
    + rewrite decide_True; [done|]. rewrite fmap_cons. left.
    + rewrite !fmap_cons, IH. cbn [fst].
      destruct (decide (k ∈ o.*1)) as [H|H].
      * rewrite decide_True; [done|]. by right.
      * rewrite decide_False; [done|]. by intros [?|?]%elem_of_cons.
Qed.

Lemma NoDup_keys_set o k v : NoDup o.*1 -> NoDup (set o k v).*1.
Proof.
  intros Hnd. rewrite keys_set. case_decide; [done|].
  apply NoDup_app. split_and!; [done| |apply NoDup_singleton].
  intros x Hx ->%list_elem_of_singleton. done.
Qed.

Lemma index_keys_snd (ks : list string) :
  (index_keys ks).*2 = filter (fun k => ¬ array_index k = None) ks.
Proof.
  unfold index_keys. induction ks as [|k ks IH]; [done|].
  rewrite filter_cons. cbn [omap list_omap].
  destruct (array_index k) as [n|] eqn:Hk; cbn [fmap option_fmap option_map].
  - destruct (decide _) as [H|H]; [|by destruct H].
    rewrite fmap_cons. cbn [snd]. by rewrite IH.
  - destruct (decide _) as [H|H]; [by destruct H|done].
Qed.

Lemma Object_keys_perm o : Object_keys o ≡ₚ o.*1.
Proof.
  unfold Object_keys.
  rewrite (merge_sort_Permutation index_le), index_keys_snd.
  rewrite Permutation_app_comm. apply filter_app_complement.
Qed.

Lemma elem_of_Object_keys o k : k ∈ Object_keys o <-> k ∈ o.*1.
Proof. by rewrite Object_keys_perm. Qed.

Lemma NoDup_Object_keys o : NoDup o.*1 -> NoDup (Object_keys o).
Proof. by rewrite Object_keys_perm. Qed.
End objects.

(** ** Grouping *)

Section grouping.
Implicit Types (acc : obj (list Surgery)) (s : Surgery) (r : string).

Lemma get_add_to_group acc s r :
  get (add_to_group acc s) r
  = if decide (room_key s = r) then Some (default [] (get acc r) ++ [s])
    else get acc r.
Proof.
  unfold add_to_group. destruct (get acc (room_key s)) as [l|] eqn:Hg.
  - rewrite Hg, get_set. case_decide; [|done]. subst. by rewrite Hg.
  - rewrite get_set, decide_True by done. rewrite !get_set.
    case_decide; [|done]. subst. by rewrite Hg.
Qed.

Lemma NoDup_add_to_group acc s : NoDup acc.*1 -> NoDup (add_to_group acc s).*1.
Proof.
  intros Hnd. unfold add_to_group.
  destruct (get acc (room_key s)) as [l|] eqn:Hg.
  - rewrite Hg. by apply NoDup_keys_set.
  - rewrite get_set, decide_True by done. by do 2 apply NoDup_keys_set.
Qed.

Lemma keys_add_to_group acc s r :
  r ∈ (add_to_group acc s).*1 <-> r = room_key s \/ r ∈ acc.*1.
Proof.
  rewrite <-!get_is_Some, get_add_to_group. case_decide as H.
  - subst. split; [by left|by eexists].
  - split; [by right|]. by intros [->|?].
Qed.

Lemma fold_add_to_group ss : forall acc,
  NoDup acc.*1 ->
  NoDup (fold_left add_to_group ss acc).*1
  /\ (forall r, r ∈ (fold_left add_to_group ss acc).*1
                <-> r ∈ room_key <$> ss \/ r ∈ acc.*1)
  /\ (forall r, default [] (get (fold_left add_to_group ss acc) r)
                = default [] (get acc r)
                    ++ filter (fun s => room_key s = r) ss).
Proof.
  induction ss as [|s ss IH]; intros acc Hnd.
  - split_and!; [done| |].
    + intros r. rewrite fmap_nil, elem_of_nil. tauto.
    + intros r. by rewrite filter_nil, app_nil_r.
  - cbn [fold_left].
    destruct (IH (add_to_group acc s) (NoDup_add_to_group acc s Hnd))
      as (Hnd' & Hkeys & Hget).
    split_and!; [done| |].
    + intros r. rewrite Hkeys, keys_add_to_group, fmap_cons, elem_of_cons.
      tauto.
    + intros r. rewrite Hget, get_add_to_group, filter_cons.
      destruct (decide (room_key s = r)); [|done].
      simpl. by rewrite <-app_assoc.
Qed.

Lemma NoDup_grouping ss : NoDup (grouping ss).*1.
Proof. apply (fold_add_to_group ss []). constructor. Qed.

Lemma keys_grouping ss r :
  r ∈ (grouping ss).*1 <-> r ∈ room_key <$> ss.
Proof.
  destruct (fold_add_to_group ss [] (NoDup_nil_2)) as (_ & H & _).
  unfold grouping. rewrite H, fmap_nil, elem_of_nil. tauto.
Qed.

Lemma get_grouping ss r :
  default [] (get (grouping ss) r)
  = filter (fun s => room_key s = r) ss.
Proof.
  destruct (fold_add_to_group ss [] (NoDup_nil_2)) as (_ & _ & H).
  unfold grouping. by rewrite H.
Qed.

(** [uniqueRooms] lists every grouping key once. *)
Lemma uniqueRooms_distinct ss :
  Object_keys (grouping ss) ≡ₚ distinct_keys ss.
Proof.
  apply NoDup_Permutation.
  - apply NoDup_Object_keys, NoDup_grouping.
  - apply NoDup_remove_dups.
  - intros r. unfold distinct_keys.
    by rewrite elem_of_Object_keys, keys_grouping, elem_of_remove_dups.
Qed.

Lemma sum_indicator (k : string) (ks : list string) :
  NoDup ks -> k ∈ ks ->
  sum_list ((fun r => if decide (k = r) then 1 else 0) <$> ks) = 1.
Proof.
  induction ks as [|k0 ks IH]; [by intros _ ?%elem_of_nil|].
  intros [Hk0 Hnd]%NoDup_cons Hin. rewrite fmap_cons. cbn [sum_list].
  case_decide as Hk; subst.
  - assert (sum_list ((fun r => if decide (k0 = r) then 1 else 0) <$> ks) = 0)
      as ->; [|done].
    clear IH Hin Hnd. induction ks as [|k1 ks IH]; [done|].
    rewrite fmap_cons. cbn [sum_list].
    rewrite decide_False by (intros ->; apply Hk0; left).
    apply IH. intros ?. apply Hk0. by right.
  - apply elem_of_cons in Hin as [?|Hin]; [done|]. by rewrite IH.
Qed.

(** The sizes of the groups add up to the number of events. *)
Lemma sum_group_size ss (ks : list string) :
  NoDup ks -> (forall s, s ∈ ss -> room_key s ∈ ks) ->
  sum_list (group_size ss <$> ks) = length ss.
Proof.
  intros Hnd. induction ss as [|s ss IH]; intros Hin.
  - unfold group_size. clear. induction ks; [done|].
    rewrite fmap_cons. by cbn [sum_list].
  - assert (forall r, group_size (s :: ss) r
              = (if decide (room_key s = r) then 1 else 0) + group_size ss r)
      as Hstep.
    { intros r. unfold group_size. rewrite filter_cons.
      by case_decide. }
    assert (sum_list (group_size (s :: ss) <$> ks)
            = sum_list ((fun r => if decide (room_key s = r) then 1 else 0)
                          <$> ks)
              + sum_list (group_size ss <$> ks)) as ->.
    { clear -Hstep. induction ks as [|k ks IHk]; [done|].
      rewrite !fmap_cons. cbn [sum_list]. rewrite IHk, Hstep. cbv [Datatypes.id]. lia. }
    rewrite sum_indicator; [|done|apply Hin; left].
    rewrite IH; [done|]. intros s' Hs'. apply Hin. by right.
Qed.
(** The reduction of the daily job builds the dictionary of the groups
    when every room is an ordinary key. *)
Lemma group_step_ordinary acc s :
  ordinary (room_key s) -> group_step acc s = inr (add_to_group acc s).
Proof.
  intros Hs. unfold group_step, add_to_group.
  destruct (get acc (room_key s)) as [l|] eqn:Hg.
  - by rewrite Hg.
  - rewrite Hs. by rewrite get_set, decide_True.
Qed.

Lemma fold_group_step_ordinary ss : forall acc,
  ordinary_rooms ss ->
  fold_left (fun a s => match a with
                        | inr acc => group_step acc s
                        | inl msg => inl msg
                        end) ss (inr acc)
  = inr (fold_left add_to_group ss acc).
Proof.
  induction ss as [|s ss IH]; intros acc Hss; [done|].
  apply Forall_cons in Hss as [Hs Hss]. cbn [fold_left].
  rewrite group_step_ordinary by done. by apply IH.
Qed.

Lemma groupedByRoom_ordinary ss :
  ordinary_rooms ss -> groupedByRoom ss = inr (grouping ss).
Proof. apply fold_group_step_ordinary. Qed.

Lemma fold_group_step_thrown ss msg :
  fold_left (fun a s => match a with
                        | inr acc => group_step acc s
                        | inl msg => inl msg
                        end) ss (inl msg)
  = inl msg.
Proof. induction ss as [|s ss IH]; [done|]. apply IH. Qed.

(** It throws at the first room that names an inherited property. *)
Lemma groupedByRoom_throws ss :
  ¬ ordinary_rooms ss ->
  groupedByRoom ss = inl "acc[room].push is not a function".
Proof.
  intros Hss. unfold groupedByRoom.
  assert (forall acc, (forall r, r ∈ acc.*1 -> ordinary r) -> NoDup acc.*1 ->
    fold_left (fun a s => match a with
                          | inr acc => group_step acc s
                          | inl msg => inl msg
                          end) ss (inr acc)
    = inl "acc[room].push is not a function") as H.
  { induction ss as [|s ss IH]; intros acc Hacc Hnd.
    - destruct Hss. constructor.
    - cbn [fold_left].
      destruct (inherited (room_key s)) eqn:Hs.
      + unfold group_step.
        destruct (get acc (room_key s)) as [l|] eqn:Hg.
        * assert (room_key s ∈ acc.*1) as Hin
            by (apply get_is_Some; by eexists).
          apply Hacc in Hin. unfold ordinary in Hin. congruence.
        * rewrite Hs. apply fold_group_step_thrown.
      + rewrite group_step_ordinary by done. apply IH.
        * intros Hrest. apply Hss. by constructor.
        * intros r [->|Hr]%keys_add_to_group; [done|by apply Hacc].
        * by apply NoDup_add_to_group. }
  apply H; [by intros r ?%elem_of_nil|constructor].
Qed.

End grouping.

(** ** Sender and per-group loop *)

Lemma sendWhatsAppMessage_spec e target message w :
  exists posts,
    (sendWhatsAppMessage e target message w).2
    = with_outbox w (outbox w ++ posts)
    /\ (posts = [] \/ posts = [(target, message)]).
Proof.
  unfold sendWhatsAppMessage. destruct (truthy (FONNTE_TOKEN e)).
  - destruct (fetch_send e target message); exists [(target, message)]; eauto.
  - exists []. rewrite app_nil_r. by destruct w; eauto.
Qed.

(** What the sender returns does not depend on the world. *)
Lemma sendWhatsAppMessage_result e target message w w' :
  (sendWhatsAppMessage e target message w).1
  = (sendWhatsAppMessage e target message w').1.
Proof.
  unfold sendWhatsAppMessage. destruct (truthy (FONNTE_TOKEN e)); [|done].
  by destruct (fetch_send e target message).
Qed.

Lemma daily_room_spec e date grouped acc w r :
  exists rr posts,
    daily_room e date grouped (acc, w) r
    = (acc ++ [rr], with_outbox w (outbox w ++ posts))
    /\ room rr = r /\ verdict e w date grouped r rr.
Proof.
  unfold daily_room, verdict.
  destruct (lookup_param e w r) as [pmsg|param].
  - eexists _, []. rewrite app_nil_r. split; [by destruct w|done].
  - destruct (truthy (param ≫= param_value)) eqn:Hp; cbn [negb].
    + destruct (sendWhatsAppMessage_spec e (interpolate (param ≫= param_value))
                  (Daily.message (or_else (param_name <$> param) r) date
                     (default [] (get grouped r))) w)
        as (posts & Hw & _).
      destruct (sendWhatsAppMessage _ _ _ w) as [sr w'] eqn:Hsend.
      cbn [fst snd] in *. subst w'.
      eexists _, posts. split; [done|]. cbn. split_and!; eauto.
      destruct (param ≫= param_value); by simplify_eq/=.
    + eexists _, []. rewrite app_nil_r. split; [by destruct w|done].
Qed.

Lemma verdict_ext e w w' date grouped r rr :
  mst_parameter w' = mst_parameter w ->
  verdict e w' date grouped r rr -> verdict e w date grouped r rr.
Proof.
  intros Hp. unfold verdict, lookup_param. rewrite Hp.
  destruct (param_error e r); [done|].
  destruct (filter _ _) as [|p [|]]; [| |done];
    (destruct (truthy _); [|done]);
    by rewrite (sendWhatsAppMessage_result e _ _ w' w).
Qed.

Lemma daily_loop_spec e date grouped rs : forall acc w,
  exists results posts,
    fold_left (daily_room e date grouped) rs (acc, w)
    = (acc ++ results, with_outbox w (outbox w ++ posts))
    /\ Forall2 (fun r rr => room rr = r /\ verdict e w date grouped r rr)
         rs results.
Proof.
  induction rs as [|r rs IH]; intros acc w.
  - exists [], []. rewrite !app_nil_r. split; [by destruct w|constructor].
  - cbn [fold_left].
    destruct (daily_room_spec e date grouped acc w r)
      as (rr & p1 & -> & Hroom & Hv).
    destruct (IH (acc ++ [rr]) (with_outbox w (outbox w ++ p1)))
      as (results & p2 & -> & Hall).
    exists (rr :: results), (p1 ++ p2). split.
    + unfold with_outbox. cbn. by rewrite <-!app_assoc.
    + constructor; [done|].
      eapply Forall2_impl; [exact Hall|]. cbn.
      intros r' rr' [? ?]. split; [done|]. eapply verdict_ext; [|eassumption]; done.
Qed.

(** ** Dispatch orchestrator *)

Lemma fresh_id_gt (logs : list LogEntry) r : r ∈ logs -> id r < fresh_id logs.
Proof.
  unfold fresh_id. induction logs as [|r0 logs IH]; [by intros ?%elem_of_nil|].
  intros [->|Hin]%elem_of_cons; rewrite fmap_cons; cbn [foldr]; [lia|].
  specialize (IH Hin). lia.
Qed.

Lemma with_row_other f i (logs : list LogEntry) :
  (forall r, r ∈ logs -> id r ≠ i) -> with_row f i logs = logs.
Proof.
  intros H. unfold with_row. induction logs as [|r logs IH]; [done|].
  rewrite fmap_cons, IH by (intros; apply H; by right).
  rewrite decide_False; [done|]. apply H. left.
Qed.

Lemma with_row_fresh f (logs : list LogEntry) r :
  id r = fresh_id logs ->
  with_row f (fresh_id logs) (logs ++ [r]) = logs ++ [f r].
Proof.
  intros Hr. unfold with_row. rewrite fmap_app.
  fold (with_row f (fresh_id logs) logs). rewrite with_row_other.
  - cbn. by rewrite decide_True.
  - intros r' Hr'%fresh_id_gt. lia.
Qed.

(** A run that finds events: its outcome and the world it leaves. *)
Lemma run_with_events e w :
  surgeries_error e = None ->
  surgeries_on (today_plus_2 e) w ≠ [] ->
  ordinary_rooms (surgeries_on (today_plus_2 e) w) ->
  let surgeries := surgeries_on (today_plus_2 e) w in
  let grouped := grouping surgeries in
  let summ := completed_summary (today_plus_2 e)
                (length (Object_keys grouped)) (length surgeries) in
  exists results posts,
    Forall2 (fun r rr => room rr = r
                         /\ verdict e w (today_plus_2 e) grouped r rr)
      (Object_keys grouped) results
    /\ (runDailyWhatsAppJob e w).1
       = {| run_status := log_success; run_summary := summ;
            run_targetDate := Some (today_plus_2 e);
            run_rooms := Some results;
            total_surgeries := Some (length surgeries) |}
    /\ (runDailyWhatsAppJob e w).2
       = {| pendaftaran_operasi := pendaftaran_operasi w;
            mst_parameter := mst_parameter w;
            cron_job_logs :=
              log_after_run e w log_success summ
                (DetailsJson {| targetDate := Some (today_plus_2 e);
                                rooms := Some results |});
            outbox := outbox w ++ posts;
            job_runs := S (job_runs w) |}.
Proof.
  intros Herr Hne Hord surgeries grouped summ.
  assert (length surgeries ≠ 0) as Hlen.
  { subst surgeries. by destruct (surgeries_on _ _). }
  pose proof (groupedByRoom_ordinary _ Hord) as Hgrouped.
  fold surgeries grouped in Hgrouped.
  unfold runDailyWhatsAppJob, insert_running, log_after_run. rewrite Herr.
  destruct (log_insert_error e) as [ierr|] eqn:Hins.
  - change (surgeries_on (today_plus_2 e) _) with surgeries.
    rewrite decide_False by done.
    rewrite Hgrouped.
    destruct (daily_loop_spec e (today_plus_2 e) grouped (Object_keys grouped)
                [] (with_job_started w)) as (results & posts & Heq & Hall).
    rewrite Heq. exists results, posts. split; [|done].
    eapply Forall2_impl; [exact Hall|]. cbn.
    intros r' rr' [? ?]. split; [done|]. eapply verdict_ext; [|eassumption]; done.
  - change (surgeries_on (today_plus_2 e) _) with surgeries.
    rewrite decide_False by done.
    rewrite Hgrouped.
    rewrite decide_False by done.
    match goal with
    | |- context [fold_left _ _ ([], ?w0)] =>
        destruct (daily_loop_spec e (today_plus_2 e) grouped
                    (Object_keys grouped) [] w0)
          as (results & posts & Heq & Hall)
    end.
    rewrite Heq. exists results, posts. split.
    { eapply Forall2_impl; [exact Hall|]. cbn.
      intros r' rr' [? ?]. split; [done|]. eapply verdict_ext; [|eassumption]; done. }
    split; [done|]. unfold updateLog. cbn -[with_row fresh_id].
    rewrite with_row_fresh by done. done.
Qed.

(** A run that finds no event. *)
Lemma run_without_events e w :
  surgeries_error e = None ->
  surgeries_on (today_plus_2 e) w = [] ->
  runDailyWhatsAppJob e w
  = ({| run_status := log_success;
        run_summary := no_surgeries_summary (today_plus_2 e);
        run_targetDate := Some (today_plus_2 e); run_rooms := Some [];
        total_surgeries := Some 0 |},
     {| pendaftaran_operasi := pendaftaran_operasi w;
        mst_parameter := mst_parameter w;
        cron_job_logs :=
          log_after_run e w log_success
            (no_surgeries_summary (today_plus_2 e)) DetailsNull;
        outbox := outbox w;
        job_runs := S (job_runs w) |}).
Proof.
  intros Herr Hnil.
  unfold runDailyWhatsAppJob, insert_running, log_after_run. rewrite Herr.
  destruct (log_insert_error e) as [ierr|] eqn:Hins.
  - change (surgeries_on (today_plus_2 e) _)
      with (surgeries_on (today_plus_2 e) w).
    rewrite Hnil. done.
  - change (surgeries_on (today_plus_2 e) _)
      with (surgeries_on (today_plus_2 e) w).
    rewrite Hnil. rewrite decide_True by done.
    rewrite (decide_False (P := fresh_id _ = 0)) by done.
    unfold updateLog. cbn -[with_row fresh_id].
    rewrite with_row_fresh by done. done.
Qed.

(** A run whose query of the events fails. *)
Lemma run_query_fails e w emsg :
  surgeries_error e = Some emsg ->
  (runDailyWhatsAppJob e w).1
  = {| run_status := log_error; run_summary := "Job failed: " +:+ emsg;
       run_targetDate := None; run_rooms := None; total_surgeries := None |}
  /\ job_runs (runDailyWhatsAppJob e w).2 = S (job_runs w)
  /\ outbox (runDailyWhatsAppJob e w).2 = outbox w
  /\ cron_job_logs (runDailyWhatsAppJob e w).2
     = log_after_run e w log_error ("Job failed: " +:+ emsg) DetailsNull.
Proof.
  intros Herr. unfold runDailyWhatsAppJob, insert_running, log_after_run.
  rewrite Herr. destruct (log_insert_error e); [done|].
  rewrite (decide_False (P := fresh_id _ = 0)) by done.
  unfold updateLog. cbn -[with_row fresh_id].
  by rewrite with_row_fresh by done.
Qed.

(** A run whose grouping throws: some event of the date lies in a room
    that names a property of [Object.prototype]. *)
Lemma run_grouping_fails e w :
  surgeries_error e = None ->
  ¬ ordinary_rooms (surgeries_on (today_plus_2 e) w) ->
  let summ := "Job failed: acc[room].push is not a function" in
  (runDailyWhatsAppJob e w).1
  = {| run_status := log_error; run_summary := summ;
       run_targetDate := None; run_rooms := None; total_surgeries := None |}
  /\ job_runs (runDailyWhatsAppJob e w).2 = S (job_runs w)
  /\ outbox (runDailyWhatsAppJob e w).2 = outbox w
  /\ cron_job_logs (runDailyWhatsAppJob e w).2
     = log_after_run e w log_error summ DetailsNull.
Proof.
  intros Herr Hord summ.
  assert (length (surgeries_on (today_plus_2 e) w) ≠ 0) as Hlen.
  { destruct (surgeries_on _ _); [|done]. destruct Hord. constructor. }
  pose proof (groupedByRoom_throws _ Hord) as Hthrows.
  unfold runDailyWhatsAppJob, insert_running, log_after_run. rewrite Herr.
  destruct (log_insert_error e) as [ierr|] eqn:Hins.
  - change (surgeries_on (today_plus_2 e) _)
      with (surgeries_on (today_plus_2 e) w).
    rewrite decide_False by done. by rewrite Hthrows.
  - change (surgeries_on (today_plus_2 e) _)
      with (surgeries_on (today_plus_2 e) w).
    rewrite decide_False by done. rewrite Hthrows.
    rewrite (decide_False (P := fresh_id _ = 0)) by done.
    unfold updateLog. cbn -[with_row fresh_id].
    by rewrite with_row_fresh by done.
Qed.

Lemma job_runs_run e w :
  job_runs (runDailyWhatsAppJob e w).2 = S (job_runs w).
Proof.
  destruct (surgeries_error e) as [emsg|] eqn:Herr.
  - by apply (run_query_fails e w emsg).
  - destruct (decide (ordinary_rooms (surgeries_on (today_plus_2 e) w)))
      as [Hord|Hord]; [|by apply run_grouping_fails].
    destruct (surgeries_on (today_plus_2 e) w) as [|s ss] eqn:Hs.
    + by rewrite run_without_events.
    + destruct (run_with_events e w Herr) as (? & ? & _ & _ & ->);
        [by rewrite Hs|by rewrite Hs|done].
Qed.

Lemma results_of_groups e w date ss ks results :
  Forall2 (fun r rr => room rr = r /\ verdict e w date (grouping ss) r rr)
    ks results ->
  room <$> results = ks
  /\ Forall (fun rr => verdict e w date (grouping ss) (room rr) rr) results.
Proof.
  induction 1 as [|r rr ks results [Hr Hv] _ [IH1 IH2]]; [done|].
  rewrite fmap_cons, IH1, Hr. split; [done|].
  constructor; [by rewrite Hr|done].
Qed.

Lemma verdict_carries e w date ss rr :
  verdict e w date (grouping ss) (room rr) rr -> carries_group_size ss rr.
Proof.
  unfold verdict, carries_group_size, group_size.
  destruct (lookup_param e w (room rr)) as [|p].
  - intros [Hst Hc]. rewrite decide_True; [done|]. by right.
  - destruct (truthy _).
    + intros (_ & Hst & Hc & _). rewrite get_grouping in Hc.
      rewrite decide_False; [done|]. unfold unresolved. rewrite Hst.
      by destruct (success _); intros [?|?].
    + intros [Hst Hc]. rewrite decide_True; [done|]. by left.
Qed.

Lemma sum_recorded_counts ss (results : list RoomResult) :
  Forall (carries_group_size ss) results ->
  sum_list (recorded_count <$> results)
  + sum_list (group_size ss <$> (room <$> filter unresolved results))
  = sum_list (group_size ss <$> (room <$> results)).
Proof.
  induction 1 as [|rr results Hrr _ IH]; [done|].
  rewrite filter_cons, !fmap_cons. cbn [sum_list sum_list_with].
  unfold carries_group_size in Hrr. unfold recorded_count at 1.
  destruct (decide (unresolved rr)); rewrite Hrr.
  - rewrite !fmap_cons. cbn [sum_list sum_list_with default from_option].
    cbv [Datatypes.id] in *. lia.
  - cbn [default from_option]. cbv [Datatypes.id] in *. lia.
Qed.

(** A run that finds events records one RoomResult per group, each
    decided by the lookup and the send of its own group. *)
Lemma run_one_result_per_group e w :
  surgeries_error e = None ->
  target_events e w ≠ [] ->
  ordinary_rooms (target_events e w) ->
  exists results,
    run_records e w results
    /\ room <$> results ≡ₚ distinct_keys (target_events e w)
    /\ Forall (fun rr => verdict e w (today_plus_2 e)
                           (grouping (target_events e w)) (room rr) rr)
         results.
Proof.
  intros Herr Hne Hord.
  destruct (run_with_events e w Herr Hne Hord)
    as (results & posts & Hall & Hout & Hw).
  apply results_of_groups in Hall as [Hrooms Hall].
  exists results. split_and!; [| |exact Hall].
  - unfold run_records. rewrite Hout, Hw. cbn.
    by rewrite <-Hrooms, length_fmap.
  - rewrite Hrooms. apply uniqueRooms_distinct.
Qed.

(** C3, as stated, fails: in the scenario of the specification the four
    events fall into two groups and two RoomResults are recorded, but the
    one of the skipped group has no [surgery_count], and the counts that
    are recorded add up to three. *)
Lemma C3_counts_of_skipped_groups_are_missing :
  exists results,
    run_rooms (runDailyWhatsAppJob scenario_env scenario_world).1 = Some results
    /\ length (target_events scenario_env scenario_world) = 4
    /\ length results = 2
    /\ surgery_count <$> results = [Some 3; None]
    /\ sum_list (recorded_count <$> results)
       ≠ length (target_events scenario_env scenario_world).
Proof. eexists. split; [by vm_compute|]. by vm_compute. Qed.

(** C3 (amended): a run over N > 0 events in K distinct grouping keys (the
    sentinel of the unknown group counted as one), none of which names a
    property of [Object.prototype], returns, and stores in the details of
    its log row, exactly K RoomResults, one per key; a RoomResult whose
    status is [sent] or [send_failed] carries the number of events of its
    group as [surgery_count], one whose status is [skipped] or [error]
    carries none; so the recorded counts add up to N less the events of the
    skipped and failed groups. *)
Theorem C3_one_result_per_group (e : Env) (w : World) :
  surgeries_error e = None ->
  0 < length (target_events e w) ->
  ordinary_rooms (target_events e w) ->
  exists results,
    run_records e w results
    /\ length results = length (distinct_keys (target_events e w))
    /\ room <$> results ≡ₚ distinct_keys (target_events e w)
    /\ Forall (carries_group_size (target_events e w)) results
    /\ sum_list (recorded_count <$> results)
       + sum_list (group_size (target_events e w)
                     <$> (room <$> filter unresolved results))
       = length (target_events e w).
Proof.
  intros Herr Hlen Hord.
  destruct (run_one_result_per_group e w Herr) as (results & Hrec & Hperm & Hv);
    [|done|].
  { intros Hnil. rewrite Hnil in Hlen. cbn in Hlen. lia. }
  assert (Forall (carries_group_size (target_events e w)) results) as Hc.
  { eapply Forall_impl; [exact Hv|]. intros rr. apply verdict_carries. }
  exists results. split_and!; [done| |done|done|].
  - by rewrite <-Hperm, length_fmap.
  - rewrite sum_recorded_counts by done. apply sum_group_size.
    + rewrite Hperm. apply NoDup_remove_dups.
    + intros s Hs. rewrite Hperm. apply elem_of_remove_dups.
      by apply list_elem_of_fmap_2.
Qed.

Lemma C3_one_result_per_group_witness :
  exists results,
    run_records scenario_env scenario_world results
    /\ length results
       = length (distinct_keys (target_events scenario_env scenario_world))
    /\ room <$> results
       ≡ₚ distinct_keys (target_events scenario_env scenario_world)
    /\ Forall (carries_group_size (target_events scenario_env scenario_world))
         results
    /\ sum_list (recorded_count <$> results)
       + sum_list (group_size (target_events scenario_env scenario_world)
                     <$> (room <$> filter unresolved results))
       = length (target_events scenario_env scenario_world).
Proof.
  apply (C3_one_result_per_group scenario_env scenario_world).
  - reflexivity.
  - vm_compute. lia.
  - apply (bool_decide_unpack _). vm_compute. exact I.
Defined.

(** C4: in a run that reaches the loop over the groups (the query of the
    events succeeds and finds some, and the grouping does not throw: no
    room names a property of [Object.prototype]), whatever the lookups and
    the sends do, every group gets its own RoomResult, returned and stored
    in the details of the log row: [error] when the lookup of its
    destination fails, [skipped] when no active rule or only an empty
    address is found, and otherwise [send_failed] or [sent] by what the
    sender returns for the message of that group alone. *)
Theorem C4_failures_are_isolated (e : Env) (w : World) :
  surgeries_error e = None ->
  target_events e w ≠ [] ->
  ordinary_rooms (target_events e w) ->
  exists results,
    run_records e w results
    /\ room <$> results ≡ₚ distinct_keys (target_events e w)
    /\ forall r, r ∈ distinct_keys (target_events e w) ->
         exists rr, rr ∈ results /\ room rr = r
           /\ verdict e w (today_plus_2 e)
                (grouping (target_events e w)) r rr.
Proof.
  intros Herr Hne Hord.
  destruct (run_one_result_per_group e w Herr Hne Hord)
    as (results & Hrec & Hperm & Hv).
  exists results. split_and!; [done|done|].
  intros r Hr. rewrite <-Hperm in Hr.
  apply list_elem_of_fmap in Hr as (rr & -> & Hin).
  exists rr. split_and!; [done|done|].
  by apply (proj1 (Forall_forall _ _) Hv).
Qed.

Lemma C4_failures_are_isolated_witness :
  exists results,
    run_records scenario_env scenario_world results
    /\ room <$> results
       ≡ₚ distinct_keys (target_events scenario_env scenario_world)
    /\ forall r, r ∈ distinct_keys (target_events scenario_env scenario_world) ->
         exists rr, rr ∈ results /\ room rr = r
           /\ verdict scenario_env scenario_world (today_plus_2 scenario_env)
                (grouping (target_events scenario_env scenario_world)) r rr.
Proof.
  apply (C4_failures_are_isolated scenario_env scenario_world).
  - reflexivity.
  - vm_compute. discriminate.
  - apply (bool_decide_unpack _). vm_compute. exact I.
Defined.

(** C6: a run whose query returns no event returns at once with status
    [success], a summary that says so and an empty list of RoomResults; it
    hands nothing to the provider, and its log row, when it exists, is
    closed with status [success], that summary and no details. *)
Theorem C6_no_events (e : Env) (w : World) :
  surgeries_error e = None ->
  target_events e w = [] ->
  (runDailyWhatsAppJob e w).1
  = {| run_status := log_success;
       run_summary := no_surgeries_summary (today_plus_2 e);
       run_targetDate := Some (today_plus_2 e); run_rooms := Some [];
       total_surgeries := Some 0 |}
  /\ outbox (runDailyWhatsAppJob e w).2 = outbox w
  /\ cron_job_logs (runDailyWhatsAppJob e w).2
     = log_after_run e w log_success (no_surgeries_summary (today_plus_2 e))
         DetailsNull.
Proof. intros Herr Hnil. by rewrite run_without_events. Qed.

Lemma C6_no_events_witness :
  (runDailyWhatsAppJob scenario_env idle_world).1
  = {| run_status := log_success;
       run_summary := no_surgeries_summary "2026-11-04";
       run_targetDate := Some "2026-11-04"; run_rooms := Some [];
       total_surgeries := Some 0 |}
  /\ outbox (runDailyWhatsAppJob scenario_env idle_world).2 = []
  /\ cron_job_logs (runDailyWhatsAppJob scenario_env idle_world).2
     = [run_row scenario_env idle_world log_success
          (no_surgeries_summary "2026-11-04") DetailsNull].
Proof.
  apply (C6_no_events scenario_env idle_world); reflexivity.
Defined.

(** C9: the endpoint runs the orchestrator, once, and answers with its
    outcome exactly when the request carries the marker header of the
    platform scheduler or the bearer token of a configured (non-empty)
    secret; any other request gets the Unauthorized response and leaves the
    world as it was. *)
Theorem C9_trigger_authorization (e : Env) (req : Request) (w : World) :
  ((scheduler_marked req \/ bears_secret e req)
   /\ whatsapp_daily e req w
      = ({| code := 200;
            body := DailyBody "WhatsApp daily cron job executed."
                      (runDailyWhatsAppJob e w).1 |},
         (runDailyWhatsAppJob e w).2)
   /\ job_runs (whatsapp_daily e req w).2 = S (job_runs w))
  \/ (¬ (scheduler_marked req \/ bears_secret e req)
      /\ whatsapp_daily e req w
         = ({| code := 401; body := ErrorBody "Unauthorized" None |}, w)).
Proof.
  unfold whatsapp_daily.
  destruct (isVercelCron req) eqn:Hv; [|destruct (isAuthorized e req) eqn:Ha].
  - left. apply isVercelCron_spec in Hv. cbn [negb andb].
    destruct (runDailyWhatsAppJob e w) as [result w'] eqn:Hrun.
    split_and!; [by left|done|].
    cbn [snd]. by rewrite <-(job_runs_run e w), Hrun.
  - left. apply isAuthorized_spec in Ha. cbn [negb andb].
    destruct (runDailyWhatsAppJob e w) as [result w'] eqn:Hrun.
    split_and!; [by right|done|].
    cbn [snd]. by rewrite <-(job_runs_run e w), Hrun.
  - right. split; [|done].
    intros [H|H]; [apply isVercelCron_spec in H|apply isAuthorized_spec in H];
      congruence.
Qed.

(** ** Reconciliation reporter *)

Section counting.
Implicit Types (acc : obj nat) (s : Surgery) (r : string).

Lemma get_count_step acc s r :
  get (count_step acc s) r
  = if decide (room_key s = r) then Some (default 0 (get acc r) + 1)
    else get acc r.
Proof. unfold count_step. rewrite get_set. by case_decide; subst. Qed.

Lemma fold_count_step ss : forall acc,
  NoDup acc.*1 ->
  NoDup (fold_left count_step ss acc).*1
  /\ (forall r, r ∈ (fold_left count_step ss acc).*1
                <-> r ∈ room_key <$> ss \/ r ∈ acc.*1)
  /\ (forall r, default 0 (get (fold_left count_step ss acc) r)
                = default 0 (get acc r) + group_size ss r).
Proof.
  induction ss as [|s ss IH]; intros acc Hnd.
  - split_and!; [done| |].
    + intros r. rewrite fmap_nil, elem_of_nil. tauto.
    + intros r. unfold group_size. rewrite filter_nil. cbn. lia.
  - cbn [fold_left].
    destruct (IH (count_step acc s)) as (Hnd' & Hkeys & Hget).
    { by apply NoDup_keys_set. }
    split_and!; [done| |].
    + intros r. rewrite Hkeys, <-!get_is_Some, get_count_step.
      rewrite fmap_cons, elem_of_cons. case_decide as Hr.
      * subst. split; [by left; left|by intros; right; eexists].
      * split; [tauto|]. intros [[->|?]|?]; [done|by left|by right].
    + intros r. rewrite Hget, get_count_step. unfold group_size.
      rewrite filter_cons. case_decide; cbn; lia.
Qed.

Lemma roomCounts_keys ss : Object_keys (roomCounts ss) ≡ₚ distinct_keys ss.
Proof.
  destruct (fold_count_step ss [] NoDup_nil_2) as (Hnd & Hkeys & _).
  apply NoDup_Permutation.
  - by apply NoDup_Object_keys.
  - apply NoDup_remove_dups.
  - intros r. unfold distinct_keys, roomCounts.
    rewrite elem_of_Object_keys, Hkeys, elem_of_remove_dups, elem_of_nil. tauto.
Qed.

Lemma roomCounts_get ss r :
  default 0 (get (roomCounts ss) r) = group_size ss r.
Proof.
  destruct (fold_count_step ss [] NoDup_nil_2) as (_ & _ & H).
  unfold roomCounts. by rewrite H.
Qed.

Lemma group_size_pos ss r : r ∈ distinct_keys ss -> 0 < group_size ss r.
Proof.
  unfold distinct_keys, group_size.
  rewrite elem_of_remove_dups. intros (s & -> & Hs)%list_elem_of_fmap.
  assert (s ∈ filter (fun s' => room_key s' = room_key s) ss) as Hin
    by by apply list_elem_of_filter.
  destruct (filter _ ss); [by apply elem_of_nil in Hin|cbn; lia].
Qed.
End counting.

Lemma first_for_snoc rm rs r :
  last_for rm (rs ++ [r])
  = if decide (room r = rm) then Some r else last_for rm rs.
Proof.
  unfold last_for, first_for. rewrite reverse_snoc. cbn [List.find].
  by rewrite bool_decide_decide; case_decide.
Qed.

Lemma get_logResults_fold (rs : list RoomResult) rm :
  get (fold_left (fun acc r =>
                    set acc (room r)
                      {| lr_status := status r;
                         lr_phone := or_null (phone r);
                         lr_reason := or_null (reason r) |}) rs []) rm
  = (fun r => {| lr_status := status r; lr_phone := or_null (phone r);
                 lr_reason := or_null (reason r) |}) <$> last_for rm rs.
Proof.
  induction rs as [|r rs IH] using rev_ind; [done|].
  rewrite fold_left_app. cbn [fold_left].
  rewrite get_set, first_for_snoc, IH. by case_decide.
Qed.

Lemma get_logResults latestLog rm :
  get (logResults latestLog) rm
  = (fun r => {| lr_status := status r; lr_phone := or_null (phone r);
                 lr_reason := or_null (reason r) |})
      <$> last_for rm (logged_rooms latestLog).
Proof.
  unfold logResults, logged_rooms. destruct latestLog as [l|]; [|done].
  destruct (details l) as [| |d]; [done|done|].
  apply get_logResults_fold.
Qed.

(** One entry of the report, in terms of the events and of the log. *)
Lemma room_report_spec counts phones latestLog rm :
  let rep := room_report counts phones latestLog (logResults latestLog) rm in
  rep_room rep = rm
  /\ rep_surgery_count rep = default 0 (get counts rm)
  /\ match last_for rm (logged_rooms latestLog) with
     | None =>
         rep_status rep = need_resend
         /\ has_updates rep = bool_decide (0 < rep_surgery_count rep)
     | Some rl =>
         rep_status rep = logged (status rl)
         /\ log_surgery_count rep
            = from_option recorded_count 0
                (first_for rm (logged_rooms latestLog))
         /\ has_updates rep
            = bool_decide (status rl = sent
                           /\ log_surgery_count rep < rep_surgery_count rep)
     end.
Proof.
  unfold room_report. rewrite get_logResults.
  destruct (last_for rm (logged_rooms latestLog)) as [rl|] eqn:Hl;
    cbn -[Nat.ltb].
  - split_and!; [done|done|done| |].
    + unfold logged_rooms, first_for. destruct latestLog as [l|]; [|done].
      destruct (details l) as [| |d]; [done|done|]. cbn.
      destruct (rooms d) as [rs|]; [|done]. cbn.
      by destruct (List.find _ rs).
    + apply eq_true_iff_eq. rewrite andb_true_iff, !bool_decide_eq_true.
      by rewrite Nat.ltb_lt.
  - split_and!; [done|done|done|].
    apply eq_true_iff_eq. by rewrite bool_decide_eq_true, Nat.ltb_lt.
Qed.

(** C1, as stated, fails: without any log of the date no RoomResult with
    status [sent] exists for Ward A, and yet its [has_updates] is true. *)
Lemma C1_unlogged_group_has_updates :
  exists report rep,
    whatsapp_status scenario_env "2026-11-04" scenario_world = inr report
    /\ rep_rooms report !! 0 = Some rep
    /\ rep_room rep = "Ward A"
    /\ latest_log "2026-11-04" scenario_world = None
    /\ has_updates rep = true.
Proof. eexists _, _. split; [by vm_compute|]. by vm_compute. Qed.

(** C1 (amended): when no room of the date names a property of
    [Object.prototype] (and the matched log holds no room [__proto__]),
    the report of a status query has one entry per group of
    the current events of the target date, with the current number of
    events of the group, which is positive. If the matched log holds no
    RoomResult for the group (no log, no details that parse, or the group
    not in them), [has_updates] is true. If it holds one, [has_updates] is
    true exactly when its status is [sent] and the current count exceeds its
    logged [surgery_count] (0 when absent); where the log holds several
    RoomResults for the group, the status is read from the last and the
    count from the first. *)
Theorem C1_has_updates (e : Env) (date : string) (w : World)
    (report : StatusReport) :
  whatsapp_status e date w = inr report ->
  ordinary_rooms (events_on date w) ->
  plain_log (latest_log date w) ->
  rep_room <$> rep_rooms report ≡ₚ distinct_keys (events_on date w)
  /\ Forall (fun rep =>
       rep_surgery_count rep = group_size (events_on date w) (rep_room rep)
       /\ 0 < rep_surgery_count rep
       /\ match last_for (rep_room rep) (logged_rooms (latest_log date w)) with
          | None => has_updates rep = true
          | Some rl =>
              log_surgery_count rep
              = from_option recorded_count 0
                  (first_for (rep_room rep) (logged_rooms (latest_log date w)))
              /\ has_updates rep
                 = bool_decide
                     (status rl = sent
                      /\ log_surgery_count rep < rep_surgery_count rep)
          end) (rep_rooms report).
Proof.
  unfold whatsapp_status. fold (events_on date w).
  destruct (surgeries_error e); [done|]. destruct (logs_error e); [done|].
  intros [= <-] _ _. cbn [rep_rooms].
  set (counts := roomCounts (events_on date w)).
  set (phones := roomPhones e _ w).
  assert (forall rm, rep_room (room_report counts phones (latest_log date w)
                                 (logResults (latest_log date w)) rm) = rm)
    as Hroom by (intros rm; apply room_report_spec).
  split.
  - rewrite <-list_fmap_compose.
    rewrite (list_fmap_ext _ Datatypes.id (Object_keys counts))
      by (intros; apply Hroom).
    rewrite list_fmap_id. apply roomCounts_keys.
  - apply Forall_fmap, Forall_forall. intros rm Hrm. cbn [compose].
    destruct (room_report_spec counts phones (latest_log date w) rm)
      as (Hr & Hc & Hlog).
    rewrite Hr, Hc. unfold counts at 1 2. rewrite roomCounts_get.
    assert (0 < group_size (events_on date w) rm) as Hpos.
    { apply group_size_pos. by rewrite <-roomCounts_keys. }
    split_and!; [done|done|].
    destruct (last_for rm (logged_rooms (latest_log date w))) as [rl|].
    + destruct Hlog as (_ & Hcount & Hup). split; [done|].
      rewrite Hup, Hc. unfold counts. by rewrite roomCounts_get.
    + destruct Hlog as [_ Hup]. rewrite Hup, Hc. unfold counts.
      rewrite roomCounts_get. by apply bool_decide_eq_true.
Qed.

Lemma C1_has_updates_witness :
  let report := report_of (whatsapp_status scenario_env "2026-11-04" logged_world) in
  rep_room <$> rep_rooms report
  ≡ₚ distinct_keys (events_on "2026-11-04" logged_world)
  /\ Forall (fun rep =>
       rep_surgery_count rep
       = group_size (events_on "2026-11-04" logged_world) (rep_room rep)
       /\ 0 < rep_surgery_count rep
       /\ match last_for (rep_room rep)
                  (logged_rooms (latest_log "2026-11-04" logged_world)) with
          | None => has_updates rep = true
          | Some rl =>
              log_surgery_count rep
              = from_option recorded_count 0
                  (first_for (rep_room rep)
                     (logged_rooms (latest_log "2026-11-04" logged_world)))
              /\ has_updates rep
                 = bool_decide
                     (status rl = sent
                      /\ log_surgery_count rep < rep_surgery_count rep)
          end) (rep_rooms report).
Proof.
  apply (C1_has_updates scenario_env "2026-11-04" logged_world).
  - vm_compute. reflexivity.
  - apply (bool_decide_unpack _). vm_compute. exact I.
  - apply (bool_decide_unpack _). vm_compute. exact I.
Defined.

(** ** Manual resend handler *)

Section upsert.
Implicit Types (rm : string) (rs x : RoomResult) (l : list RoomResult).

Lemma upsert_nil rm rs : upsert rm rs [] = [rs].
Proof. reflexivity. Qed.

Lemma upsert_cons rm rs x l :
  upsert rm rs (x :: l)
  = if decide (room x = rm) then rs :: l else x :: upsert rm rs l.
Proof.
  unfold upsert. cbn [list_find]. case_decide; [done|].
  by destruct (list_find _ l) as [[i y]|].
Qed.

Lemma upsert_others rm rs l :
  room rs = rm ->
  filter (fun r => room r ≠ rm) (upsert rm rs l)
  = filter (fun r => room r ≠ rm) l.
Proof.
  intros Hrs. induction l as [|x l IH].
  - rewrite upsert_nil, filter_cons, decide_False by (by intros H; apply H).
    done.
  - rewrite upsert_cons. case_decide as Hx.
    + rewrite !filter_cons, !decide_False; [done| |]; by intros H; apply H.
    + by rewrite !filter_cons, IH.
Qed.

Lemma upsert_keys rm rs l :
  room rs = rm ->
  room <$> upsert rm rs l
  = if decide (rm ∈ room <$> l) then room <$> l else (room <$> l) ++ [rm].
Proof.
  intros Hrs. induction l as [|x l IH].
  - rewrite upsert_nil, decide_False by (by intros ?%elem_of_nil).
    cbn. by rewrite Hrs.
  - rewrite upsert_cons. destruct (decide (room x = rm)) as [Hx|Hx].
    + rewrite decide_True by (rewrite fmap_cons, Hx; left).
      by rewrite !fmap_cons, Hrs, Hx.
    + rewrite !fmap_cons, IH. destruct (decide (rm ∈ room <$> l)) as [Hin|Hin].
      * by rewrite decide_True by by right.
      * rewrite decide_False; [done|].
        intros [?|?]%elem_of_cons; [by apply Hx|done].
Qed.



End upsert.

Lemma resend_rejected field compose e req w :
  code (resend_with field compose e req w).1 ≠ 200 ->
  (resend_with field compose e req w).2 = w.
Proof.
  unfold resend_with.
  destruct (negb _ || negb _); [done|].
  destruct (surgeries_error e); [done|].
  case_decide; [done|].
  destruct (lookup_param _ _ _) as [|param]; [done|].
  destruct (negb (truthy _)); [done|].
  destruct (sendWhatsAppMessage _ _ _ _). cbn. done.
Qed.

Lemma resend_accepted field compose e req w :
  code (resend_with field compose e req w).1 = 200 ->
  let date := interpolate (body_date req) in
  let rm := interpolate (body_room req) in
  truthy (body_date req) = true /\ truthy (body_room req) = true
  /\ exists sr phoneNumber posts,
       body (resend_with field compose e req w).1
       = ResendBody (if success sr then "Notification resent successfully"
                     else "Resend attempt failed") (success sr) rm sr
       /\ (resend_with field compose e req w).2
          = record_resend e date rm
              (resend_status e rm phoneNumber
                 (length (surgeries_on_in date rm w)) sr)
              (success sr) (with_outbox w (outbox w ++ posts)).
Proof.
  unfold resend_with.
  destruct (truthy (body_date req)); [|done].
  destruct (truthy (body_room req)); [|done]. cbn [negb orb].
  destruct (surgeries_error e); [done|].
  case_decide; [done|].
  destruct (lookup_param _ _ _) as [|param]; [done|].
  destruct (negb (truthy _)); [done|].
  match goal with
  | |- context [sendWhatsAppMessage e ?t ?m w] =>
      destruct (sendWhatsAppMessage_spec e t m w) as (posts & Hw & _);
      destruct (sendWhatsAppMessage e t m w) as [sr w'] eqn:Hsend
  end.
  cbn [fst snd] in *. subst w'. intros _. split_and!; [done|done|].
  by exists sr, (interpolate (param ≫= param_value)), posts.
Qed.

(** A resend is answered 200 exactly when the request is ready. *)
Lemma resend_ready_200 field compose e req w :
  code (resend_with field compose e req w).1 = 200 <-> resend_ready e req w.
Proof.
  unfold resend_with, resend_ready. cbv zeta.
  destruct (truthy (body_date req)); [|by split; [|intros [? _]]].
  destruct (truthy (body_room req)); [|by split; [|intros (_ & ? & _)]].
  cbn [negb orb].
  destruct (surgeries_error e); [by split; [|intros (_ & _ & ? & _)]|].
  case_decide as Hlen.
  { split; [done|]. intros (_ & _ & _ & Hne & _).
    by destruct (surgeries_on_in _ _ w). }
  destruct (lookup_param _ _ _) as [|param];
    [by split; [|intros (_ & _ & _ & _ & ?)]|].
  destruct (truthy (param ≫= param_value)); cbn [negb].
  - destruct (sendWhatsAppMessage _ _ _ _). cbn. split; [|done].
    intros _. split_and!; try done. by destruct (surgeries_on_in _ _ w).
  - by split; [|intros (_ & _ & _ & _ & ?)].
Qed.


Lemma logs_record_resend e date rm rs ok w :
  cron_job_logs (record_resend e date rm rs ok w)
  = match existing_log e date w with
    | Some latestLog =>
        with_row (fun r =>
           {| id := id r; job_name := job_name r; log_status := log_status r;
              summary := Some (interpolate (summary latestLog)
                                 +:+ " (Manual resend for " +:+ rm +:+ " at "
                                 +:+ time_label e +:+ ")");
              details := DetailsJson (merge_details rm rs (details latestLog));
              started_at := started_at r; finished_at := finished_at r;
              timestamp := timestamp r |}) (id latestLog) (cron_job_logs w)
    | None =>
        cron_job_logs w ++
          [{| id := fresh_id (cron_job_logs w); job_name := job;
              log_status := if ok then log_success else log_error;
              summary := Some ("Manual resend for room " +:+ rm
                                 +:+ " on date " +:+ date);
              details := DetailsJson {| targetDate := Some date;
                                        rooms := Some [rs] |};
              started_at := Some (now e); finished_at := Some (now e);
              timestamp := now e |}]
    end.
Proof. unfold record_resend. by destruct (existing_log e date w). Qed.

Lemma most_recent_elem_of (l : list LogEntry) x : most_recent l = Some x -> x ∈ l.
Proof.
  revert x. induction l as [|y l IH]; [done|]. intros x. cbn [most_recent].
  destruct (most_recent l) as [z|].
  - case_match; intros [= <-]; [right; by apply IH|left].
  - intros [= <-]. left.
Qed.

Lemma latest_log_elem_of date w x :
  latest_log date w = Some x -> x ∈ cron_job_logs w.
Proof.
  unfold latest_log, logs_for. intros H%most_recent_elem_of.
  by apply list_elem_of_filter in H as [_ ?].
Qed.

Lemma elem_of_with_row f i (logs : list LogEntry) r' :
  r' ∈ with_row f i logs
  <-> exists r, r ∈ logs /\ r' = if decide (id r = i) then f r else r.
Proof.
  unfold with_row. rewrite list_elem_of_fmap.
  split; intros (r & H1 & H2); exists r; by split.
Qed.

(** C5, as stated, fails: for a group with events but without an active
    destination rule the handler answers 400, the status of its
    validation errors, not 404. *)
Lemma C5_missing_rule_is_a_bad_request :
  surgeries_on_in "2026-11-04" "Ward B" scenario_world ≠ []
  /\ lookup_param scenario_env scenario_world "Ward B" = LookupRow None
  /\ (whatsapp_resend_cron scenario_env
        (resend_request "2026-11-04" "Ward B") scenario_world).1
     = no_phone "Ward B"
  /\ (whatsapp_resend scenario_env
        (resend_request "2026-11-04" "Ward B") scenario_world).1
     = no_phone "Ward B"
  /\ code (no_phone "Ward B") = 400
  /\ code (no_phone "Ward B") ≠ code (not_found "Ward B" "2026-11-04").
Proof. by vm_compute. Qed.

(** C5 (amended): a resend request with a date and a group, whose query
    of the events succeeds, is answered 404 when no event matches the date
    and the group, and 400 when events match but the lookup finds no
    active destination rule, or one with an empty address; in both cases
    nothing is sent and the log is not written: the world stays as it
    was. This holds for both resend endpoints. *)
Theorem C5_resend_without_events_or_rule (e : Env) (w : World)
    (date rm : string) :
  date ≠ "" -> rm ≠ "" -> surgeries_error e = None ->
  Forall (fun handler : Env -> Request -> World -> Response * World =>
    (surgeries_on_in date rm w = [] ->
     handler e (resend_request date rm) w = (not_found rm date, w))
    /\ (surgeries_on_in date rm w ≠ [] ->
        forall p, lookup_param e w rm = LookupRow p ->
                  truthy (p ≫= param_value) = false ->
        handler e (resend_request date rm) w = (no_phone rm, w)))
    [whatsapp_resend_cron; whatsapp_resend].
Proof.
  intros Hd Hr Herr.
  assert (forall field compose,
    (surgeries_on_in date rm w = [] ->
     resend_with field compose e (resend_request date rm) w
     = (not_found rm date, w))
    /\ (surgeries_on_in date rm w ≠ [] ->
        forall p, lookup_param e w rm = LookupRow p ->
                  truthy (p ≫= param_value) = false ->
        resend_with field compose e (resend_request date rm) w
        = (no_phone rm, w))) as H.
  { intros field compose. unfold resend_with, resend_request.
    cbn [body_date body_room truthy].
    destruct (String.eqb_spec date ""); [done|].
    destruct (String.eqb_spec rm ""); [done|].
    cbn [negb orb interpolate]. rewrite Herr. split.
    - intros ->. by rewrite decide_True.
    - intros Hne p Hp Hphone.
      rewrite decide_False by (by destruct (surgeries_on_in date rm w)).
      by rewrite Hp, Hphone. }
  repeat constructor; apply H.
Qed.

Lemma C5_resend_without_events_or_rule_witness :
  Forall (fun handler : Env -> Request -> World -> Response * World =>
    (surgeries_on_in "2026-11-04" "Ward B" scenario_world = [] ->
     handler scenario_env (resend_request "2026-11-04" "Ward B") scenario_world
     = (not_found "Ward B" "2026-11-04", scenario_world))
    /\ (surgeries_on_in "2026-11-04" "Ward B" scenario_world ≠ [] ->
        forall p, lookup_param scenario_env scenario_world "Ward B" = LookupRow p ->
                  truthy (p ≫= param_value) = false ->
        handler scenario_env (resend_request "2026-11-04" "Ward B") scenario_world
        = (no_phone "Ward B", scenario_world)))
    [whatsapp_resend_cron; whatsapp_resend].
Proof.
  apply (C5_resend_without_events_or_rule scenario_env scenario_world
           "2026-11-04" "Ward B"); [discriminate|discriminate|reflexivity].
Defined.

(** ** Matching a log to a date *)

Section matching.
Implicit Types (p q s t : string) (c : ascii).











End matching.

(** ** Merge of a resend into the log *)

Lemma elem_of_upsert rm rs (l : list RoomResult) : rs ∈ upsert rm rs l.
Proof.
  induction l as [|x l IH]; [rewrite upsert_nil; left|].
  rewrite upsert_cons. case_decide; [left|by right].
Qed.

Lemma logged_rooms_merged rm rs (l0 l' : LogEntry) :
  details l' = DetailsJson (merge_details rm rs (details l0)) ->
  logged_rooms (Some l') = upsert rm rs (logged_rooms (Some l0)).
Proof. intros H. unfold logged_rooms. by rewrite H. Qed.

(** C10: a resend that reaches the write (the request is ready, so it is
    answered 200) and whose read of the log yields a row rewrites the
    details of that row. When the stored details parse, the RoomResults
    of the other groups stay as they were, in their order, and the date
    of the blob is kept; when they do not parse (or are NULL), the new
    blob holds the RoomResult of the resent group and nothing else, so
    whatever the text held is dropped. Both resend endpoints do so. *)
Theorem C10_resend_write_back (e : Env) (req : Request) (w : World)
    (latestLog : LogEntry) :
  resend_ready e req w ->
  existing_log e (interpolate (body_date req)) w = Some latestLog ->
  Forall (fun handler : Env -> Request -> World -> Response * World =>
    let rm := interpolate (body_room req) in
    code (handler e req w).1 = 200
    /\ exists rs,
      room rs = rm
      /\ (exists row, row ∈ cron_job_logs (handler e req w).2
                      /\ id row = id latestLog)
      /\ forall row,
           row ∈ cron_job_logs (handler e req w).2 ->
           id row = id latestLog ->
           match details latestLog with
           | DetailsJson d =>
               results_but rm row = results_but rm latestLog
               /\ rs ∈ logged_rooms (Some row)
               /\ targetDate (parsed (details row)) = targetDate d
           | DetailsUnparsable _ | DetailsNull =>
               details row
               = DetailsJson {| targetDate := None; rooms := Some [rs] |}
           end)
    [whatsapp_resend_cron; whatsapp_resend].
Proof.
  intros Hready Hlatest.
  assert (exists x, latest_log (interpolate (body_date req)) w = Some x
                    /\ x = latestLog) as (x & Hfound & ->).
  { unfold existing_log in Hlatest. destruct (logs_error e); [done|].
    by exists latestLog. }
  assert (forall field compose,
    let rm := interpolate (body_room req) in
    code (resend_with field compose e req w).1 = 200
    /\ exists rs,
      room rs = rm
      /\ (exists row, row ∈ cron_job_logs (resend_with field compose e req w).2
                      /\ id row = id latestLog)
      /\ forall row,
           row ∈ cron_job_logs (resend_with field compose e req w).2 ->
           id row = id latestLog ->
           match details latestLog with
           | DetailsJson d =>
               results_but rm row = results_but rm latestLog
               /\ rs ∈ logged_rooms (Some row)
               /\ targetDate (parsed (details row)) = targetDate d
           | DetailsUnparsable _ | DetailsNull =>
               details row
               = DetailsJson {| targetDate := None; rooms := Some [rs] |}
           end) as H.
  { intros field compose rm.
    pose proof (proj2 (resend_ready_200 field compose e req w) Hready)
      as Hcode.
    split; [exact Hcode|].
    destruct (resend_accepted field compose e req w Hcode)
      as (_ & _ & sr & phoneNumber & posts & _ & ->).
    rewrite logs_record_resend.
    change (existing_log e ?d (with_outbox w ?o)) with (existing_log e d w).
    rewrite Hlatest. cbn [cron_job_logs with_outbox].
    exists (resend_status e rm phoneNumber
              (length (surgeries_on_in (interpolate (body_date req)) rm w)) sr).
    split; [reflexivity|]. split.
    - eexists. split.
      + apply elem_of_with_row. exists latestLog.
        split; [by eapply latest_log_elem_of|]. by rewrite decide_True.
      + done.
    - intros row (r & Hr & ->)%elem_of_with_row Hid.
      destruct (decide (id r = id latestLog)) as [_|Hne]; [|done].
      unfold results_but.
      destruct (details latestLog) as [|raw|d] eqn:Hd; [done|done|].
      rewrite (logged_rooms_merged rm _ latestLog) by (by rewrite Hd).
      split_and!.
      + by apply upsert_others.
      + apply elem_of_upsert.
      + done. }
  repeat constructor; apply H.
Qed.

Lemma C10_resend_write_back_witness :
  let latestLog := row_of (latest_log "2026-11-04" logged_world) in
  Forall (fun handler : Env -> Request -> World -> Response * World =>
    code (handler failing_env (resend_request "2026-11-04" "Ward A")
            logged_world).1 = 200
    /\ exists rs,
      room rs = "Ward A"
      /\ (exists row,
            row ∈ cron_job_logs
                    (handler failing_env (resend_request "2026-11-04" "Ward A")
                       logged_world).2
            /\ id row = id latestLog)
      /\ forall row,
           row ∈ cron_job_logs
                   (handler failing_env (resend_request "2026-11-04" "Ward A")
                      logged_world).2 ->
           id row = id latestLog ->
           match details latestLog with
           | DetailsJson d =>
               results_but "Ward A" row = results_but "Ward A" latestLog
               /\ rs ∈ logged_rooms (Some row)
               /\ targetDate (parsed (details row)) = targetDate d
           | DetailsUnparsable _ | DetailsNull =>
               details row
               = DetailsJson {| targetDate := None; rooms := Some [rs] |}
           end)
    [whatsapp_resend_cron; whatsapp_resend].
Proof.
  apply (C10_resend_write_back failing_env
           (resend_request "2026-11-04" "Ward A") logged_world
           (row_of (latest_log "2026-11-04" logged_world))).
  - apply (bool_decide_unpack _). vm_compute. exact I.
  - vm_compute. reflexivity.
Defined.

(** ** The invariant of the log *)





(** ** Two resends in a row *)


Lemma most_recent_None (l : list LogEntry) : most_recent l = None -> l = [].
Proof.
  destruct l as [|x l]; [done|]. cbn [most_recent].
  destruct (most_recent l); [by case_match|done].
Qed.








(** * Further properties of the code *)

(** ** Message sender *)

Lemma sendWhatsAppMessage_outbox e target message w :
  (sendWhatsAppMessage e target message w).2
  = with_outbox w
      (outbox w ++ if truthy (FONNTE_TOKEN e) then [(target, message)] else []).
Proof.
  unfold sendWhatsAppMessage. destruct (truthy (FONNTE_TOKEN e)).
  - by destruct (fetch_send e target message).
  - rewrite app_nil_r. by destruct w.
Qed.

(** X1: without a token the sender posts nothing and reports the missing
    token; with a token it hands exactly one message to the provider, for
    the given target, and reports success exactly when the provider's
    status is [true]; a provider that throws counts as a failure. It never
    touches the log. *)
Theorem sender_posts_at_most_once (e : Env) (target message : string)
    (w : World) :
  cron_job_logs (sendWhatsAppMessage e target message w).2 = cron_job_logs w
  /\ (truthy (FONNTE_TOKEN e) = false ->
      (sendWhatsAppMessage e target message w).2 = w
      /\ success (sendWhatsAppMessage e target message w).1 = false
      /\ sr_error (sendWhatsAppMessage e target message w).1
         = Some "FONNTE_TOKEN not set")
  /\ (truthy (FONNTE_TOKEN e) = true ->
      outbox (sendWhatsAppMessage e target message w).2
      = outbox w ++ [(target, message)]
      /\ (success (sendWhatsAppMessage e target message w).1 = true
          <-> exists raw, fetch_send e target message = FetchJson (Some true) raw)
      /\ forall msg, fetch_send e target message = FetchThrows msg ->
           success (sendWhatsAppMessage e target message w).1 = false
           /\ sr_error (sendWhatsAppMessage e target message w).1 = Some msg).
Proof.
  split; [by rewrite sendWhatsAppMessage_outbox|]. split.
  - intros Ht. rewrite sendWhatsAppMessage_outbox, Ht, app_nil_r.
    unfold sendWhatsAppMessage. rewrite Ht. by destruct w.
  - intros Ht. rewrite sendWhatsAppMessage_outbox, Ht.
    unfold sendWhatsAppMessage. rewrite Ht.
    destruct (fetch_send e target message) as [msg|st raw]; cbn.
    + split_and!; [done| |by intros ? [= <-]].
      split; [done|by intros [? ?]].
    + split_and!; [done| |done].
      rewrite bool_decide_eq_true. split; [intros ->; by eexists|].
      by intros (? & [= -> _]).
Qed.

(** ** Dispatch orchestrator *)

(** X2: when the query of the events fails, the run returns the error
    outcome with the message of the failure, sends nothing, and closes its
    log row, when it has one, with status [error] and no details. *)
Theorem run_reports_a_failed_query (e : Env) (w : World) (emsg : string) :
  surgeries_error e = Some emsg ->
  run_status (runDailyWhatsAppJob e w).1 = log_error
  /\ run_summary (runDailyWhatsAppJob e w).1 = "Job failed: " +:+ emsg
  /\ run_rooms (runDailyWhatsAppJob e w).1 = None
  /\ outbox (runDailyWhatsAppJob e w).2 = outbox w
  /\ cron_job_logs (runDailyWhatsAppJob e w).2
     = log_after_run e w log_error ("Job failed: " +:+ emsg) DetailsNull.
Proof.
  intros Herr. destruct (run_query_fails e w emsg Herr) as (-> & _ & -> & ->).
  done.
Qed.

Lemma run_reports_a_failed_query_witness :
  run_status (runDailyWhatsAppJob broken_env scenario_world).1 = log_error
  /\ run_summary (runDailyWhatsAppJob broken_env scenario_world).1
     = "Job failed: connection refused"
  /\ run_rooms (runDailyWhatsAppJob broken_env scenario_world).1 = None
  /\ outbox (runDailyWhatsAppJob broken_env scenario_world).2 = []
  /\ cron_job_logs (runDailyWhatsAppJob broken_env scenario_world).2
     = log_after_run broken_env scenario_world log_error
         "Job failed: connection refused" DetailsNull.
Proof.
  apply (run_reports_a_failed_query broken_env scenario_world
           "connection refused").
  reflexivity.
Defined.

(** The log after any run, whatever it found. *)
Lemma run_log e w :
  exists st summ det,
    st ≠ running
    /\ cron_job_logs (runDailyWhatsAppJob e w).2 = log_after_run e w st summ det.
Proof.
  destruct (surgeries_error e) as [emsg|] eqn:Herr.
  - destruct (run_query_fails e w emsg Herr) as (_ & _ & _ & ->).
    by eexists log_error, _, _.
  - destruct (decide (ordinary_rooms (surgeries_on (today_plus_2 e) w)))
      as [Hord|Hord].
    2:{ destruct (run_grouping_fails e w Herr Hord) as (_ & _ & _ & ->).
        by eexists log_error, _, _. }
    destruct (surgeries_on (today_plus_2 e) w) as [|s ss] eqn:Hs.
    + rewrite run_without_events by done. by eexists log_success, _, _.
    + destruct (run_with_events e w Herr) as (? & ? & _ & _ & ->);
        [by rewrite Hs|by rewrite Hs|].
      by eexists log_success, _, _.
Qed.

(** X3: a run whose [running] row was inserted appends exactly that one
    row to the log, under an identifier no earlier row has, leaves the
    earlier rows as they were, and never leaves its row in status
    [running]. *)
Theorem run_appends_one_closed_row (e : Env) (w : World) :
  log_insert_error e = None ->
  exists row,
    cron_job_logs (runDailyWhatsAppJob e w).2 = cron_job_logs w ++ [row]
    /\ (id row ∉ id <$> cron_job_logs w)
    /\ job_name row = job
    /\ log_status row ≠ running
    /\ started_at row = Some (now e) /\ finished_at row = Some (now e).
Proof.
  intros Hins. destruct (run_log e w) as (st & summ & det & Hst & ->).
  unfold log_after_run. rewrite Hins. eexists. split; [done|].
  split_and!; [|done..].
  intros (r & Hid & Hr%fresh_id_gt)%list_elem_of_fmap. cbn in Hid. lia.
Qed.

Lemma run_appends_one_closed_row_witness :
  exists row,
    cron_job_logs (runDailyWhatsAppJob scenario_env logged_world).2
    = cron_job_logs logged_world ++ [row]
    /\ (id row ∉ id <$> cron_job_logs logged_world)
    /\ job_name row = job
    /\ log_status row ≠ running
    /\ started_at row = Some (now scenario_env)
    /\ finished_at row = Some (now scenario_env).
Proof.
  apply (run_appends_one_closed_row scenario_env logged_world). reflexivity.
Defined.

Lemma lookup_param_row e w r p :
  lookup_param e w r = LookupRow (Some p) ->
  p ∈ mst_parameter w /\ active_rule r p.
Proof.
  unfold lookup_param. destruct (param_error e r); [done|].
  destruct (filter _ _) as [|p0 [|]] eqn:Hf; [done| |done].
  intros [= <-].
  assert (p0 ∈ filter (active_rule r) (mst_parameter w)) as Hin
    by (rewrite Hf; left).
  apply list_elem_of_filter in Hin. tauto.
Qed.

Lemma or_else_same r : or_else (Some r) r = r.
Proof. unfold or_else. by destruct (String.eqb_spec r ""). Qed.

Lemma with_outbox_same w : with_outbox w (outbox w ++ []) = w.
Proof. rewrite app_nil_r. by destruct w. Qed.

(** One turn of the loop, with the message it posts. *)
Lemma daily_room_posts e date grouped acc w r :
  exists rr,
    room rr = r
    /\ daily_room e date grouped (acc, w) r
       = (acc ++ [rr],
          with_outbox w
            (outbox w ++
               if truthy (FONNTE_TOKEN e) && bool_decide (¬ unresolved rr)
               then [(interpolate (phone rr),
                      Daily.message r date (default [] (get grouped r)))]
               else [])).
Proof.
  unfold daily_room.
  destruct (lookup_param e w r) as [pmsg|param] eqn:Hl.
  - match goal with |- context [acc ++ [?x]] => exists x end.
    split; [reflexivity|]. cbn [status].
    rewrite bool_decide_false by (intros H; apply H; by right).
    by rewrite andb_false_r, with_outbox_same.
  - destruct (truthy (param ≫= param_value)) eqn:Hp; cbn [negb].
    + destruct param as [p|]; [|done].
      destruct (lookup_param_row e w r p Hl) as (_ & _ & Hname & _).
      cbn [fmap option_fmap option_map]. rewrite Hname, or_else_same.
      match goal with
      | |- context [sendWhatsAppMessage e ?t ?m w] =>
          pose proof (sendWhatsAppMessage_outbox e t m w) as Hw;
          destruct (sendWhatsAppMessage e t m w) as [sr w'] eqn:Hsend
      end.
      cbn [snd] in Hw. subst w'.
      match goal with |- context [acc ++ [?x]] => exists x end.
      split; [reflexivity|].
      cbn [status phone interpolate].
      rewrite bool_decide_true, andb_true_r; [done|].
      unfold unresolved. cbn [status]. by destruct (success sr); intros [?|?].
    + match goal with |- context [acc ++ [?x]] => exists x end.
      split; [reflexivity|]. cbn [status].
      rewrite bool_decide_false by (intros H; apply H; by left).
      by rewrite andb_false_r, with_outbox_same.
Qed.

Lemma daily_loop_posts e date grouped rs : forall acc w,
  exists results,
    room <$> results = rs
    /\ fold_left (daily_room e date grouped) rs (acc, w)
       = (acc ++ results,
          with_outbox w
            (outbox w ++
               if truthy (FONNTE_TOKEN e)
               then (fun rr => (interpolate (phone rr),
                                Daily.message (room rr) date
                                  (default [] (get grouped (room rr)))))
                      <$> filter (fun rr => ¬ unresolved rr) results
               else [])).
Proof.
  induction rs as [|r rs IH]; intros acc w.
  - exists []. split; [done|]. cbn [fold_left]. rewrite app_nil_r.
    destruct (truthy (FONNTE_TOKEN e)); by rewrite with_outbox_same.
  - cbn [fold_left].
    destruct (daily_room_posts e date grouped acc w r) as (rr & Hr & ->).
    match goal with
    | |- context [fold_left _ rs (_, ?w1)] =>
        destruct (IH (acc ++ [rr]) w1) as (results & Hrs & ->)
    end.
    exists (rr :: results). split; [by rewrite fmap_cons, Hr, Hrs|].
    rewrite <-app_assoc, filter_cons. cbn [app]. f_equal.
    unfold with_outbox.
    cbn [outbox mst_parameter pendaftaran_operasi cron_job_logs job_runs].
    rewrite <-app_assoc. do 2 f_equal.
    destruct (truthy (FONNTE_TOKEN e)); [|done]. cbn [andb].
    destruct (decide (¬ unresolved rr)) as [H|H].
    + rewrite bool_decide_true by done. by rewrite fmap_cons, Hr.
    + by rewrite bool_decide_false by done.
Qed.

(** The loop does not read the log. *)
Lemma daily_loop_with_logs e date grouped rs l : forall acc w,
  fold_left (daily_room e date grouped) rs (acc, with_logs w l)
  = ((fold_left (daily_room e date grouped) rs (acc, w)).1,
     with_logs (fold_left (daily_room e date grouped) rs (acc, w)).2 l).
Proof.
  induction rs as [|r rs IH]; intros acc w; [done|]. cbn [fold_left].
  destruct (daily_room_posts e date grouped acc w r) as (rr & _ & Hw).
  destruct (daily_room_posts e date grouped acc (with_logs w l) r)
    as (rr' & _ & Hw').
  assert (rr' = rr) as ->.
  { revert Hw Hw'. unfold daily_room.
    change (lookup_param e (with_logs w l) r) with (lookup_param e w r).
    destruct (lookup_param e w r) as [|param].
    - intros [= H1%app_inj_tail] [= H2%app_inj_tail].
      destruct H1 as [_ <-], H2 as [_ <-]. reflexivity.
    - destruct (negb _).
      + intros [= H1%app_inj_tail] [= H2%app_inj_tail].
      destruct H1 as [_ <-], H2 as [_ <-]. reflexivity.
      + rewrite (surjective_pairing (sendWhatsAppMessage _ _ _ w)).
        rewrite (surjective_pairing (sendWhatsAppMessage _ _ _ (with_logs w l))).
        rewrite (sendWhatsAppMessage_result e _ _ (with_logs w l) w).
        intros [= H1%app_inj_tail] [= H2%app_inj_tail].
      destruct H1 as [_ <-], H2 as [_ <-]. reflexivity. }
  rewrite Hw, Hw'.
  match goal with
  | |- context [with_outbox (with_logs w l) ?o] =>
      change (with_outbox (with_logs w l) o)
        with (with_logs (with_outbox w o) l)
  end.
  exact (IH (acc ++ [rr]) _).
Qed.

Lemma outbox_updateLog e logId st summ det w :
  outbox (updateLog e logId st summ det w) = outbox w
  /\ pendaftaran_operasi (updateLog e logId st summ det w)
     = pendaftaran_operasi w
  /\ mst_parameter (updateLog e logId st summ det w) = mst_parameter w.
Proof. by destruct logId. Qed.

Lemma destination_lookup e w r :
  destination e w r
  = match lookup_param e w r with
    | LookupRow (Some p) => if truthy (param_value p) then Some p else None
    | _ => None
    end.
Proof.
  unfold destination, lookup_param. destruct (param_error e r); [done|].
  by destruct (filter _ _) as [|p [|]].
Qed.

(** What the RoomResults of a loop say about the messages owed. *)
Lemma posts_of_verdicts e w date ss (results : list RoomResult) :
  Forall (fun rr => verdict e w date (grouping ss) (room rr) rr) results ->
  (fun rr => (interpolate (phone rr),
              Daily.message (room rr) date
                (default [] (get (grouping ss) (room rr)))))
    <$> filter (fun rr => ¬ unresolved rr) results
  = omap (post_for e w date ss) (room <$> results)
  /\ Forall (fun rr => ¬ unresolved rr
                       <-> is_Some (destination e w (room rr))) results.
Proof.
  induction 1 as [|rr results Hv _ [IH1 IH2]]; [done|].
  rewrite filter_cons, fmap_cons. cbn [omap list_omap].
  unfold post_for at 1. rewrite destination_lookup.
  unfold verdict in Hv.
  assert (destination e w (room rr)
          = match lookup_param e w (room rr) with
            | LookupRow (Some p) =>
                if truthy (param_value p) then Some p else None
            | _ => None
            end) as Hdest by apply destination_lookup.
  destruct (lookup_param e w (room rr)) as [msg|[p|]].
  - destruct Hv as [Hst _].
    rewrite decide_False by (intros Hn; apply Hn; by right).
    cbn [fmap option_fmap option_map]. split; [done|].
    constructor; [|done]. rewrite Hdest. split; [|by intros [? [=]]].
    intros Hn. destruct Hn. by right.
  - cbn [mbind option_bind] in Hv.
    destruct (truthy (param_value p)) eqn:Hp.
    + destruct Hv as (_ & Hst & _ & Hphone).
      assert (¬ unresolved rr) as Hres.
      { unfold unresolved. rewrite Hst. by destruct (success _); intros [?|?]. }
      rewrite decide_True by done.
      rewrite fmap_cons, Hphone, get_grouping, IH1.
      cbn [fmap option_fmap option_map].
      split; [done|].
      constructor; [|done]. rewrite Hdest. by split; [eexists|].
    + destruct Hv as [Hst _].
      rewrite decide_False by (intros Hn; apply Hn; by left).
      cbn [fmap option_fmap option_map]. split; [done|].
      constructor; [|done]. rewrite Hdest. split; [|by intros [? [=]]].
      intros Hn. destruct Hn. by left.
  - destruct Hv as [Hst _].
    rewrite decide_False by (intros Hn; apply Hn; by left).
    cbn [fmap option_fmap option_map]. split; [done|].
    constructor; [|done]. rewrite Hdest. split; [|by intros [? [=]]].
    intros Hn. destruct Hn. by left.
Qed.

(** X4: a run that finds events, in rooms that name no property of
    [Object.prototype], hands to the provider, in the order of its
    RoomResults, one message for every group whose lookup finds one active
    rule with an address, and none for the others; the message goes to
    the [param_value] of that rule in the table of rules and is the
    message of that group's events. The groups that get a message are
    those recorded as [sent] or [send_failed]. Without a token nothing is
    handed over. The tables of events and of rules stay as they were. *)
Theorem run_posts_to_resolved_groups (e : Env) (w : World) :
  surgeries_error e = None ->
  target_events e w ≠ [] ->
  ordinary_rooms (target_events e w) ->
  exists results,
    run_rooms (runDailyWhatsAppJob e w).1 = Some results
    /\ outbox (runDailyWhatsAppJob e w).2
       = outbox w ++
           (if truthy (FONNTE_TOKEN e)
            then omap (post_for e w (today_plus_2 e) (target_events e w))
                   (room <$> results)
            else [])
    /\ Forall (fun rr => ¬ unresolved rr
                         <-> is_Some (destination e w (room rr))) results
    /\ pendaftaran_operasi (runDailyWhatsAppJob e w).2 = pendaftaran_operasi w
    /\ mst_parameter (runDailyWhatsAppJob e w).2 = mst_parameter w.
Proof.
  intros Herr Hne Hord. unfold target_events in *.
  destruct (run_with_events e w Herr Hne Hord)
    as (results0 & posts0 & Hall & Hout & _).
  apply results_of_groups in Hall as [_ Hall].
  destruct (posts_of_verdicts e w (today_plus_2 e) _ _ Hall) as [Hposts Hdest].
  assert (length (surgeries_on (today_plus_2 e) w) ≠ 0) as Hlen
    by by destruct (surgeries_on _ _).
  assert (forall w0,
    pendaftaran_operasi w0 = pendaftaran_operasi w ->
    surgeries_on (today_plus_2 e) w0 = surgeries_on (today_plus_2 e) w) as Hsame.
  { intros w0 H0. unfold surgeries_on. by rewrite H0. }
  revert Hout. unfold runDailyWhatsAppJob. rewrite Herr.
  destruct (insert_running e (with_job_started w)) as [logId w0] eqn:Hins.
  assert (outbox w0 = outbox w /\ pendaftaran_operasi w0 = pendaftaran_operasi w
          /\ mst_parameter w0 = mst_parameter w) as (Ho & Hp & Hm).
  { unfold insert_running in Hins.
    destruct (log_insert_error e); by injection Hins as _ <-. }
  rewrite (Hsame w0 Hp), decide_False by done.
  rewrite (groupedByRoom_ordinary _ Hord).
  set (ss := surgeries_on (today_plus_2 e) w) in *.
  destruct (daily_loop_posts e (today_plus_2 e) (grouping ss)
              (Object_keys (grouping ss)) [] w0) as (results & _ & ->).
  cbn [fst snd run_rooms app]. intros [= ->].
  exists results0.
  destruct (outbox_updateLog e logId log_success
              (completed_summary (today_plus_2 e)
                 (length (Object_keys (grouping ss))) (length ss))
              (Some {| targetDate := Some (today_plus_2 e);
                       rooms := Some results0 |})
              (with_outbox w0
                 (outbox w0 ++
                  (if truthy (FONNTE_TOKEN e)
                   then (fun rr => (interpolate (phone rr),
                                    Daily.message (room rr) (today_plus_2 e)
                                      (default [] (get (grouping ss)
                                                     (room rr)))))
                          <$> filter (fun rr => ¬ unresolved rr) results0
                   else [])))) as (Ho' & Hp' & Hm').
  unfold completed_summary in *.
  split; [done|]. rewrite Ho', Hp', Hm'. cbn. rewrite Ho, Hp, Hm.
  split_and!; [|done|done|done]. f_equal.
  destruct (truthy (FONNTE_TOKEN e)); [|done]. exact Hposts.
Qed.

Lemma run_posts_to_resolved_groups_witness :
  exists results,
    run_rooms (runDailyWhatsAppJob scenario_env scenario_world).1 = Some results
    /\ outbox (runDailyWhatsAppJob scenario_env scenario_world).2
       = outbox scenario_world ++
           (if truthy (FONNTE_TOKEN scenario_env)
            then omap (post_for scenario_env scenario_world
                         (today_plus_2 scenario_env)
                         (target_events scenario_env scenario_world))
                   (room <$> results)
            else [])
    /\ Forall (fun rr => ¬ unresolved rr
                         <-> is_Some (destination scenario_env scenario_world
                                        (room rr))) results
    /\ pendaftaran_operasi (runDailyWhatsAppJob scenario_env scenario_world).2
       = pendaftaran_operasi scenario_world
    /\ mst_parameter (runDailyWhatsAppJob scenario_env scenario_world).2
       = mst_parameter scenario_world.
Proof.
  apply (run_posts_to_resolved_groups scenario_env scenario_world).
  - reflexivity.
  - vm_compute. discriminate.
  - apply (bool_decide_unpack _). vm_compute. exact I.
Defined.

(** X5: what a run returns and what it sends do not depend on whether
    its [running] row could be inserted; when it could not, the run goes on
    and the log stays as it was. *)
Theorem run_goes_on_without_its_log_row (e : Env) (w : World) (err : string) :
  (runDailyWhatsAppJob (with_log_insert_error e (Some err)) w).1
  = (runDailyWhatsAppJob (with_log_insert_error e None) w).1
  /\ outbox (runDailyWhatsAppJob (with_log_insert_error e (Some err)) w).2
     = outbox (runDailyWhatsAppJob (with_log_insert_error e None) w).2
  /\ cron_job_logs (runDailyWhatsAppJob (with_log_insert_error e (Some err)) w).2
     = cron_job_logs w.
Proof.
  unfold runDailyWhatsAppJob, insert_running.
  cbn [log_insert_error surgeries_error today_plus_2 with_log_insert_error].
  destruct (surgeries_error e) as [emsg|]; [by rewrite decide_False by done|].
  change (surgeries_on (today_plus_2 e) (with_logs ?w0 ?l))
    with (surgeries_on (today_plus_2 e) w0).
  case_decide as Hlen; [by rewrite decide_False by done|].
  destruct (groupedByRoom _) as [emsg|grouped];
    [by rewrite decide_False by done|].
  change (daily_room (with_log_insert_error e ?x)) with (daily_room e).
  rewrite daily_loop_with_logs.
  destruct (fold_left _ _ ([], with_job_started w)) as [results w1] eqn:Hfold.
  cbn [fst snd]. rewrite decide_False by done.
  assert (cron_job_logs w1 = cron_job_logs w) as Hlogs.
  { destruct (daily_loop_posts e (today_plus_2 e) grouped
                (Object_keys grouped) [] (with_job_started w))
      as (? & _ & Heq).
    rewrite Heq in Hfold. by injection Hfold as _ <-. }
  split_and!; [done| |done].
  by rewrite (proj1 (outbox_updateLog _ _ _ _ _ _)).
Qed.

(** ** Reconciliation reporter *)



Lemma get_fold_set {A V} (key : A -> string) (val : A -> V) (ps : list A) k :
  get (fold_left (fun acc p => set acc (key p) (val p)) ps []) k
  = val <$> List.find (fun p => bool_decide (key p = k)) (reverse ps).
Proof.
  induction ps as [|p ps IH] using rev_ind; [done|].
  rewrite fold_left_app, reverse_snoc. cbn [fold_left List.find].
  rewrite get_set, IH, bool_decide_decide. by case_decide.
Qed.


Lemma find_reverse_none {A} (P : A -> Prop) `{!forall x, Decision (P x)}
    (ps : list A) :
  filter P ps = [] ->
  List.find (fun x => bool_decide (P x)) (reverse ps) = None.
Proof.
  induction ps as [|x ps IH] using rev_ind; [done|].
  rewrite filter_app, reverse_snoc, filter_cons. cbn [List.find filter].
  rewrite bool_decide_decide. destruct (decide (P x)) as [Hx|Hx].
  - rewrite filter_nil. by intros [_ ?]%app_eq_nil.
  - rewrite filter_nil, app_nil_r. apply IH.
Qed.

Lemma find_reverse_last {A} (P : A -> Prop) `{!forall x, Decision (P x)}
    (ps : list A) :
  List.find (fun x => bool_decide (P x)) (reverse ps) = last (filter P ps).
Proof.
  induction ps as [|x ps IH] using rev_ind; [done|].
  rewrite filter_app, reverse_snoc, filter_cons. cbn [List.find filter].
  rewrite bool_decide_decide. destruct (decide (P x)) as [Hx|Hx].
  - by rewrite filter_nil, last_snoc.
  - by rewrite filter_nil, app_nil_r.
Qed.

(** The fallback address of the status report: the value of the active
    rule of the group, the last one should there be several; none when
    the query of the rules fails. *)
Lemma roomPhones_get e w (uniqueRooms : list string) rm :
  rm ∈ uniqueRooms ->
  get (roomPhones e uniqueRooms w) rm ≫= (fun v => v)
  = match room_params_error e with
    | Some _ => None
    | None => last (filter (active_rule rm) (mst_parameter w)) ≫= param_value
    end.
Proof.
  intros Hrm. unfold roomPhones, roomParams. rewrite get_fold_set.
  destruct (room_params_error e); [done|].
  rewrite (find_reverse_last (fun q => param_name q = rm)).
  assert (filter (fun q => param_name q = rm)
            (filter (fun q => param_type q = "RUANG_RAWAT_INAP"
                              /\ param_name q ∈ uniqueRooms
                              /\ is_active q = true) (mst_parameter w))
          = filter (active_rule rm) (mst_parameter w)) as ->.
  { rewrite list_filter_filter. apply list_filter_iff. intros q.
    unfold active_rule. split.
    - by intros (<- & ? & _ & ?).
    - by intros (? & <- & ?). }
  by destruct (last _).
Qed.

(** X7: when no room of the date names a property of [Object.prototype]
    and the matched log holds no room [__proto__], every entry of a status
    report carries the timestamp of the log matched for the date. For a
    group that log holds a RoomResult for, the entry shows the status and
    the reason of the (last) RoomResult, and its address when it has one;
    for a group it holds none for, the entry says [need_resend] without a
    reason. Where the log gives no address, the entry shows the
    [param_value] of the active rule of the group in the table of rules
    (of the last one, should there be several), or none when there is no
    such rule or the query of the rules fails. *)
Theorem status_entry_reflects_log_and_rule (e : Env) (date : string)
    (w : World) (report : StatusReport) (rep : RoomReport) :
  whatsapp_status e date w = inr report ->
  ordinary_rooms (events_on date w) ->
  plain_log (latest_log date w) ->
  rep ∈ rep_rooms report ->
  let logged_result :=
    last_for (rep_room rep) (logged_rooms (latest_log date w)) in
  last_attempt rep = timestamp <$> latest_log date w
  /\ match logged_result with
     | Some rl =>
         rep_status rep = logged (status rl)
         /\ failure_reason rep = or_null (reason rl)
         /\ (truthy (phone rl) = true -> rep_phone rep = phone rl)
     | None => rep_status rep = need_resend /\ failure_reason rep = None
     end
  /\ (from_option (fun rl => truthy (phone rl)) false logged_result = false ->
      rep_phone rep
      = match room_params_error e with
        | Some _ => None
        | None =>
            or_null (last (filter (active_rule (rep_room rep))
                             (mst_parameter w)) ≫= param_value)
        end).
Proof.
  unfold whatsapp_status. fold (events_on date w).
  destruct (surgeries_error e); [done|]. destruct (logs_error e); [done|].
  intros [= <-] _ _. cbn [rep_rooms].
  intros (rm & -> & Hrm)%list_elem_of_fmap.
  set (counts := roomCounts (events_on date w)) in *.
  destruct (room_report_spec counts (roomPhones e (Object_keys counts) w)
              (latest_log date w) rm) as (Hr & _).
  rewrite Hr. cbn zeta. unfold room_report. rewrite get_logResults.
  pose proof (roomPhones_get e w _ rm Hrm) as Hphones.
  destruct (last_for rm (logged_rooms (latest_log date w))) as [rl|];
    cbn -[Nat.ltb roomPhones].
  - split_and!; [done|done|done| |].
    + intros Hp. assert (truthy (or_null (phone rl)) = true) as ->.
      { unfold or_null. by rewrite Hp. }
      unfold or_null. by rewrite Hp.
    + intros Hp. assert (truthy (or_null (phone rl)) = false) as ->.
      { unfold or_null. by rewrite Hp. }
      rewrite Hphones. by destruct (room_params_error e).
  - split_and!; [done|done|done|].
    intros _. rewrite Hphones. by destruct (room_params_error e).
Qed.

Lemma status_entry_reflects_log_and_rule_witness :
  let report := report_of (whatsapp_status scenario_env "2026-11-04" logged_world) in
  let rep := default (room_report [] [] None [] "") (rep_rooms report !! 1) in
  let logged_result :=
    last_for (rep_room rep)
      (logged_rooms (latest_log "2026-11-04" logged_world)) in
  last_attempt rep = timestamp <$> latest_log "2026-11-04" logged_world
  /\ match logged_result with
     | Some rl =>
         rep_status rep = logged (status rl)
         /\ failure_reason rep = or_null (reason rl)
         /\ (truthy (phone rl) = true -> rep_phone rep = phone rl)
     | None => rep_status rep = need_resend /\ failure_reason rep = None
     end
  /\ (from_option (fun rl => truthy (phone rl)) false logged_result = false ->
      rep_phone rep
      = match room_params_error scenario_env with
        | Some _ => None
        | None =>
            or_null (last (filter (active_rule (rep_room rep))
                             (mst_parameter logged_world)) ≫= param_value)
        end).
Proof.
  apply (status_entry_reflects_log_and_rule scenario_env "2026-11-04"
           logged_world
           (report_of (whatsapp_status scenario_env "2026-11-04" logged_world))
           (default (room_report [] [] None [] "")
              (rep_rooms (report_of (whatsapp_status scenario_env "2026-11-04"
                                       logged_world)) !! 1))).
  - vm_compute. reflexivity.
  - apply (bool_decide_unpack _). vm_compute. exact I.
  - apply (bool_decide_unpack _). vm_compute. exact I.
  - apply (list_elem_of_lookup_2 _ 1). vm_compute. reflexivity.
Defined.

(** ** The log as the reporter reads it after a write *)









(** ** Manual resend handler, further *)


Lemma tables_record_resend e date rm rs ok w :
  pendaftaran_operasi (record_resend e date rm rs ok w) = pendaftaran_operasi w
  /\ mst_parameter (record_resend e date rm rs ok w) = mst_parameter w
  /\ outbox (record_resend e date rm rs ok w) = outbox w
  /\ job_runs (record_resend e date rm rs ok w) = job_runs w.
Proof. unfold record_resend. by destruct (existing_log e date w). Qed.








Lemma resend_sends_once field compose e req w :
  code (resend_with field compose e req w).1 = 200 ->
  exists p,
    lookup_param e w (interpolate (body_room req)) = LookupRow (Some p)
    /\ outbox (resend_with field compose e req w).2
       = outbox w ++
           if truthy (FONNTE_TOKEN e)
           then [(interpolate (param_value p),
                  compose (interpolate (body_room req))
                    (interpolate (body_date req))
                    (surgeries_on_in (interpolate (body_date req))
                       (interpolate (body_room req)) w))]
           else [].
Proof.
  unfold resend_with.
  destruct (truthy (body_date req)); [|done].
  destruct (truthy (body_room req)); [|done]. cbn [negb orb].
  destruct (surgeries_error e); [done|].
  case_decide as Hlen; [done|].
  destruct (lookup_param _ _ _) as [|[p|]] eqn:Hl; [done| |done].
  cbn [mbind option_bind]. destruct (truthy (param_value p)); [|done].
  cbn [negb fmap option_fmap option_map].
  destruct (lookup_param_row e w _ p Hl) as (_ & _ & Hname & _).
  rewrite Hname, or_else_same.
  match goal with
  | |- context [sendWhatsAppMessage e ?t ?m w] =>
      pose proof (sendWhatsAppMessage_outbox e t m w) as Hw;
      destruct (sendWhatsAppMessage e t m w) as [sr w'] eqn:Hsend
  end.
  cbn [snd] in Hw. subst w'. intros _. exists p. split; [done|].
  cbn [snd]. by rewrite (proj1 (proj2 (proj2 (tables_record_resend _ _ _ _ _ _)))).
Qed.

(** X10: a resend request that is not answered 200 changes nothing:
    nothing is handed to the provider and the log is not written; and a
    request without a date or without a group is answered 400. A request
    answered 200 hands over one message when a token is configured, none
    otherwise, addressed to the value of the group's one active rule, and
    leaves the tables of events and rules as they were. Both resend
    endpoints, each with its own template. *)
Theorem resend_effects (e : Env) (req : Request) (w : World) :
  Forall (fun hc : (Env -> Request -> World -> Response * World)
                   * (string -> string -> list Surgery -> string) =>
    let handler := hc.1 in
    (code (handler e req w).1 ≠ 200 -> (handler e req w).2 = w)
    /\ (truthy (body_date req) = false \/ truthy (body_room req) = false ->
        code (handler e req w).1 = 400)
    /\ (code (handler e req w).1 = 200 ->
        pendaftaran_operasi (handler e req w).2 = pendaftaran_operasi w
        /\ mst_parameter (handler e req w).2 = mst_parameter w
        /\ exists p,
             lookup_param e w (interpolate (body_room req))
             = LookupRow (Some p)
             /\ outbox (handler e req w).2
                = outbox w ++
                    if truthy (FONNTE_TOKEN e)
                    then [(interpolate (param_value p),
                           hc.2 (interpolate (body_room req))
                             (interpolate (body_date req))
                             (surgeries_on_in (interpolate (body_date req))
                                (interpolate (body_room req)) w))]
                    else []))
    [(whatsapp_resend_cron, CronResend.message);
     (whatsapp_resend, Resend.message)].
Proof.
  assert (forall field compose,
    (code (resend_with field compose e req w).1 ≠ 200 ->
     (resend_with field compose e req w).2 = w)
    /\ (truthy (body_date req) = false \/ truthy (body_room req) = false ->
        code (resend_with field compose e req w).1 = 400)
    /\ (code (resend_with field compose e req w).1 = 200 ->
        pendaftaran_operasi (resend_with field compose e req w).2
        = pendaftaran_operasi w
        /\ mst_parameter (resend_with field compose e req w).2
           = mst_parameter w
        /\ exists p,
             lookup_param e w (interpolate (body_room req))
             = LookupRow (Some p)
             /\ outbox (resend_with field compose e req w).2
                = outbox w ++
                    if truthy (FONNTE_TOKEN e)
                    then [(interpolate (param_value p),
                           compose (interpolate (body_room req))
                             (interpolate (body_date req))
                             (surgeries_on_in (interpolate (body_date req))
                                (interpolate (body_room req)) w))]
                    else [])) as H.
  { intros field compose. split_and!.
    - apply resend_rejected.
    - unfold resend_with. by intros [-> | ->]; rewrite ?orb_true_r.
    - intros Hcode. split_and!; [| |by apply resend_sends_once].
      + destruct (resend_accepted field compose e req w Hcode)
          as (_ & _ & sr & phoneNumber & posts & _ & ->).
        by rewrite (proj1 (tables_record_resend _ _ _ _ _ _)).
      + destruct (resend_accepted field compose e req w Hcode)
          as (_ & _ & sr & phoneNumber & posts & _ & ->).
        by rewrite (proj1 (proj2 (tables_record_resend _ _ _ _ _ _))). }
  apply Forall_cons. split; [exact (H "date" CronResend.message)|].
  apply Forall_cons. split; [exact (H "targetDate" Resend.message)|].
  constructor.
Qed.

(** X11: the write of a resend that reaches it (the request is ready, so
    it is answered 200). The handler reads the log of the date: the newest
    row of the daily job whose summary matches the date, or nothing when
    there is none or the read fails. When it reads nothing, exactly one
    row is appended, under a new identifier, with status [success] or
    [error] by the outcome of the send and details that hold the date and
    the one RoomResult. When it reads a row, no row is added or removed,
    rows with another identifier stay as they were, and the row read
    keeps its identifier, job name, status and timestamps; its summary is
    the old one followed by the note of the resend. *)
Theorem resend_log_write (e : Env) (req : Request) (w : World) :
  resend_ready e req w ->
  let date := interpolate (body_date req) in
  let rm := interpolate (body_room req) in
  existing_log e date w
  = match logs_error e with
    | Some _ => None
    | None => latest_log date w
    end
  /\ Forall (fun handler : Env -> Request -> World -> Response * World =>
    code (handler e req w).1 = 200
    /\ exists sr m rs,
      body (handler e req w).1 = ResendBody m (success sr) rm sr
      /\ room rs = rm /\ wa_response rs = Some sr
      /\ status rs = (if success sr then sent else send_failed)
      /\ match existing_log e date w with
         | None =>
             exists row,
               cron_job_logs (handler e req w).2 = cron_job_logs w ++ [row]
               /\ (id row ∉ id <$> cron_job_logs w)
               /\ job_name row = job
               /\ log_status row
                  = (if success sr then log_success else log_error)
               /\ summary row
                  = Some ("Manual resend for room " +:+ rm +:+ " on date "
                            +:+ date)
               /\ details row
                  = DetailsJson {| targetDate := Some date;
                                   rooms := Some [rs] |}
         | Some latestLog =>
             Forall2 (fun old new =>
               id new = id old /\ job_name new = job_name old
               /\ log_status new = log_status old
               /\ timestamp new = timestamp old
               /\ started_at new = started_at old
               /\ finished_at new = finished_at old
               /\ if decide (id old = id latestLog)
                  then summary new
                       = Some (interpolate (summary latestLog)
                                 +:+ " (Manual resend for " +:+ rm +:+ " at "
                                 +:+ time_label e +:+ ")")
                       /\ details new
                          = DetailsJson
                              (merge_details rm rs (details latestLog))
                  else new = old)
               (cron_job_logs w) (cron_job_logs (handler e req w).2)
         end)
    [whatsapp_resend_cron; whatsapp_resend].
Proof.
  intros Hready date rm. split; [done|].
  assert (forall field compose,
    code (resend_with field compose e req w).1 = 200
    /\ exists sr m rs,
      body (resend_with field compose e req w).1
      = ResendBody m (success sr) rm sr
      /\ room rs = rm /\ wa_response rs = Some sr
      /\ status rs = (if success sr then sent else send_failed)
      /\ match existing_log e date w with
         | None =>
             exists row,
               cron_job_logs (resend_with field compose e req w).2 = cron_job_logs w ++ [row]
               /\ (id row ∉ id <$> cron_job_logs w)
               /\ job_name row = job
               /\ log_status row
                  = (if success sr then log_success else log_error)
               /\ summary row
                  = Some ("Manual resend for room " +:+ rm +:+ " on date "
                            +:+ date)
               /\ details row
                  = DetailsJson {| targetDate := Some date;
                                   rooms := Some [rs] |}
         | Some latestLog =>
             Forall2 (fun old new =>
               id new = id old /\ job_name new = job_name old
               /\ log_status new = log_status old
               /\ timestamp new = timestamp old
               /\ started_at new = started_at old
               /\ finished_at new = finished_at old
               /\ if decide (id old = id latestLog)
                  then summary new
                       = Some (interpolate (summary latestLog)
                                 +:+ " (Manual resend for " +:+ rm +:+ " at "
                                 +:+ time_label e +:+ ")")
                       /\ details new
                          = DetailsJson
                              (merge_details rm rs (details latestLog))
                  else new = old)
               (cron_job_logs w) (cron_job_logs (resend_with field compose e req w).2)
         end) as H.
  { intros field compose.
    pose proof (proj2 (resend_ready_200 field compose e req w) Hready)
      as Hcode.
    split; [exact Hcode|].
    destruct (resend_accepted field compose e req w Hcode)
      as (_ & _ & sr & phoneNumber & posts & Hbody & ->).
    fold date rm in Hbody |- *.
    eexists sr, _, (resend_status e rm phoneNumber
                      (length (surgeries_on_in date rm w)) sr).
    split; [exact Hbody|].
    split; [reflexivity|]. split; [reflexivity|]. split; [reflexivity|].
    rewrite logs_record_resend.
    change (existing_log e ?d (with_outbox w ?o)) with (existing_log e d w).
    cbn [cron_job_logs with_outbox].
    destruct (existing_log e date w) as [latestLog|].
    - unfold with_row. apply Forall2_fmap_r, Forall_Forall2_diag, Forall_forall.
      intros old _. unfold Basics.compose.
      by destruct (decide (id old = id latestLog)).
    - eexists. split; [reflexivity|]. split_and!; [|done..].
      intros (r & Hid & Hr%fresh_id_gt)%list_elem_of_fmap. cbn in Hid. lia. }
  repeat constructor; apply H.
Qed.

Lemma resend_log_write_witness :
  let e := scenario_env in
  let req := resend_request "2026-11-04" "Ward A" in
  let w := scenario_world in
  let date := interpolate (body_date req) in
  let rm := interpolate (body_room req) in
  existing_log e date w
  = match logs_error e with
    | Some _ => None
    | None => latest_log date w
    end
  /\ Forall (fun handler : Env -> Request -> World -> Response * World =>
    code (handler e req w).1 = 200
    /\ exists sr m rs,
      body (handler e req w).1 = ResendBody m (success sr) rm sr
      /\ room rs = rm /\ wa_response rs = Some sr
      /\ status rs = (if success sr then sent else send_failed)
      /\ match existing_log e date w with
         | None =>
             exists row,
               cron_job_logs (handler e req w).2 = cron_job_logs w ++ [row]
               /\ (id row ∉ id <$> cron_job_logs w)
               /\ job_name row = job
               /\ log_status row
                  = (if success sr then log_success else log_error)
               /\ summary row
                  = Some ("Manual resend for room " +:+ rm +:+ " on date "
                            +:+ date)
               /\ details row
                  = DetailsJson {| targetDate := Some date;
                                   rooms := Some [rs] |}
         | Some latestLog =>
             Forall2 (fun old new =>
               id new = id old /\ job_name new = job_name old
               /\ log_status new = log_status old
               /\ timestamp new = timestamp old
               /\ started_at new = started_at old
               /\ finished_at new = finished_at old
               /\ if decide (id old = id latestLog)
                  then summary new
                       = Some (interpolate (summary latestLog)
                                 +:+ " (Manual resend for " +:+ rm +:+ " at "
                                 +:+ time_label e +:+ ")")
                       /\ details new
                          = DetailsJson
                              (merge_details rm rs (details latestLog))
                  else new = old)
               (cron_job_logs w) (cron_job_logs (handler e req w).2)
         end)
    [whatsapp_resend_cron; whatsapp_resend].
Proof.
  apply (resend_log_write scenario_env (resend_request "2026-11-04" "Ward A")
           scenario_world).
  apply (bool_decide_unpack _). vm_compute. exact I.
Defined.

(** X12: the upsert of a RoomResult under its own key. A second upsert
    under the same key overwrites the first and nothing else; the list
    grows by one exactly when the key was not there; the RoomResults of
    the other keys stay, in their order. No assumption on the list. *)
Theorem upsert_overwrites (rm : string) (rs1 rs2 : RoomResult)
    (l : list RoomResult) :
  room rs1 = rm -> room rs2 = rm ->
  upsert rm rs2 (upsert rm rs1 l) = upsert rm rs2 l
  /\ length (upsert rm rs1 l)
     = (if decide (rm ∈ room <$> l) then length l else S (length l))
  /\ filter (fun r => room r ≠ rm) (upsert rm rs1 l)
     = filter (fun r => room r ≠ rm) l
  /\ rs1 ∈ upsert rm rs1 l.
Proof.
  intros H1 H2. split_and!.
  - induction l as [|x l IH].
    + rewrite !upsert_nil, upsert_cons. by rewrite decide_True.
    + rewrite !upsert_cons. destruct (decide (room x = rm)) as [Hx|Hx].
      * by rewrite upsert_cons, decide_True.
      * by rewrite upsert_cons, decide_False, IH.
  - rewrite <-(length_fmap room (upsert rm rs1 l)), upsert_keys by done.
    case_decide; [by rewrite length_fmap|].
    rewrite length_app, length_fmap. cbn. lia.
  - by apply upsert_others.
  - apply elem_of_upsert.
Qed.

Lemma upsert_overwrites_witness :
  let rs1 := resend_status scenario_env "Ward A" "0811" 3
               {| success := false; sr_status := None; sr_response := None;
                  sr_error := Some "timeout" |} in
  let rs2 := resend_status failing_env "Ward A" "0811" 3
               {| success := true; sr_status := Some true;
                  sr_response := Some "{}"; sr_error := None |} in
  let l := logged_rooms (latest_log "2026-11-04" logged_world) in
  upsert "Ward A" rs2 (upsert "Ward A" rs1 l) = upsert "Ward A" rs2 l
  /\ length (upsert "Ward A" rs1 l)
     = (if decide ("Ward A" ∈ room <$> l) then length l else S (length l))
  /\ filter (fun r => room r ≠ "Ward A") (upsert "Ward A" rs1 l)
     = filter (fun r => room r ≠ "Ward A") l
  /\ rs1 ∈ upsert "Ward A" rs1 l.
Proof.
  intros rs1 rs2 l. apply (upsert_overwrites "Ward A" rs1 rs2 l); reflexivity.
Defined.

(** ** Execution log store, further *)



Lemma most_recent_max (l : list LogEntry) x :
  most_recent l = Some x -> forall y, y ∈ l -> (timestamp y <= timestamp x)%nat.
Proof.
  revert x. induction l as [|z l IH]; intros x; [done|].
  cbn [most_recent]. destruct (most_recent l) as [m|] eqn:Hm.
  - destruct (timestamp z <? timestamp m)%nat eqn:Hlt; intros [= <-] y Hy.
    + apply Nat.ltb_lt in Hlt.
      apply elem_of_cons in Hy as [->|Hy]; [lia|by apply IH].
    + apply Nat.ltb_ge in Hlt.
      apply elem_of_cons in Hy as [->|Hy]; [lia|].
      specialize (IH m eq_refl y Hy). lia.
  - apply most_recent_None in Hm as ->. intros [= <-] y Hy.
    by apply list_elem_of_singleton in Hy as ->.
Qed.

(** X14: the log matched for a date is a row of the daily job whose
    summary matches the date, and no such row has a greater timestamp; no
    log is matched exactly when the table holds no such row. *)
Theorem latest_log_is_a_newest_match (date : string) (w : World) :
  match latest_log date w with
  | Some l =>
      l ∈ cron_job_logs w /\ job_name l = job
      /\ ilike_date date (summary l) = true
      /\ forall r, r ∈ cron_job_logs w -> job_name r = job ->
           ilike_date date (summary r) = true ->
           (timestamp r <= timestamp l)%nat
  | None =>
      forall r, r ∈ cron_job_logs w ->
        ¬ (job_name r = job /\ ilike_date date (summary r) = true)
  end.
Proof.
  unfold latest_log. destruct (most_recent (logs_for date w)) as [l|] eqn:Hl.
  - pose proof (most_recent_elem_of _ _ Hl) as Hin. unfold logs_for in *.
    apply list_elem_of_filter in Hin as [[Hjob Hlike] Hin].
    split_and!; [done..|]. intros r Hr Hrj Hrl.
    apply (most_recent_max _ _ Hl). by apply list_elem_of_filter.
  - apply most_recent_None in Hl. intros r Hr Hmatch.
    assert (r ∈ logs_for date w) as Hin by by apply list_elem_of_filter.
    rewrite Hl in Hin. by apply elem_of_nil in Hin.
Qed.

(** ** Grouping, further *)

(** X15: the grouping of the daily job. When no room names a property of
    [Object.prototype], it puts every event into the group of its room,
    and an event without a room, or with an empty one, into the group
    [TIDAK DIKETAHUI]; a group holds its events in the order of the query,
    and there is a group for a key exactly when some event has it, so no
    group is empty. When some room names such a property ([constructor],
    [toString], [__proto__], ...), the reduction throws and there is no
    grouping. *)
Theorem groupedByRoom_partitions (surgeries : list Surgery) :
  (ordinary_rooms surgeries ->
   exists grouped,
     groupedByRoom surgeries = inr grouped
     /\ NoDup (Object_keys grouped)
     /\ forall r,
          default [] (get grouped r)
          = filter (fun s => room_key s = r) surgeries
          /\ (r ∈ Object_keys grouped
              <-> exists s, s ∈ surgeries /\ room_key s = r)
          /\ (r ∈ Object_keys grouped ->
              get grouped r ≠ None
              /\ 0 < length (default [] (get grouped r))))
  /\ (¬ ordinary_rooms surgeries ->
      exists msg, groupedByRoom surgeries = inl msg)
  /\ forall s, (ruangan_rawat_inap s = None \/ ruangan_rawat_inap s = Some "")
               -> room_key s = "TIDAK DIKETAHUI".
Proof.
  split_and!.
  - intros Hord. exists (grouping surgeries).
    split; [by apply groupedByRoom_ordinary|].
    split; [apply NoDup_Object_keys, NoDup_grouping|].
    intros r. split_and!.
    + apply get_grouping.
    + rewrite elem_of_Object_keys, keys_grouping, list_elem_of_fmap.
      split; intros (s & H1 & H2); exists s; by split.
    + intros Hr. split.
      * apply elem_of_Object_keys, get_is_Some in Hr.
        intros Hn. rewrite Hn in Hr. by destruct Hr.
      * rewrite get_grouping. fold (group_size surgeries r).
        apply group_size_pos. unfold distinct_keys.
        apply elem_of_remove_dups.
        by rewrite <-keys_grouping, <-elem_of_Object_keys.
  - intros Hord. eexists. by apply groupedByRoom_throws.
  - intros s [H|H]; unfold room_key; by rewrite H.
Qed.

(** X23: a single event of the target date in a room that names a
    property of [Object.prototype] makes the whole run fail: the grouping
    throws before any lookup, so the run returns the error outcome without
    RoomResults, hands nothing to the provider, also not for the other
    rooms of the date, and closes its log row, when it has one, with
    status [error] and no details. *)
Theorem run_fails_on_an_inherited_room (e : Env) (w : World) (s : Surgery) :
  surgeries_error e = None ->
  s ∈ target_events e w ->
  room_key s ∈ Object_prototype ->
  run_status (runDailyWhatsAppJob e w).1 = log_error
  /\ run_rooms (runDailyWhatsAppJob e w).1 = None
  /\ outbox (runDailyWhatsAppJob e w).2 = outbox w
  /\ exists summ,
       run_summary (runDailyWhatsAppJob e w).1 = summ
       /\ cron_job_logs (runDailyWhatsAppJob e w).2
          = log_after_run e w log_error summ DetailsNull.
Proof.
  intros Herr Hs Hroom.
  assert (¬ ordinary_rooms (surgeries_on (today_plus_2 e) w)) as Hord.
  { intros Hall. apply (proj1 (Forall_forall _ _) Hall) in Hs.
    unfold ordinary, inherited in Hs.
    by apply bool_decide_eq_false in Hs. }
  destruct (run_grouping_fails e w Herr Hord) as (Hout & _ & Hbox & Hlogs).
  rewrite Hout. split_and!; [done|done|done|].
  eexists. split; [reflexivity|exact Hlogs].
Qed.

Lemma run_fails_on_an_inherited_room_witness :
  let w := with_events scenario_world
             (pendaftaran_operasi scenario_world
                ++ [sample_event (Some "Fajar") "constructor" "11:00:00"]) in
  run_status (runDailyWhatsAppJob scenario_env w).1 = log_error
  /\ run_rooms (runDailyWhatsAppJob scenario_env w).1 = None
  /\ outbox (runDailyWhatsAppJob scenario_env w).2 = outbox w
  /\ exists summ,
       run_summary (runDailyWhatsAppJob scenario_env w).1 = summ
       /\ cron_job_logs (runDailyWhatsAppJob scenario_env w).2
          = log_after_run scenario_env w log_error summ DetailsNull.
Proof.
  apply (run_fails_on_an_inherited_room scenario_env
           (with_events scenario_world
              (pendaftaran_operasi scenario_world
                 ++ [sample_event (Some "Fajar") "constructor" "11:00:00"]))
           (sample_event (Some "Fajar") "constructor" "11:00:00")).
  - reflexivity.
  - apply (list_elem_of_lookup_2 _ 4). vm_compute. reflexivity.
  - apply (bool_decide_unpack _). vm_compute. exact I.
Defined.

(** ** Authentication middleware *)

Section split.
Implicit Types (s t : string) (c : ascii).

Lemma split_space_nonempty s : split_space s ≠ [].
Proof.
  induction s as [|c s IH]; [done|]. cbn [split_space].
  destruct (Ascii.eqb c " "); [done|]. by destruct (split_space s).
Qed.

Lemma split_space_spaceless s : spaceless s = true -> split_space s = [s].
Proof.
  induction s as [|c s IH]; [done|]. cbn [spaceless split_space].
  intros [Hc Hs]%andb_true_iff. apply negb_true_iff in Hc.
  by rewrite Hc, IH.
Qed.

Lemma split_space_app s t :
  spaceless s = true ->
  split_space (s +:+ " " +:+ t) = s :: split_space t.
Proof.
  induction s as [|c s IH]; [done|]. cbn [spaceless].
  intros [Hc Hs]%andb_true_iff. apply negb_true_iff in Hc.
  rewrite append_cons. cbn [split_space]. by rewrite Hc, IH.
Qed.

(** Every string is a first word, followed by nothing or by a space and
    the remainder. *)
Lemma first_word s :
  exists a, spaceless a = true
    /\ (s = a \/ exists b, s = a +:+ " " +:+ b).
Proof.
  induction s as [|c s (a & Ha & IH)].
  - exists "". split; [done|by left].
  - destruct (Ascii.eqb c " ") eqn:Hc.
    + apply Ascii.eqb_eq in Hc as ->. exists "". split; [done|].
      right. by exists s.
    + exists (String c a). split; [cbn [spaceless]; by rewrite Hc|].
      destruct IH as [->|(b & ->)]; [by left|]. right. by exists b.
Qed.

Lemma split_space_second header token :
  split_space header !! 1 = Some token <-> second_word header token.
Proof.
  split.
  - destruct (first_word header) as (a & Ha & [->|(b & ->)]).
    { by rewrite split_space_spaceless. }
    rewrite split_space_app by done. cbn [lookup list_lookup].
    destruct (first_word b) as (t & Ht & [->|(r & ->)]).
    + rewrite split_space_spaceless by done. intros [= <-].
      exists a, "". rewrite append_nil_r. split_and!; [done|done|by left|done].
    + rewrite split_space_app by done. intros [= <-].
      exists a, (" " +:+ r). split_and!; [done|done|right; by exists r|done].
  - intros (a & rest & Ha & Ht & Hrest & ->).
    rewrite split_space_app by done. cbn [lookup list_lookup].
    destruct Hrest as [->|(r & ->)].
    + by rewrite append_nil_r, split_space_spaceless.
    + by rewrite split_space_app.
Qed.
End split.

Lemma bearer_token_spec req token :
  token ≠ "" ->
  bearer_token req = Some token
  <-> exists header, headers req !! "authorization" = Some header
        /\ second_word header token.
Proof.
  intros Hne. unfold bearer_token.
  destruct (headers req !! "authorization") as [header|] eqn:Hh;
    cbn [truthy interpolate].
  - destruct (String.eqb_spec header "") as [->|Hh0]; cbn [negb].
    + split; [by intros [= <-]|].
      intros (h & [= <-] & (a & rest & _ & _ & _ & Heq)).
      by destruct a.
    + rewrite split_space_second. split; [by exists header|].
      by intros (h & [= <-] & ?).
  - split; [done|]. by intros (? & ? & _).
Qed.

(** X16: the middleware lets a request through exactly when the second
    space-separated word of its [authorization] header is not empty and
    verifies under [JWT_SECRET], or under [fallback_secret] when that is
    unset or empty; the first word (the scheme) is not looked at. Without
    such a word the answer is 401, with one that does not verify 403, and
    in both cases the handler of the route is not run and the world stays
    as it was. *)
Theorem authenticateToken_decides (a : AuthEnv) (req : Request)
    (next : string -> World -> Response * World) (w : World) :
  let secret := or_else (JWT_SECRET a) "fallback_secret" in
  (exists header token decoded,
     headers req !! "authorization" = Some header
     /\ second_word header token /\ token ≠ ""
     /\ jwt_verify a token secret = Some decoded
     /\ authenticateToken a req next w = next decoded w)
  \/ (exists header token,
        headers req !! "authorization" = Some header
        /\ second_word header token /\ token ≠ ""
        /\ jwt_verify a token secret = None
        /\ authenticateToken a req next w
           = ({| code := 403;
                 body := ErrorBody "Invalid or expired token." None |}, w))
  \/ ((forall header token,
         headers req !! "authorization" = Some header ->
         second_word header token -> token = "")
      /\ authenticateToken a req next w
         = ({| code := 401;
               body := ErrorBody "Access denied. No token provided." None |},
            w)).
Proof.
  intros secret. unfold authenticateToken.
  destruct (bearer_token req) as [token|] eqn:Htok; cbn [truthy interpolate].
  - destruct (String.eqb_spec token "") as [->|Hne]; cbn [negb].
    + right; right. split; [|done]. intros header t Hh Hw.
      destruct (decide (t = "")) as [|Hne]; [done|].
      assert (bearer_token req = Some t) as Ht
        by (apply bearer_token_spec; [done|by exists header]).
      congruence.
    + apply bearer_token_spec in Htok as (header & Hh & Hw); [|done].
      fold secret. destruct (jwt_verify a token secret) as [decoded|] eqn:Hv.
      * left. by exists header, token, decoded.
      * right; left. by exists header, token.
  - right; right. split; [|done]. intros header t Hh Hw.
    destruct (decide (t = "")) as [|Hne]; [done|].
    assert (bearer_token req = Some t) as Ht
      by (apply bearer_token_spec; [done|by exists header]).
    congruence.
Qed.

(** X17: the routes behind the middleware do nothing for a request that
    does not authenticate: when the test route of the job or one of the
    resend routes answers 401 or 403, no job was started, nothing was
    handed to the provider and the log was not written. A request that
    authenticates on the test route starts the job once and gets its
    outcome. *)
Theorem protected_routes_need_a_token (a : AuthEnv) (e : Env) (req : Request)
    (w : World) :
  Forall (fun route : AuthEnv -> Env -> Request -> World -> Response * World =>
    code (route a e req w).1 = 401 \/ code (route a e req w).1 = 403 ->
    (route a e req w).2 = w)
    [test_whatsapp_job; api_cron_whatsapp_resend; api_whatsapp_resend]
  /\ (bearer_token req = None ->
      Forall (fun route : AuthEnv -> Env -> Request -> World -> Response * World =>
                code (route a e req w).1 = 401)
        [test_whatsapp_job; api_cron_whatsapp_resend; api_whatsapp_resend])
  /\ (code (test_whatsapp_job a e req w).1 = 200 ->
      test_whatsapp_job a e req w
      = ({| code := 200;
            body := DailyBody "WhatsApp job completed."
                      (runDailyWhatsAppJob e w).1 |},
         (runDailyWhatsAppJob e w).2)
      /\ job_runs (test_whatsapp_job a e req w).2 = S (job_runs w)).
Proof.
  split_and!.
  - apply Forall_cons. split.
    { unfold test_whatsapp_job, authenticateToken. destruct (negb _); [done|].
      destruct (jwt_verify _ _ _); [|done].
      destruct (runDailyWhatsAppJob e w). cbn. by intros [?|?]. }
    apply Forall_cons. split.
    { unfold api_cron_whatsapp_resend, authenticateToken.
      destruct (negb _); [done|]. destruct (jwt_verify _ _ _); [|done].
      intros Hcode. apply resend_rejected.
      unfold whatsapp_resend_cron in Hcode. lia. }
    apply Forall_cons. split; [|constructor].
    unfold api_whatsapp_resend, authenticateToken.
    destruct (negb _); [done|]. destruct (jwt_verify _ _ _); [|done].
    intros Hcode. apply resend_rejected.
    unfold whatsapp_resend in Hcode. lia.
  - intros Hnone.
    repeat (apply Forall_cons; split);
      [..|constructor];
      unfold test_whatsapp_job, api_cron_whatsapp_resend, api_whatsapp_resend,
        authenticateToken; by rewrite Hnone.
  - unfold test_whatsapp_job, authenticateToken. destruct (negb _); [done|].
    destruct (jwt_verify _ _ _); [|done].
    pose proof (job_runs_run e w) as Hruns.
    destruct (runDailyWhatsAppJob e w) as [result w']. cbn in *. done.
Qed.

(** ** Login *)

Lemma login_signs a l email password info token :
  login a l email password = LoginOk info token ->
  exists payload,
    jwt_sign l payload (or_else (JWT_SECRET a) "fallback_secret") = Some token.
Proof.
  unfold login. destruct (_ || _); [done|].
  destruct (user_by_email _ _) as [user|]; [|done].
  destruct (negb _); [done|].
  destruct (bcrypt_compare _ _ _) as [[|]|]; [|done|done]. cbn [negb].
  destruct (jwt_sign _ _ _) as [t|] eqn:Hsign; [|done].
  intros [= _ <-]. by eexists.
Qed.

(** X18: a token the login route hands out opens the protected routes:
    sent back as [Bearer <token>], it passes the middleware, which runs
    the handler of the route on the decoded claims.  Login and middleware
    use the same secret, [JWT_SECRET] or else [fallback_secret]; the
    library is assumed to verify what it signs. *)
Theorem login_token_passes_middleware (a : AuthEnv) (l : LoginEnv)
    (email password : option string) info token
    (req : Request) (next : string -> World -> Response * World) (w : World) :
  jwt_round_trip a l ->
  login a l email password = LoginOk info token ->
  headers req !! "authorization" = Some ("Bearer " +:+ token) ->
  exists decoded,
    jwt_verify a token (or_else (JWT_SECRET a) "fallback_secret") = Some decoded
    /\ authenticateToken a req next w = next decoded w.
Proof.
  intros Hjwt [payload Hsign]%login_signs Hheader.
  destruct (Hjwt _ _ _ Hsign) as (Hne & Hword & [decoded Hverify]).
  exists decoded. split; [done|].
  assert (bearer_token req = Some token) as Htoken.
  { apply bearer_token_spec; [done|].
    exists ("Bearer " +:+ token). split; [done|].
    exists "Bearer", "". split_and!; [done|done|by left|].
    by rewrite append_nil_r. }
  unfold authenticateToken. rewrite Htoken. cbn [truthy interpolate].
  destruct (String.eqb_spec token "") as [|_]; [done|]. cbn [negb].
  by rewrite Hverify.
Qed.

Lemma login_token_passes_middleware_witness :
  exists decoded,
    jwt_verify sample_auth "good"
      (or_else (JWT_SECRET sample_auth) "fallback_secret") = Some decoded
    /\ authenticateToken sample_auth (authorized_request "Bearer good")
         (fun _ => whatsapp_resend scenario_env
                     (authorized_request "Bearer good")) scenario_world
       = whatsapp_resend scenario_env (authorized_request "Bearer good")
           scenario_world.
Proof.
  destruct (login_token_passes_middleware sample_auth sample_login
              (Some "op@example.org") (Some "secret")
              {| Users.info_id := 7; Users.info_email := Some "op@example.org";
                 Users.info_full_name := Some "Operator";
                 Users.info_role := None;
                 Users.info_is_active := Some true |}
              "good" (authorized_request "Bearer good")
              (fun _ => whatsapp_resend scenario_env
                          (authorized_request "Bearer good")) scenario_world)
    as (decoded & Hverify & Hauth).
  - intros payload secret token. cbn.
    destruct (String.eqb_spec secret "fallback_secret") as [->|]; [|done].
    intros [= <-]. split; [done|]. split; [done|]. by eexists.
  - vm_compute. reflexivity.
  - vm_compute. reflexivity.
  - exists decoded. split; [exact Hverify|exact Hauth].
Defined.

(** ** Yearly reports *)

Section reports.
Context (month_of : option string -> option nat).

(** A date falls in one of the twelve months at most. *)
Lemma month_indicator (o : option nat) :
  sum_list ((fun m => if decide (o = Some m) then 1 else 0) <$> seq 1 12)
  = if a_month o then 1 else 0.
Proof.
  destruct o as [n|]; [|done].
  do 14 (destruct n as [|n]; [vm_compute; reflexivity|]).
  unfold a_month. rewrite bool_decide_eq_false_2.
  - cbn. repeat (rewrite decide_False by (intros [=]; lia)). done.
  - intros Hin%elem_of_seq. lia.
Qed.

(** The records of the twelve months are those of any month. *)
Lemma sum_in_month {A} (tanggal : A -> option string) (l : list A) :
  sum_list ((fun m => length (in_month month_of tanggal m l)) <$> seq 1 12)
  = length (in_a_month month_of tanggal l).
Proof.
  induction l as [|d l IH]; [done|].
  assert (forall ms,
    sum_list ((fun m => length (in_month month_of tanggal m (d :: l))) <$> ms)
    = sum_list ((fun m => if decide (month_of (tanggal d) = Some m)
                          then 1 else 0) <$> ms)
      + sum_list ((fun m => length (in_month month_of tanggal m l)) <$> ms))
    as ->.
  { intros ms. induction ms as [|m ms IHm]; [done|].
    rewrite !fmap_cons. cbn [sum_list sum_list_with]. rewrite IHm.
    unfold in_month at 1. rewrite filter_cons. fold (in_month month_of tanggal m l).
    destruct (decide _); cbn [length]; cbv [Datatypes.id]; lia. }
  rewrite month_indicator, IH. unfold in_a_month. rewrite filter_cons.
  destruct (a_month _); [rewrite decide_True by done|rewrite decide_False by done];
    done.
Qed.

Lemma in_month_of_jenis j m (l : list SummaryRecord) :
  of_jenis j (in_month month_of s_tanggal m l)
  = in_month month_of s_tanggal m (of_jenis j l).
Proof.
  unfold of_jenis, in_month. rewrite !list_filter_filter.
  apply list_filter_iff. tauto.
Qed.

Lemma in_a_month_of_jenis j (l : list SummaryRecord) :
  of_jenis j (in_a_month month_of s_tanggal l)
  = in_a_month month_of s_tanggal (of_jenis j l).
Proof.
  unfold of_jenis, in_a_month. rewrite !list_filter_filter.
  apply list_filter_iff. tauto.
Qed.

(** The row of a month counts the records of that month by kind and
    leaves the four classification columns alone. *)
Lemma summary_month_row m name (l : list SummaryRecord) a b tail :
  fold_left (YearlySummary.count_record month_of m) l
    (summary_row name a b ++ tail)
  = summary_row name
      (a + length (of_jenis "ELEKTIF" (in_month month_of s_tanggal m l)))
      (b + length (of_jenis "CITO" (in_month month_of s_tanggal m l)))
    ++ tail.
Proof.
  revert a b. induction l as [|d l IH]; intros a b.
  - cbn. by rewrite !Nat.add_0_r.
  - cbn [fold_left]. unfold in_month. rewrite filter_cons.
    fold (in_month month_of s_tanggal m l).
    unfold YearlySummary.count_record at 2.
    destruct (decide (month_of (s_tanggal d) = Some m)) as [Hm|Hm].
    + rewrite (bool_decide_eq_true_2 _ Hm). unfold of_jenis. rewrite !filter_cons.
      fold (of_jenis "ELEKTIF" (in_month month_of s_tanggal m l)).
      fold (of_jenis "CITO" (in_month month_of s_tanggal m l)).
      destruct (decide (s_jenis_operasi d = Some "ELEKTIF")) as [He|He].
      * rewrite (bool_decide_eq_true_2 _ He).
        rewrite (decide_False (P := s_jenis_operasi d = Some "CITO"))
          by (rewrite He; intros [=]).
        cbn. etrans; [apply (IH (a + 1) b)|].
        by rewrite <- (Nat.add_assoc a 1).
      * rewrite (bool_decide_eq_false_2 _ He).
        destruct (decide (s_jenis_operasi d = Some "CITO")) as [Hc|Hc].
        -- rewrite (bool_decide_eq_true_2 _ Hc). cbn.
           etrans; [apply (IH a (b + 1))|].
           by rewrite <- (Nat.add_assoc b 1).
        -- rewrite (bool_decide_eq_false_2 _ Hc). cbn. apply IH.
    + rewrite (bool_decide_eq_false_2 _ Hm). apply IH.
Qed.

(** X19: the general yearly report has one row per month, in calendar
    order, and a closing TOTAL row.  The row of a month counts the records
    of that month whose kind is ELEKTIF and those whose kind is CITO; the
    TOTAL row counts the ELEKTIF and the CITO records that fall in any
    month.  The columns KHUSUS, BESAR, SEDANG and KECIL are 0 in every
    row, whatever the records. *)
Theorem yearly_summary_report (dbData : list SummaryRecord) :
  YearlySummary.handler month_of (inr dbData)
  = ReportRows
      (imap (fun i name =>
               summary_row name
                 (length (of_jenis "ELEKTIF"
                            (in_month month_of s_tanggal (i + 1) dbData)))
                 (length (of_jenis "CITO"
                            (in_month month_of s_tanggal (i + 1) dbData))))
            INDONESIAN_MONTHS
       ++ [summary_row "TOTAL"
             (length (of_jenis "ELEKTIF"
                        (in_a_month month_of s_tanggal dbData)))
             (length (of_jenis "CITO"
                        (in_a_month month_of s_tanggal dbData)))]).
Proof.
  unfold YearlySummary.handler. f_equal.
  assert (forall i name,
    YearlySummary.month_row month_of dbData i name
    = summary_row name
        (length (of_jenis "ELEKTIF"
                   (in_month month_of s_tanggal (i + 1) dbData)))
        (length (of_jenis "CITO"
                   (in_month month_of s_tanggal (i + 1) dbData)))) as Hrow.
  { intros i name. unfold YearlySummary.month_row.
    pose proof (summary_month_row (i + 1) name dbData 0 0 []) as Hrow.
    by rewrite !app_nil_r in Hrow. }
  rewrite (imap_ext _ _ _ (fun i name _ => Hrow i name)).
  f_equal. f_equal.
  rewrite !in_a_month_of_jenis, <- !sum_in_month.
  unfold YearlySummary.total_row, summary_row.
  repeat f_equal; cbn; cbv [Datatypes.id]; rewrite !in_month_of_jenis;
    f_equal; lia.
Qed.

Lemma in_month_of_penjamin p m (l : list PenjaminRecord) :
  of_penjamin p (in_month month_of p_tanggal m l)
  = in_month month_of p_tanggal m (of_penjamin p l).
Proof.
  unfold of_penjamin, in_month. rewrite !list_filter_filter.
  apply list_filter_iff. tauto.
Qed.

Lemma in_a_month_of_penjamin p (l : list PenjaminRecord) :
  of_penjamin p (in_a_month month_of p_tanggal l)
  = in_a_month month_of p_tanggal (of_penjamin p l).
Proof.
  unfold of_penjamin, in_a_month. rewrite !list_filter_filter.
  apply list_filter_iff. tauto.
Qed.

Lemma get_fold_set_keys {V} (f : string -> V) (l : list string) (o : obj V) q :
  get (fold_left (fun acc p => set acc p (f p)) l o) q
  = if decide (q ∈ l) then Some (f q) else get o q.
Proof.
  induction l as [|p l IH] using rev_ind.
  - cbn. rewrite decide_False; [done|]. apply not_elem_of_nil.
  - rewrite fold_left_app. cbn [fold_left]. rewrite get_set, IH.
    destruct (decide (p = q)) as [->|Hp].
    + rewrite decide_True; [done|]. apply elem_of_app. right. by left.
    + destruct (decide (q ∈ l)) as [Hq|Hq].
      * rewrite decide_True; [done|]. apply elem_of_app. by left.
      * rewrite decide_False; [done|].
        intros [?|?%list_elem_of_singleton]%elem_of_app; congruence.
Qed.

(** What the counting pass leaves in a cell: a count grows by the number
    of records of the month that bear the key, anything else turns into
    [NaN] at the first such record, and no cell is created. *)
Lemma get_counted m (l : list PenjaminRecord) (row : obj JsVal) q :
  get (fold_left
         (fun row d =>
            if bool_decide (month_of (p_tanggal d) = Some m)
               && bool_decide (is_Some (get row (interpolate (penjamin d))))
            then increment_at row (interpolate (penjamin d))
            else row) l row) q
  = match get row q with
    | None => None
    | Some (VNum n) =>
        Some (VNum (n + length (of_penjamin q (in_month month_of p_tanggal m l))))
    | Some v =>
        Some (if decide (of_penjamin q (in_month month_of p_tanggal m l) = [])
              then v else VNaN)
    end.
Proof.
  revert row. induction l as [|d l IH]; intros row.
  - cbn. destruct (get row q) as [[| | |]|]; try done. by rewrite Nat.add_0_r.
  - cbn [fold_left]. rewrite IH. clear IH.
    unfold in_month. rewrite filter_cons. fold (in_month month_of p_tanggal m l).
    destruct (decide (month_of (p_tanggal d) = Some m)) as [Hm|Hm].
    + rewrite (bool_decide_eq_true_2 _ Hm). cbn [andb].
      unfold of_penjamin. rewrite filter_cons.
      fold (of_penjamin q (in_month month_of p_tanggal m l)).
      destruct (decide (interpolate (penjamin d) = q)) as [Hq|Hq].
      * rewrite Hq. destruct (get row q) as [v|] eqn:Hget.
        -- rewrite bool_decide_eq_true_2 by done.
           unfold increment_at, read. rewrite get_set, Hget, decide_True by done.
           cbn [default from_option].
           destruct v as [s|n| |]; cbn [length];
             [|do 2 f_equal; lia|..];
             rewrite (decide_False (P := _ :: _ = [])) by done;
             by destruct (decide _).
        -- rewrite bool_decide_eq_false_2 by (intros [? [=]]). by rewrite Hget.
      * destruct (bool_decide _); [|done].
        unfold increment_at. by rewrite get_set, decide_False.
    + rewrite (bool_decide_eq_false_2 _ Hm). done.
Qed.

Lemma column_total_counts (rows : list (obj JsVal)) p (f : nat -> nat) :
  (forall i row, rows !! i = Some row -> get row p = Some (VNum (f i))) ->
  column_total rows p = VNum (sum_list (f <$> seq 0 (length rows))).
Proof.
  unfold column_total.
  induction rows as [|row rows IH] using rev_ind; intros Hrows; [done|].
  rewrite fold_left_app, length_app, seq_app, fmap_app.
  change (@sum_list) with (@sum_list_with nat Datatypes.id) in *.
  rewrite (sum_list_with_app Datatypes.id).
  cbn [fold_left length seq fmap list_fmap sum_list sum_list_with].
  rewrite IH.
  - unfold read. rewrite (Hrows (length rows) row).
    + cbn. cbv [Datatypes.id]. f_equal. lia.
    + rewrite lookup_app_r, Nat.sub_diag; done.
  - intros i r Hi. apply Hrows. by apply lookup_app_l_Some.
Qed.

(** The cells of the row of a month in the report by guarantor. *)
Lemma penjamin_month_row listPenjamin dbData i name q :
  get (PenjaminReport.month_row month_of listPenjamin dbData i name) q
  = if decide (q ∈ listPenjamin) then
      Some (VNum (length (of_penjamin q
                            (in_month month_of p_tanggal (i + 1) dbData))))
    else if decide (q = "BULAN") then
      Some (if decide (of_penjamin q
                         (in_month month_of p_tanggal (i + 1) dbData) = [])
            then VStr name else VNaN)
    else None.
Proof.
  unfold PenjaminReport.month_row. rewrite get_counted.
  rewrite (get_fold_set_keys (fun _ => VNum 0)).
  destruct (decide (q ∈ listPenjamin)); [done|].
  cbn [get]. destruct (String.eqb_spec "BULAN" q) as [<-|Hq].
  - by rewrite (decide_True (P := "BULAN" = "BULAN")).
  - by rewrite (decide_False (P := q = "BULAN")).
Qed.

(** X20: the report by guarantor, for a list of guarantors that is not
    empty (and holds no name of a built-in property): twelve rows and a
    closing TOTAL row, each with one column per listed guarantor and the
    column BULAN and no other.  The cell of a listed guarantor counts the
    records of that month that bear its name; the TOTAL row counts its
    records that fall in any month.  A record of an unlisted guarantor is
    counted nowhere.  BULAN holds the name of the month when BULAN is no
    listed guarantor and no record of that month names it as its
    guarantor. *)
Theorem penjamin_report names (dbData : list PenjaminRecord) :
  let listPenjamin := interpolate <$> names in
  names <> [] ->
  "__proto__" ∉ listPenjamin -> "hasOwnProperty" ∉ listPenjamin ->
  exists rows total,
    PenjaminReport.handler month_of (inr names) (inr dbData)
    = ReportRows (rows ++ [total])
    /\ length rows = 12
    /\ (forall i row, rows !! i = Some row ->
          (forall q, is_Some (get row q) <-> q = "BULAN" \/ q ∈ listPenjamin)
          /\ (forall p, p ∈ listPenjamin ->
                get row p
                = Some (VNum (length
                    (of_penjamin p
                       (in_month month_of p_tanggal (i + 1) dbData)))))
          /\ ("BULAN" ∉ listPenjamin ->
              of_penjamin "BULAN"
                (in_month month_of p_tanggal (i + 1) dbData) = [] ->
              get row "BULAN" = VStr <$> INDONESIAN_MONTHS !! i))
    /\ (forall q, is_Some (get total q) <-> q = "BULAN" \/ q ∈ listPenjamin)
    /\ (forall p, p ∈ listPenjamin ->
          get total p
          = Some (VNum (length
              (of_penjamin p (in_a_month month_of p_tanggal dbData)))))
    /\ ("BULAN" ∉ listPenjamin -> get total "BULAN" = Some (VStr "TOTAL")).
Proof.
  intros listPenjamin Hnames _ _.
  unfold PenjaminReport.handler. fold listPenjamin.
  rewrite decide_False
    by (unfold listPenjamin; rewrite length_fmap; by destruct names).
  eexists _, _. split; [reflexivity|].
  split; [by rewrite length_imap|].
  split; [|split; [|split]].
  - intros i row [name [Hname ->]]%list_lookup_imap_Some.
    split; [|split].
    + intros q. rewrite penjamin_month_row.
      destruct (decide (q ∈ listPenjamin)); [by split; [right|eexists]|].
      destruct (decide (q = "BULAN")); [by split; [left|eexists]|].
      split; [by intros [? [=]]|]. intros [?|?]; done.
    + intros p Hp. by rewrite penjamin_month_row, decide_True.
    + intros Hb Hnone.
      rewrite penjamin_month_row, decide_False, decide_True, decide_True, Hname
        by done.
      done.
  - intros q. unfold PenjaminReport.total_row.
    rewrite (get_fold_set_keys
               (fun p => column_total
                           (imap (PenjaminReport.month_row month_of
                                    listPenjamin dbData) INDONESIAN_MONTHS) p)).
    destruct (decide (q ∈ listPenjamin)); [by split; [right|eexists]|].
    cbn [get]. destruct (String.eqb_spec "BULAN" q) as [<-|Hq].
    + by split; [left|eexists].
    + split; [by intros [? [=]]|]. intros [?|?]; done.
  - intros p Hp. unfold PenjaminReport.total_row.
    rewrite (get_fold_set_keys
               (fun p => column_total
                           (imap (PenjaminReport.month_row month_of
                                    listPenjamin dbData) INDONESIAN_MONTHS) p)).
    rewrite decide_True by done. f_equal.
    rewrite (column_total_counts _ p
               (fun i => length (of_penjamin p
                           (in_month month_of p_tanggal (i + 1) dbData)))).
    + rewrite in_a_month_of_penjamin, <- sum_in_month, length_imap.
      f_equal. cbn. by rewrite !in_month_of_penjamin.
    + intros i row [name [Hname ->]]%list_lookup_imap_Some.
      by rewrite penjamin_month_row, decide_True.
  - intros Hb. unfold PenjaminReport.total_row.
    rewrite (get_fold_set_keys
               (fun p => column_total
                           (imap (PenjaminReport.month_row month_of
                                    listPenjamin dbData) INDONESIAN_MONTHS) p)).
    by rewrite decide_False.
Qed.

(** X21: the report of one unit, when [poli] is given and [mock] is not
    [true]: one row per month, in calendar order, and a closing TOTAL row.
    The row of a month counts the ELEKTIF and the CITO records of that
    month, JUMLAH is their sum, and KHUSUS, BESAR, SEDANG and KECIL are 0
    whatever the records; the TOTAL row has the columns ELEKTIF, CITO and
    JUMLAH only and counts the records that fall in any month. *)
Theorem poli_report random_below poli mock (dbData : list SummaryRecord) :
  truthy poli = true -> mock <> Some "true" ->
  PoliReport.handler month_of random_below poli mock (inr dbData)
  = ReportRows
      (imap (fun i name =>
               poli_row name
                 (length (of_jenis "ELEKTIF"
                            (in_month month_of s_tanggal (i + 1) dbData)))
                 (length (of_jenis "CITO"
                            (in_month month_of s_tanggal (i + 1) dbData))))
            INDONESIAN_MONTHS
       ++ [short_row "TOTAL"
             (length (of_jenis "ELEKTIF"
                        (in_a_month month_of s_tanggal dbData)))
             (length (of_jenis "CITO"
                        (in_a_month month_of s_tanggal dbData)))]).
Proof.
  intros Hpoli Hmock. unfold PoliReport.handler.
  rewrite Hpoli, (bool_decide_eq_false_2 _ Hmock). cbn [negb andb]. f_equal.
  assert (forall i name,
    PoliReport.month_row month_of dbData i name
    = poli_row name
        (length (of_jenis "ELEKTIF"
                   (in_month month_of s_tanggal (i + 1) dbData)))
        (length (of_jenis "CITO"
                   (in_month month_of s_tanggal (i + 1) dbData)))) as Hrow.
  { intros i name. unfold PoliReport.month_row, PoliReport.count_record.
    pose proof (summary_month_row (i + 1) name dbData 0 0 [("JUMLAH", VNum 0)])
      as Hfold.
    cbn [summary_row app] in Hfold. cbv zeta. rewrite Hfold. reflexivity. }
  rewrite (imap_ext _ _ _ (fun i name _ => Hrow i name)).
  f_equal. f_equal.
  rewrite !in_a_month_of_jenis, <- !sum_in_month.
  unfold PoliReport.total_row, short_row.
  cbn. cbv [Datatypes.id]. rewrite !in_month_of_jenis.
  do 4 (apply f_equal2; [first [reflexivity | do 2 f_equal; lia]|]).
  reflexivity.
Qed.

(** X22: with [mock=true] the same route answers made-up figures: it
    asks neither for [poli] nor for the records (a failed query goes
    unnoticed), the twelve rows hold the random draws in the order they
    are made, and JUMLAH is the sum of ELEKTIF and CITO in every row, the
    TOTAL row included. *)
Theorem poli_mock_report random_below poli dbData :
  PoliReport.handler month_of random_below poli (Some "true") dbData
  = ReportRows
      (imap (fun i name =>
               short_row name (random_below (2 * i) 50)
                 (random_below (2 * i + 1) 20))
            INDONESIAN_MONTHS
       ++ [short_row "TOTAL"
             (sum_list ((fun i => random_below (2 * i) 50) <$> seq 0 12))
             (sum_list ((fun i => random_below (2 * i + 1) 20) <$> seq 0 12))]).
Proof.
  unfold PoliReport.handler.
  rewrite bool_decide_eq_true_2 by done. rewrite andb_false_r.
  f_equal. unfold PoliReport.total_row, short_row.
  cbn. cbv [Datatypes.id].
  do 12 (apply f_equal2; [reflexivity|]).
  apply f_equal2; [|reflexivity].
  do 4 (apply f_equal2; [first [reflexivity | do 2 f_equal; lia]|]).
  reflexivity.
Qed.

End reports.

Lemma penjamin_report_witness :
  exists rows total,
    PenjaminReport.handler iso_month (inr [Some "BPJS"; Some "UMUM"])
      (inr sample_penjamin)
    = ReportRows (rows ++ [total])
    /\ length rows = 12
    /\ get total "BPJS" = Some (VNum 2).
Proof.
  destruct (penjamin_report iso_month [Some "BPJS"; Some "UMUM"]
              sample_penjamin) as (rows & total & Hrows & Hlen & _ & _ & Htotal & _).
  - done.
  - apply (bool_decide_unpack _). vm_compute. exact I.
  - apply (bool_decide_unpack _). vm_compute. exact I.
  - exists rows, total. split; [exact Hrows|]. split; [exact Hlen|].
    apply (Htotal "BPJS"). apply (bool_decide_unpack _). vm_compute. exact I.
Defined.

Lemma poli_report_witness :
  PoliReport.handler iso_month (fun _ _ => 0) (Some "POLI BEDAH") None
    (inr sample_summary)
  = ReportRows
      (imap (fun i name =>
               poli_row name
                 (length (of_jenis "ELEKTIF"
                            (in_month iso_month s_tanggal (i + 1)
                               sample_summary)))
                 (length (of_jenis "CITO"
                            (in_month iso_month s_tanggal (i + 1)
                               sample_summary))))
            INDONESIAN_MONTHS
       ++ [short_row "TOTAL"
             (length (of_jenis "ELEKTIF"
                        (in_a_month iso_month s_tanggal sample_summary)))
             (length (of_jenis "CITO"
                        (in_a_month iso_month s_tanggal sample_summary)))]).
Proof.
  apply (poli_report iso_month (fun _ _ => 0) (Some "POLI BEDAH") None
           sample_summary); [reflexivity|discriminate].
Defined.
